(** * Paired-exam attempt flow of the examination-system client

    A shallow embedding of the pairing / attempt state machine of the
    Next.js client:

    - [src/lib/socket-client.ts] and the socket provider
      ([components/providers/socket-provider.tsx]): module [SocketClient]
      and [SocketProvider];
    - [src/lib/api-client.ts] ([attemptsAPI]): module [ApiClient];
    - [app/quiz/start/[templateId]/page.tsx]: module [StartPage];
    - [app/quiz/attempt/[attemptId]/page.tsx]: module [AttemptPage].

    React is modelled by explicit state passing.  A component is a world
    record holding the latest React state, the snapshot of that state the
    closures of the last committed render have captured, and logs of the
    effects performed (REST calls, navigation, toasts, timers).  An [async]
    function is split at its [await]: the synchronous prefix issues the
    request, the continuation runs when the promise settles. *)

From stdpp Require Import base gmap strings list sorting.
From Stdlib Require Import ZArith Ascii String DecimalString Lia.

Open Scope string_scope.
Open Scope Z_scope.

(** ** JavaScript values used by the pages *)

Module JS.

(** Strings are modelled by the bytes of their UTF-8 encoding.
    [String.prototype.trim] removes the code points of the ECMAScript
    productions WhiteSpace and LineTerminator from both ends.  The ones
    encoded in one byte are TAB, LF, VT, FF, CR and SPACE. *)
Definition isWhiteSpace (c : ascii) : bool :=
  let n := nat_of_ascii c in
  ((9 <=? n)%nat && (n <=? 13)%nat) || (n =? 32)%nat.

(** In two bytes: U+00A0 (no-break space), encoded C2 A0. *)
Definition isWhiteSpace2 (c1 c2 : ascii) : bool :=
  (nat_of_ascii c1 =? 194)%nat && (nat_of_ascii c2 =? 160)%nat.

(** In three bytes: U+1680 (E1 9A 80), U+2000 to U+200A (E2 80 80 to
    E2 80 8A), the line and paragraph separators U+2028 and U+2029
    (E2 80 A8, E2 80 A9), U+202F (E2 80 AF), U+205F (E2 81 9F), the
    ideographic space U+3000 (E3 80 80) and the byte order mark U+FEFF
    (EF BB BF). *)
Definition isWhiteSpace3 (c1 c2 c3 : ascii) : bool :=
  let n1 := nat_of_ascii c1 in
  let n2 := nat_of_ascii c2 in
  let n3 := nat_of_ascii c3 in
  ((n1 =? 225)%nat && (n2 =? 154)%nat && (n3 =? 128)%nat)
  || ((n1 =? 226)%nat && (n2 =? 128)%nat
      && (((128 <=? n3)%nat && (n3 <=? 138)%nat)
          || (n3 =? 168)%nat || (n3 =? 169)%nat || (n3 =? 175)%nat))
  || ((n1 =? 226)%nat && (n2 =? 129)%nat && (n3 =? 159)%nat)
  || ((n1 =? 227)%nat && (n2 =? 128)%nat && (n3 =? 128)%nat)
  || ((n1 =? 239)%nat && (n2 =? 187)%nat && (n3 =? 191)%nat).



Definition isLower (c : ascii) : bool :=
  let n := nat_of_ascii c in (97 <=? n)%nat && (n <=? 122)%nat.

Definition isEmpty (s : string) : bool :=
  match s with EmptyString => true | String _ _ => false end.

(** The string is the encoding of one white-space code point. *)
Definition isWhiteSpaceCode (s : string) : bool :=
  match s with
  | String c1 EmptyString => isWhiteSpace c1
  | String c1 (String c2 EmptyString) => isWhiteSpace2 c1 c2
  | String c1 (String c2 (String c3 EmptyString)) => isWhiteSpace3 c1 c2 c3
  | _ => false
  end.




Fixpoint trimStart (s : string) : string :=
  match s with
  | EmptyString => EmptyString
  | String c1 r1 =>
      if isWhiteSpace c1 then trimStart r1
      else
        match r1 with
        | EmptyString => s
        | String c2 r2 =>
            if isWhiteSpace2 c1 c2 then trimStart r2
            else
              match r2 with
              | EmptyString => s
              | String c3 r3 =>
                  if isWhiteSpace3 c1 c2 c3 then trimStart r3 else s
              end
        end
  end.

(** Once the rest is trimmed, what is left of the string is dropped when
    it is one white-space code point. *)
Fixpoint trimEnd (s : string) : string :=
  match s with
  | EmptyString => EmptyString
  | String c r =>
      let r' := trimEnd r in
      if isWhiteSpaceCode (String c r') then EmptyString else String c r'
  end.

Definition trim (s : string) : string := trimEnd (trimStart s).

(** [String.prototype.toUpperCase] on the letters a to z; every other byte
    is kept.  This is the function on strings of ASCII characters
    ([isAscii]); the case mapping of other letters is not modelled, and
    statements about the result of [toUpperCase] are made for such
    strings. *)
Definition upperChar (c : ascii) : ascii :=
  if isLower c then ascii_of_nat (nat_of_ascii c - 32) else c.

Fixpoint toUpperCase (s : string) : string :=
  match s with
  | EmptyString => EmptyString
  | String c r => String (upperChar c) (toUpperCase r)
  end.

Fixpoint lastChar (s : string) : option ascii :=
  match s with
  | EmptyString => None
  | String c EmptyString => Some c
  | String _ r => lastChar r
  end.

Definition firstChar (s : string) : option ascii :=
  match s with EmptyString => None | String c _ => Some c end.



(** Truthiness of an optional string ([undefined], [null] and [''] are
    falsy) and of an optional number ([undefined], [null] and [0]). *)
Definition truthyStr (o : option string) : bool :=
  match o with Some s => negb (isEmpty s) | None => false end.

Definition truthyNum (o : option Z) : bool :=
  match o with Some n => negb (n =? 0) | None => false end.

(** [o || d] for an optional string [o] and a string [d]. *)
Definition orStr (o : option string) (d : string) : string :=
  match o with
  | Some s => if isEmpty s then d else s
  | None => d
  end.

(** [o || null] for an optional string. *)
Definition orNull (o : option string) : option string :=
  if truthyStr o then o else None.

(** A thrown [Error], with the [status] property that
    [getActiveAttemptDetails] attaches on a 409 answer. *)
Record Error := mkError { message : string; errStatus : option string }.

(** What axios rejects with: [error.response] may be missing; when present
    it has the HTTP status and the [message] / [status] fields of the body. *)
Record AxiosResponse := mkAxiosResponse {
  httpStatus : Z;
  dataMessage : option string;
  dataStatus : option string
}.

Record AxiosError := mkAxiosError { response : option AxiosResponse }.

(** [error.response?.data?.message] *)
Definition responseMessage (e : AxiosError) : option string :=
  match response e with Some r => dataMessage r | None => None end.

End JS.

(** ** [src/lib/socket-client.ts] *)

Module SocketClient.

(** A socket.io [Socket] object: its [connected] property and, in place of
    the wire, the events it was asked to emit. *)
Record Socket := mkSocket {
  connected : bool;
  emitted : list (string * list string)
}.

(** Objects live in a store and are referred to by location, so the
    module-level variable [socket] and the provider's [socketInstance] can
    alias the same object. *)
Record Store := mkStore {
  heap : gmap nat Socket;
  socket : option nat
}.

Definition empty_store : Store := mkStore ∅ None.

Definition getSocket (st : Store) : option nat := socket st.

(** [initSocket]: creates the socket ([autoConnect: false]) the first time. *)
Definition initSocket (st : Store) : Store * nat :=
  match socket st with
  | Some l => (st, l)
  | None =>
      let l := fresh (dom (heap st)) in
      (mkStore (<[l := mkSocket false []]> (heap st)) (Some l), l)
  end.

(** [currentSocket.emit(event, ...args)] *)
Definition socket_emit (l : nat) (event : string) (args : list string)
    (st : Store) : Store :=
  mkStore (alter (fun s => mkSocket (connected s) (emitted s ++ [(event, args)]))
             l (heap st))
          (socket st).

Definition is_connected (st : Store) (l : nat) : bool :=
  match heap st !! l with Some s => connected s | None => false end.

(** [emitSocketEvent] *)
Definition emitSocketEvent (event : string) (args : list string)
    (st : Store) : Store :=
  match getSocket st with
  | Some l => if is_connected st l then socket_emit l event args st else st
  | None => st
  end.

(** All events emitted so far, on any socket of the store. *)
Definition all_emitted (st : Store) : list (nat * list (string * list string)) :=
  map_to_list (emitted <$> heap st).

End SocketClient.

(** ** [components/providers/socket-provider.tsx] *)

Module SocketProvider.
Import SocketClient.

(** [emit] of the socket context; [socketInstance] is the provider's React
    state.  Returns the store after the call and the boolean result. *)
Definition emit (socketInstance : option nat) (event : string)
    (args : list string) (st : Store) : Store * bool :=
  match socketInstance with
  | Some l =>
      if is_connected st l
      then (emitSocketEvent event args st, true)
      else (st, false)
  | None => (st, false)
  end.

End SocketProvider.

(** ** Routes, toasts *)

Module Router.

(** The pages the flow navigates to; an attempt id of [None] is [NaN]. *)
Inductive Route :=
| QuizAttempt (attemptId : option Z)
| QuizResult (attemptId : option Z)
| Dashboard
| Login.

(** A number interpolated into a template literal. *)
Definition numberToString (n : option Z) : string :=
  match n with
  | Some z => NilZero.string_of_int (Z.to_int z)
  | None => "NaN"
  end.

Definition path (r : Route) : string :=
  match r with
  | QuizAttempt n => "/quiz/attempt/" ++ numberToString n
  | QuizResult n => "/quiz/result/" ++ numberToString n
  | Dashboard => "/dashboard"
  | Login => "/login"
  end.

(** [router.push] adds a history entry, [router.replace] does not. *)
Inductive Nav :=
| Push (r : Route)
| Replace (r : Route).

Definition target (n : Nav) : Route :=
  match n with Push r => r | Replace r => r end.

End Router.

Module Toast.

Inductive Kind := info | success | error | warning.

Record t := mk { kind : Kind; text : string; description : option string }.

End Toast.

(** ** [src/lib/api-client.ts] *)

Module ApiClient.
Import JS.

Inductive Role := sender | receiver.

Inductive BaseType := intelligence | communication.

Record ApiUser := mkApiUser { id : Z; username : string }.

Record ApiTemplateSummary := mkTemplate {
  tpl_id : Z;
  name : string;
  base_type : BaseType;
  tpl_description : option string;
  time_limit_seconds : Z;
  question_count : Z
}.

(** One element of the [answers] array of the submit request. *)
Record FormattedAnswer := mkFormatted {
  slotOrder : N;
  fa_answerText : option string;
  fa_answerCoordX : option string;
  fa_answerCoordY : option string
}.

(** The REST calls of [templatesAPI] and [attemptsAPI].  A [templateId] or
    [attemptId] of [None] is [NaN]. *)
Inductive Request :=
| GetTemplates
| PostStart (templateId : option Z) (role : option Role)
| GetActive (attemptId : Z)
| PostSubmit (attemptId : option Z) (answers : list FormattedAnswer)
| PostJoinPairing (pairingCode : string) (templateId : option Z).

(** How the axios promise of a call settles. *)
Inductive Outcome (A : Type) :=
| Fulfilled (data : A)
| Failed (e : AxiosError).
Arguments Fulfilled {A} data.
Arguments Failed {A} e.

(** How the promise of the API function settles. *)
Inductive Settled (A : Type) :=
| Returned (a : A)
| Thrown (e : Error).
Arguments Returned {A} a.
Arguments Thrown {A} e.

(** Body of the answers to [/attempts/start] and [/attempts/join_pairing]. *)
Record AttemptResponse := mkAttemptResponse {
  r_attemptId : option Z;
  r_pairingCode : option string;
  r_message : option string
}.

Inductive QuestionType := coordinate | elevation | communication_q.

Record AttemptQuestion := mkQuestion {
  slot_order : N;
  question_id : Z;
  q_type : QuestionType;
  content : string
}.

(** Body of the answer to [/attempts/{id}/active].  [a_startTime] is the
    instant denoted by the ISO string, in milliseconds since the epoch,
    when the string is present and not empty. *)
Record ActiveAttempt := mkActive {
  a_userId : option Z;
  a_status : option string;
  a_role : option Role;
  a_pairingCode : option string;
  a_templateName : option string;
  a_questions : option (list AttemptQuestion);
  a_startTime : option Z;
  a_timeLimit : option Z
}.

Definition wrap {A} (dflt : string) (o : Outcome A) : Settled A :=
  match o with
  | Fulfilled d => Returned d
  | Failed e => Thrown (mkError (orStr (responseMessage e) dflt) None)
  end.

Definition getActiveTemplates_request : Request := GetTemplates.

(** [response.data || []] *)
Definition getActiveTemplates
    (o : Outcome (option (list ApiTemplateSummary)))
    : Settled (list ApiTemplateSummary) :=
  match o with
  | Fulfilled d => Returned (default [] d)
  | Failed e =>
      Thrown (mkError (orStr (responseMessage e)
                         "无法加载试卷模板，请稍后重试") None)
  end.

(** [if (role) payload.role = role] *)
Definition startAttempt_request (templateId : option Z) (role : option Role)
    : Request := PostStart templateId role.

Definition startAttempt (o : Outcome AttemptResponse) : Settled AttemptResponse :=
  wrap "无法开始答题，请稍后重试" o.

Definition getActiveAttemptDetails_request (attemptId : Z) : Request :=
  GetActive attemptId.

(** A 409 answer becomes an error carrying the [status] of the body. *)
Definition getActiveAttemptDetails (o : Outcome (option ActiveAttempt))
    : Settled (option ActiveAttempt) :=
  match o with
  | Fulfilled d => Returned d
  | Failed e =>
      match response e with
      | Some r =>
          if httpStatus r =? 409
          then Thrown (mkError (orStr (dataMessage r) "该答题已结束。")
                               (dataStatus r))
          else Thrown (mkError (orStr (dataMessage r) "无法加载答题数据") None)
      | None => Thrown (mkError "无法加载答题数据" None)
      end
  end.

Definition submitAttempt_request (attemptId : option Z)
    (answers : list FormattedAnswer) : Request := PostSubmit attemptId answers.

Definition submitAttempt {A} (o : Outcome A) : Settled A :=
  wrap "提交答案时发生错误" o.

Definition joinPairing_request (pairingCode : string) (templateId : option Z)
    : Request := PostJoinPairing pairingCode templateId.

Definition joinPairing (o : Outcome AttemptResponse) : Settled AttemptResponse :=
  wrap "配对失败，请检查配对码或稍后重试" o.

(** Values compared by the dependency arrays of the effects. *)
#[global] Instance Role_eq_dec : EqDecision Role.
Proof. solve_decision. Defined.
#[global] Instance BaseType_eq_dec : EqDecision BaseType.
Proof. solve_decision. Defined.
#[global] Instance ApiUser_eq_dec : EqDecision ApiUser.
Proof. solve_decision. Defined.
#[global] Instance ApiTemplateSummary_eq_dec : EqDecision ApiTemplateSummary.
Proof. solve_decision. Defined.

End ApiClient.

(** ** [app/quiz/start/[templateId]/page.tsx] *)

Module StartPage.
Import JS ApiClient Router.

(** [StartPageState] *)
Record State := mkState {
  templateInfo : option ApiTemplateSummary;
  isLoadingTemplate : bool;
  isStartingAttempt : bool;
  isJoiningPairing : bool;
  startError : option string;
  pairingError : option string;
  attemptId : option Z;
  pairingCodeInput : string;
  pairingCodeDisplay : option string;
  role : option Role;
  isPartnerConnected : bool
}.

(** The argument of [useState]. *)
Definition initialState : State :=
  mkState None true false false None None None "" None None false.

(** Field updates, for the object spreads [{ ...prev, f: v }]. *)
Definition set_templateInfo v (s : State) : State :=
  mkState v (isLoadingTemplate s) (isStartingAttempt s) (isJoiningPairing s)
    (startError s) (pairingError s) (attemptId s) (pairingCodeInput s)
    (pairingCodeDisplay s) (role s) (isPartnerConnected s).
Definition set_isLoadingTemplate v (s : State) : State :=
  mkState (templateInfo s) v (isStartingAttempt s) (isJoiningPairing s)
    (startError s) (pairingError s) (attemptId s) (pairingCodeInput s)
    (pairingCodeDisplay s) (role s) (isPartnerConnected s).
Definition set_isStartingAttempt v (s : State) : State :=
  mkState (templateInfo s) (isLoadingTemplate s) v (isJoiningPairing s)
    (startError s) (pairingError s) (attemptId s) (pairingCodeInput s)
    (pairingCodeDisplay s) (role s) (isPartnerConnected s).
Definition set_isJoiningPairing v (s : State) : State :=
  mkState (templateInfo s) (isLoadingTemplate s) (isStartingAttempt s) v
    (startError s) (pairingError s) (attemptId s) (pairingCodeInput s)
    (pairingCodeDisplay s) (role s) (isPartnerConnected s).
Definition set_startError v (s : State) : State :=
  mkState (templateInfo s) (isLoadingTemplate s) (isStartingAttempt s)
    (isJoiningPairing s) v (pairingError s) (attemptId s) (pairingCodeInput s)
    (pairingCodeDisplay s) (role s) (isPartnerConnected s).
Definition set_pairingError v (s : State) : State :=
  mkState (templateInfo s) (isLoadingTemplate s) (isStartingAttempt s)
    (isJoiningPairing s) (startError s) v (attemptId s) (pairingCodeInput s)
    (pairingCodeDisplay s) (role s) (isPartnerConnected s).
Definition set_attemptId v (s : State) : State :=
  mkState (templateInfo s) (isLoadingTemplate s) (isStartingAttempt s)
    (isJoiningPairing s) (startError s) (pairingError s) v (pairingCodeInput s)
    (pairingCodeDisplay s) (role s) (isPartnerConnected s).
Definition set_pairingCodeInput v (s : State) : State :=
  mkState (templateInfo s) (isLoadingTemplate s) (isStartingAttempt s)
    (isJoiningPairing s) (startError s) (pairingError s) (attemptId s) v
    (pairingCodeDisplay s) (role s) (isPartnerConnected s).
Definition set_pairingCodeDisplay v (s : State) : State :=
  mkState (templateInfo s) (isLoadingTemplate s) (isStartingAttempt s)
    (isJoiningPairing s) (startError s) (pairingError s) (attemptId s)
    (pairingCodeInput s) v (role s) (isPartnerConnected s).
Definition set_role v (s : State) : State :=
  mkState (templateInfo s) (isLoadingTemplate s) (isStartingAttempt s)
    (isJoiningPairing s) (startError s) (pairingError s) (attemptId s)
    (pairingCodeInput s) (pairingCodeDisplay s) v (isPartnerConnected s).
Definition set_isPartnerConnected v (s : State) : State :=
  mkState (templateInfo s) (isLoadingTemplate s) (isStartingAttempt s)
    (isJoiningPairing s) (startError s) (pairingError s) (attemptId s)
    (pairingCodeInput s) (pairingCodeDisplay s) (role s) v.

(** What the hooks [useParams], [useSearchParams], [useAuth] and
    [useSocket] hand to a render. *)
Record Env := mkEnv {
  templateId : option Z;              (* [NaN] is [None] *)
  roleParam : option string;          (* [searchParams.get('role')] *)
  user : option ApiUser;
  isAuthLoading : bool;
  socket : bool;                      (* [socket] is not [null] *)
  isConnected : bool;
  socketConnectError : option string
}.

(** Dependency arrays of the effects, as of their last run. *)
Record Deps := mkDeps {
  roleDeps : option (option string);
  templateDeps : option (option Z * option ApiUser * bool);
  startDeps : option (option ApiTemplateSummary * option Role * option Z
                      * bool * bool * option ApiUser * option Z);
  receiverDeps : option (bool * bool * option Role * bool);
  senderDeps : option (bool * bool * option Role * option string * option string);
  errorDeps : option (option string)
}.

Definition noDeps : Deps := mkDeps None None None None None None.

(** The component instance.  [state] is the latest React state (every
    [setState(prev => ...)] is applied to it at once); [view] is the state
    the last committed render read, which is what the closures created by
    that render see.  A pending continuation keeps what its closure read. *)
Record World := mkWorld {
  env : Env;
  state : State;
  view : State;
  deps : Deps;
  receiverListeners : bool;            (* effect 7 has subscribed *)
  senderListeners : option State;      (* effect 7A has subscribed, with its closure *)
  pendingTemplates : list (option Z);
  pendingStarts : list (option Role);
  pendingJoins : nat;
  requests : list Request;
  nav : list Nav;
  toasts : list Toast.t
}.

Definition setState (f : State -> State) (w : World) : World :=
  mkWorld (env w) (f (state w)) (view w) (deps w) (receiverListeners w)
    (senderListeners w) (pendingTemplates w) (pendingStarts w)
    (pendingJoins w) (requests w) (nav w) (toasts w).
Definition set_env e (w : World) : World :=
  mkWorld e (state w) (view w) (deps w) (receiverListeners w)
    (senderListeners w) (pendingTemplates w) (pendingStarts w)
    (pendingJoins w) (requests w) (nav w) (toasts w).
Definition set_view v (w : World) : World :=
  mkWorld (env w) (state w) v (deps w) (receiverListeners w)
    (senderListeners w) (pendingTemplates w) (pendingStarts w)
    (pendingJoins w) (requests w) (nav w) (toasts w).
Definition set_deps d (w : World) : World :=
  mkWorld (env w) (state w) (view w) d (receiverListeners w)
    (senderListeners w) (pendingTemplates w) (pendingStarts w)
    (pendingJoins w) (requests w) (nav w) (toasts w).
Definition set_receiverListeners b (w : World) : World :=
  mkWorld (env w) (state w) (view w) (deps w) b
    (senderListeners w) (pendingTemplates w) (pendingStarts w)
    (pendingJoins w) (requests w) (nav w) (toasts w).
Definition set_senderListeners l (w : World) : World :=
  mkWorld (env w) (state w) (view w) (deps w) (receiverListeners w)
    l (pendingTemplates w) (pendingStarts w)
    (pendingJoins w) (requests w) (nav w) (toasts w).
Definition set_pendingTemplates l (w : World) : World :=
  mkWorld (env w) (state w) (view w) (deps w) (receiverListeners w)
    (senderListeners w) l (pendingStarts w)
    (pendingJoins w) (requests w) (nav w) (toasts w).
Definition set_pendingStarts l (w : World) : World :=
  mkWorld (env w) (state w) (view w) (deps w) (receiverListeners w)
    (senderListeners w) (pendingTemplates w) l
    (pendingJoins w) (requests w) (nav w) (toasts w).
Definition set_pendingJoins n (w : World) : World :=
  mkWorld (env w) (state w) (view w) (deps w) (receiverListeners w)
    (senderListeners w) (pendingTemplates w) (pendingStarts w)
    n (requests w) (nav w) (toasts w).
Definition send (r : Request) (w : World) : World :=
  mkWorld (env w) (state w) (view w) (deps w) (receiverListeners w)
    (senderListeners w) (pendingTemplates w) (pendingStarts w)
    (pendingJoins w) (requests w ++ [r]) (nav w) (toasts w).
Definition navigate (n : Nav) (w : World) : World :=
  mkWorld (env w) (state w) (view w) (deps w) (receiverListeners w)
    (senderListeners w) (pendingTemplates w) (pendingStarts w)
    (pendingJoins w) (requests w) (nav w ++ [n]) (toasts w).
Definition toast (k : Toast.Kind) (text : string) (d : option string)
    (w : World) : World :=
  mkWorld (env w) (state w) (view w) (deps w) (receiverListeners w)
    (senderListeners w) (pendingTemplates w) (pendingStarts w)
    (pendingJoins w) (requests w) (nav w) (toasts w ++ [Toast.mk k text d]).

(** The component as mounted, before its first commit. *)
Definition mount (e : Env) : World :=
  mkWorld e initialState initialState noDeps false None [] [] 0%nat [] [] [].

Definition is_sender (r : option Role) : bool := bool_decide (r = Some sender).
Definition is_receiver (r : option Role) : bool := bool_decide (r = Some receiver).
Definition is_communication (t : ApiTemplateSummary) : bool :=
  bool_decide (base_type t = communication).
Definition is_intelligence (t : ApiTemplateSummary) : bool :=
  bool_decide (base_type t = intelligence).
Definition isSome {A} (o : option A) : bool :=
  match o with Some _ => true | None => false end.

(** *** Effect 1: the role, from the query string *)
Definition roleEffect (w : World) : World :=
  let r := roleParam (env w) in
  if bool_decide (r = Some "sender") then setState (set_role (Some sender)) w
  else if bool_decide (r = Some "receiver")
       then setState (set_role (Some receiver)) w
       else setState (set_role None) w.

(** *** 2. [fetchTemplateDetails], up to its [await] *)
Definition fetchTemplateDetails (w : World) : World :=
  let e := env w in
  if negb (isSome (templateId e)) || negb (isSome (user e)) then
    if negb (isSome (templateId e)) then
      setState (fun prev => set_isLoadingTemplate false
                  (set_startError (Some "无效的试卷 ID。") prev)) w
    else if negb (isSome (user e)) && negb (isAuthLoading e) then
      setState (fun prev => set_isLoadingTemplate false
                  (set_startError (Some "请先登录。") prev)) w
    else setState (set_isLoadingTemplate false) w
  else
    send getActiveTemplates_request
      (set_pendingTemplates (pendingTemplates w ++ [templateId e])
         (setState (fun prev => set_startError None
                      (set_isLoadingTemplate true prev)) w)).

(** ... and after it; [tid] is the [templateId] the closure captured. *)
Definition fetchTemplateDetails_settled (tid : option Z)
    (o : Outcome (option (list ApiTemplateSummary))) (w : World) : World :=
  let catch (err : Error) :=
    setState (fun prev => set_isLoadingTemplate false
                (set_startError
                   (Some (orStr (Some (message err))
                            "无法加载试卷详情，请返回重试。")) prev)) w in
  match getActiveTemplates o with
  | Returned templates =>
      match List.find (fun t => bool_decide (Some (tpl_id t) = tid)) templates with
      | Some foundTemplate =>
          setState (fun prev => set_isLoadingTemplate false
                      (set_templateInfo (Some foundTemplate) prev)) w
      | None =>
          catch (mkError "无法找到指定的试卷模板，或该模板未激活。" None)
      end
  | Thrown err => catch err
  end.

Definition templateEffect (w : World) : World :=
  if negb (isAuthLoading (env w)) then fetchTemplateDetails w else w.

(** *** 3. [handleStartAttempt], up to its [await]

    The guard reads [user], [templateId] and the [state] of the render
    that created the callback. *)
Definition handleStartAttempt (w : World) : World :=
  let v := view w in
  let e := env w in
  if negb (isSome (user e)) || negb (isSome (templateInfo v))
     || negb (isSome (templateId e)) || isStartingAttempt v then w
  else
    match templateInfo v with
    | None => w
    | Some info =>
        if is_communication info && negb (is_sender (role v)) then w
        else
          send (startAttempt_request (templateId e) (role v))
            (set_pendingStarts (pendingStarts w ++ [role v])
               (setState (fun prev => set_startError None
                            (set_isStartingAttempt true prev)) w))
    end.

(** ... and after it; [crole] is the [state.role] the closure captured. *)
Definition handleStartAttempt_settled (crole : option Role)
    (o : Outcome AttemptResponse) (w : World) : World :=
  let catch (err : Error) :=
    setState (fun prev => set_isStartingAttempt false
                (set_startError
                   (Some (orStr (Some (message err))
                            "开始答题时发生未知错误，请重试。")) prev)) w in
  match startAttempt o with
  | Returned response =>
      match r_attemptId response with
      | Some aid =>
          if truthyNum (Some aid) then
            let w1 :=
              setState (fun prev => set_isStartingAttempt false
                          (set_pairingCodeDisplay (orNull (r_pairingCode response))
                             (set_attemptId (Some aid) prev))) w in
            if negb (is_sender crole && truthyStr (r_pairingCode response))
            then navigate (Push (QuizAttempt (Some aid))) w1
            else w1
          else catch (mkError (orStr (r_message response)
                                 "开始答题失败，未返回尝试 ID。") None)
      | None => catch (mkError (orStr (r_message response)
                                  "开始答题失败，未返回尝试 ID。") None)
      end
  | Thrown err => catch err
  end.

(** *** 4. The effect that triggers [handleStartAttempt] *)
Definition startEffect (w : World) : World :=
  let v := view w in
  match templateInfo v with
  | Some info =>
      if isSome (role v) && negb (truthyNum (attemptId v))
         && negb (isStartingAttempt v) && negb (isLoadingTemplate v)
      then if is_sender (role v) || is_intelligence info
           then handleStartAttempt w else w
      else w
  | None => w
  end.

(** *** 6. [handleJoinPairing], up to its [await] *)
Definition handleJoinPairing (w : World) : World :=
  let v := view w in
  if isEmpty (trim (pairingCodeInput v)) then
    setState (set_pairingError (Some "请输入有效的配对码。")) w
  else
    send (joinPairing_request (toUpperCase (trim (pairingCodeInput v)))
            (templateId (env w)))
      (set_pendingJoins (S (pendingJoins w))
         (toast Toast.info "正在尝试加入配对..." None
            (setState (fun prev => set_pairingError None
                         (set_isJoiningPairing true prev)) w))).

(** ... and after it. *)
Definition handleJoinPairing_settled (o : Outcome AttemptResponse)
    (w : World) : World :=
  let catch (err : Error) :=
    let errorMsg := orStr (Some (message err)) "加入配对失败，请重试。" in
    toast Toast.error "加入失败" (Some errorMsg)
      (setState (fun prev => set_isJoiningPairing false
                   (set_pairingError (Some errorMsg) prev)) w) in
  match joinPairing o with
  | Returned response =>
      match r_attemptId response with
      | Some aid =>
          if truthyNum (Some aid) then
            navigate (Push (QuizAttempt (Some aid)))
              (toast Toast.success "配对成功！正在进入答题..." None w)
          else catch (mkError (orStr (r_message response)
                                 "配对失败，未能获取答题ID") None)
      | None => catch (mkError (orStr (r_message response)
                                  "配对失败，未能获取答题ID") None)
      end
  | Thrown err => catch err
  end.

(** *** Realtime events *)
Inductive SocketMsg :=
| pairing_success (senderUsername receiverUsername : option string)
| pairing_failed (message : option string)
| start_exam (attemptId : option Z)
| socket_error (message : option string)
| opponent_disconnected.

(** 7. The listeners of the receiver. *)
Definition receiverEffect (w : World) : World :=
  let e := env w in
  let v := view w in
  if negb (socket e) || negb (isConnected e) || negb (is_receiver (role v))
  then set_receiverListeners false w
  else set_receiverListeners (isJoiningPairing v) w.

Definition receiverHandler (m : SocketMsg) (w : World) : World :=
  match m with
  | pairing_success senderUsername _ =>
      toast Toast.success "配对成功！"
        (Some ("已与 " ++ orStr senderUsername "发送方" ++ " 配对。")) w
  | pairing_failed message =>
      let errorMsg := orStr message "配对失败，请检查配对码或稍后重试。" in
      toast Toast.error "配对失败" (Some errorMsg)
        (setState (fun prev => set_isJoiningPairing false
                     (set_pairingError (Some errorMsg) prev)) w)
  | start_exam aid =>
      match aid with
      | Some n =>
          if truthyNum aid then
            navigate (Push (QuizAttempt (Some n)))
              (toast Toast.success "即将开始答题！" None w)
          else
            toast Toast.error "无法开始" (Some "配对成功但未能获取考试信息。")
              (setState (fun prev => set_isJoiningPairing false
                           (set_pairingError
                              (Some "配对成功但无法开始考试，请重试。") prev)) w)
      | None =>
          toast Toast.error "无法开始" (Some "配对成功但未能获取考试信息。")
            (setState (fun prev => set_isJoiningPairing false
                         (set_pairingError
                            (Some "配对成功但无法开始考试，请重试。") prev)) w)
      end
  | _ => w
  end.

(** 7A. The listeners of the sender; [c] is the state their closure read. *)
Definition senderEffect (w : World) : World :=
  let e := env w in
  let v := view w in
  if negb (socket e) || negb (isConnected e) || negb (is_sender (role v))
  then set_senderListeners None w
  else if truthyStr (pairingCodeDisplay v)
       then set_senderListeners (Some v) w
       else set_senderListeners None w.

Definition senderHandler (c : State) (m : SocketMsg) (w : World) : World :=
  match m with
  | pairing_success _ receiverUsername =>
      let w1 :=
        setState (set_isPartnerConnected true)
          (toast Toast.success
             ("接收方 " ++ orStr receiverUsername "" ++ " 已加入！") None w) in
      match attemptId c with
      | Some n =>
          if truthyNum (attemptId c) then navigate (Push (QuizAttempt (Some n))) w1
          else toast Toast.error "配对成功，但无法加载题目，请刷新页面" None w1
      | None => toast Toast.error "配对成功，但无法加载题目，请刷新页面" None w1
      end
  | socket_error message =>
      setState (fun prev => set_isStartingAttempt false
                  (set_startError
                     (Some ("配对过程中发生错误: " ++ orStr message "未知错误"))
                     prev)) w
  | opponent_disconnected =>
      setState (fun prev => set_startError (Some "接收方已断开连接。")
                  (set_isPartnerConnected false prev))
        (toast Toast.warning "接收方已断开连接。" None w)
  | _ => w
  end.

(** 8. A connection error of the socket resets both in-flight flags. *)
Definition connectErrorEffect (w : World) : World :=
  match socketConnectError (env w) with
  | Some err =>
      if truthyStr (Some err) then
        setState (fun prev => set_isStartingAttempt false
                    (set_isJoiningPairing false
                       (set_pairingError (Some ("无法连接到服务器: " ++ err)) prev))) w
      else w
  | None => w
  end.

(** The input of the receiver: [onChange]. *)
Definition onChange (value : string) (w : World) : World :=
  setState (fun prev => set_pairingError None (set_pairingCodeInput value prev)) w.

(** *** What the render shows of the join form *)
Definition inputDisabled (v : State) : bool := isJoiningPairing v.
Definition joinButtonDisabled (e : Env) (v : State) : bool :=
  isJoiningPairing v || isEmpty (trim (pairingCodeInput v))
  || negb (isConnected e).
Definition joinSpinner (v : State) : bool := isJoiningPairing v.

(** *** Render and commit

    [useEffect]: the effect runs after the first render and after every
    render in which one of its dependencies differs from the last run. *)
Definition rerun {D : Type} `{EqDecision D} (last : option D) (cur : D)
    (effect : World -> World) (w : World) : World :=
  if decide (last = Some cur) then w else effect w.

(** The dependency arrays, read off a render.  [handleStartAttempt]
    stands for its own dependencies; [templateInfo] is a new object only
    when [isLoadingTemplate] has changed in between. *)
Definition roleDepsOf (e : Env) := roleParam e.
Definition templateDepsOf (e : Env) := (templateId e, user e, isAuthLoading e).
Definition startDepsOf (e : Env) (v : State) :=
  (templateInfo v, role v, attemptId v, isStartingAttempt v,
   isLoadingTemplate v, user e, templateId e).
Definition receiverDepsOf (e : Env) (v : State) :=
  (socket e, isConnected e, role v, isJoiningPairing v).
Definition senderDepsOf (e : Env) (v : State) :=
  (socket e, isConnected e, role v, pairingCodeDisplay v, username <$> user e).
Definition errorDepsOf (e : Env) := socketConnectError e.

Definition depsOf (e : Env) (v : State) : Deps :=
  mkDeps (Some (roleDepsOf e)) (Some (templateDepsOf e))
    (Some (startDepsOf e v)) (Some (receiverDepsOf e v))
    (Some (senderDepsOf e v)) (Some (errorDepsOf e)).

(** One render of the component followed by its effects, in the order of
    the source.  The render reads the latest state; the effects and the
    callbacks they call read that render.  The [<ProtectedRoute>] the
    render returns around the content is a component of its own, with an
    effect of its own: it is module [ProtectedRoute], put around this page
    in [StartGuard].  [nav] logs the router calls of the page's own
    code. *)
Definition pass (w0 : World) : World :=
  let w := set_view (state w0) w0 in
  let v := view w in
  let e := env w in
  let d := deps w0 in
  let w := rerun (roleDeps d) (roleDepsOf e) roleEffect w in
  let w := rerun (templateDeps d) (templateDepsOf e) templateEffect w in
  let w := rerun (startDeps d) (startDepsOf e v) startEffect w in
  let w := rerun (receiverDeps d) (receiverDepsOf e v) receiverEffect w in
  let w := rerun (senderDeps d) (senderDepsOf e v) senderEffect w in
  let w := rerun (errorDeps d) (errorDepsOf e) connectErrorEffect w in
  set_deps (depsOf e v) w.

(** React renders again while effects have changed the state.  The effects
    that read only the hooks run in the first pass; the start effect then
    sets the in-flight flag at most once, so the third pass changes
    nothing. *)
Definition commit (w : World) : World := pass (pass (pass w)).

(** Delivery of a realtime event to the subscribed listeners. *)
Definition onSocket (m : SocketMsg) (w : World) : World :=
  let w1 := if receiverListeners w then receiverHandler m w else w in
  match senderListeners w1 with
  | Some c => senderHandler c m w1
  | None => w1
  end.

(** What can happen to the mounted page. Promises settle in the order in
    which the requests were made. *)
Inductive Event :=
| Hooks (e : Env)
| TemplatesSettled (o : Outcome (option (list ApiTemplateSummary)))
| StartSettled (o : Outcome AttemptResponse)
| JoinSettled (o : Outcome AttemptResponse)
| InvokeFetchTemplate
| InvokeStart
| InvokeJoin
| Input (value : string)
| Socket (m : SocketMsg).

Definition handle (ev : Event) (w : World) : World :=
  match ev with
  | Hooks e => set_env e w
  | TemplatesSettled o =>
      match pendingTemplates w with
      | tid :: rest => fetchTemplateDetails_settled tid o (set_pendingTemplates rest w)
      | [] => w
      end
  | StartSettled o =>
      match pendingStarts w with
      | crole :: rest => handleStartAttempt_settled crole o (set_pendingStarts rest w)
      | [] => w
      end
  | JoinSettled o =>
      match pendingJoins w with
      | S n => handleJoinPairing_settled o (set_pendingJoins n w)
      | O => w
      end
  | InvokeFetchTemplate => fetchTemplateDetails w
  | InvokeStart => handleStartAttempt w
  | InvokeJoin => handleJoinPairing w
  | Input value => onChange value w
  | Socket m => onSocket m w
  end.

Definition step (w : World) (ev : Event) : World := commit (handle ev w).

Definition run (evs : list Event) (w : World) : World := fold_left step evs w.

(** The page after its first render. *)
Definition start (e : Env) : World := commit (mount e).

(** Nothing is left to render: the last render read the latest state and
    every effect has run against it. *)
Definition Quiescent (w : World) : Prop :=
  view w = state w /\ deps w = depsOf (env w) (view w).

(** The join form is editable again and shows an error. *)
Definition JoinIdle (s : State) : Prop :=
  isJoiningPairing s = false
  /\ exists m, pairingError s = Some m /\ isEmpty m = false.

(** The listeners of the receiver are subscribed exactly as the last run
    of effect 7 left them. *)
Definition receiverSubscribed (d : bool * bool * option Role * bool) : bool :=
  let '(sock, conn, r, joining) := d in
  sock && conn && is_receiver r && joining.

Definition ListenersTracked (w : World) : Prop :=
  forall d, receiverDeps (deps w) = Some d ->
            receiverListeners w = receiverSubscribed d.

(** Events that clear [isStartingAttempt] whatever is pending: a socket
    connection error reported by the hook, and the [error] event. *)
Definition clearsStartFlag (ev : Event) : bool :=
  match ev with
  | Hooks e => truthyStr (socketConnectError e)
  | Socket (socket_error _) => true
  | _ => false
  end.

(** At most one start request is pending, and while one is pending the
    in-flight flag is set. *)
Definition SingleFlight (w : World) : Prop :=
  (List.length (pendingStarts w) <= 1)%nat
  /\ (pendingStarts w <> [] -> isStartingAttempt (state w) = true).

(** What an effect may do: it leaves the hooks, the last render, the
    recorded dependencies, the route and the pending joins alone. *)
Definition Tame (f : World -> World) : Prop :=
  forall w, env (f w) = env w /\ view (f w) = view w /\ deps (f w) = deps w
            /\ nav (f w) = nav w /\ pendingJoins (f w) = pendingJoins w
            /\ pairingCodeInput (state (f w)) = pairingCodeInput (state w)
            /\ (JoinIdle (state w) -> JoinIdle (state (f w))).

(** The effects of one render, in the order of the source: [pass] without
    its bookkeeping. *)
Definition effects (w0 : World) : World -> World :=
  fun w =>
    let v := state w0 in
    let e := env w0 in
    let d := deps w0 in
    rerun (errorDeps d) (errorDepsOf e) connectErrorEffect
      (rerun (senderDeps d) (senderDepsOf e v) senderEffect
         (rerun (receiverDeps d) (receiverDepsOf e v) receiverEffect
            (rerun (startDeps d) (startDepsOf e v) startEffect
               (rerun (templateDeps d) (templateDepsOf e) templateEffect
                  (rerun (roleDeps d) (roleDepsOf e) roleEffect w))))).

(** The effects that read only the hooks have run against the hooks. *)
Definition EnvSettled (w : World) : Prop :=
  roleDeps (deps w) = Some (roleDepsOf (env w))
  /\ templateDeps (deps w) = Some (templateDepsOf (env w))
  /\ errorDeps (deps w) = Some (errorDepsOf (env w)).

(** Operations that leave the subscription of the receiver alone. *)
Definition Quiet (f : World -> World) : Prop :=
  forall w, receiverListeners (f w) = receiverListeners w.

(** Operations that neither start a request nor touch the flag. *)
Definition Keeps (f : World -> World) : Prop :=
  forall w, pendingStarts (f w) = pendingStarts w
            /\ isStartingAttempt (state (f w)) = isStartingAttempt (state w).

(** Start requests issued, and start requests still awaiting an answer. *)
Definition is_start (r : Request) : bool :=
  match r with PostStart _ _ => true | _ => false end.
Definition startsIssued (w : World) : nat :=
  List.length (filter (fun r => is_start r = true) (requests w)).
Definition startsInFlight (w : World) : nat := List.length (pendingStarts w).

End StartPage.

(** ** [app/quiz/attempt/[attemptId]/page.tsx] *)

Module AttemptPage.
Import JS ApiClient Router.

(** One value of [AnswerState]; every field is optional. *)
Record AnswerEntry := mkEntry {
  answerText : option string;
  answerCoordX : option string;
  answerCoordY : option string
}.

Inductive Field := f_answerText | f_answerCoordX | f_answerCoordY.

(** [{ ...entry, [field]: value }], where a missing entry spreads to [{}]. *)
Definition setField (entry : option AnswerEntry) (field : Field) (value : string)
    : AnswerEntry :=
  let e := default (mkEntry None None None) entry in
  match field with
  | f_answerText => mkEntry (Some value) (answerCoordX e) (answerCoordY e)
  | f_answerCoordX => mkEntry (answerText e) (Some value) (answerCoordY e)
  | f_answerCoordY => mkEntry (answerText e) (answerCoordX e) (Some value)
  end.

(** [AttemptPageState]; [startTime] is [Date.getTime()] of the date. *)
Record PageState := mkPageState {
  ps_attemptId : option Z;
  role : option Role;
  pairingCode : option string;
  templateName : string;
  questions : list AttemptQuestion;
  startTime : option Z;
  timeLimitSeconds : Z;
  status : string;
  isLoading : bool;
  error : option string;
  isSubmitting : bool;
  isPartnerConnected : bool
}.

Definition set_isLoading v (p : PageState) : PageState :=
  mkPageState (ps_attemptId p) (role p) (pairingCode p) (templateName p)
    (questions p) (startTime p) (timeLimitSeconds p) (status p) v (error p)
    (isSubmitting p) (isPartnerConnected p).
Definition set_error v (p : PageState) : PageState :=
  mkPageState (ps_attemptId p) (role p) (pairingCode p) (templateName p)
    (questions p) (startTime p) (timeLimitSeconds p) (status p) (isLoading p) v
    (isSubmitting p) (isPartnerConnected p).
Definition set_isSubmitting v (p : PageState) : PageState :=
  mkPageState (ps_attemptId p) (role p) (pairingCode p) (templateName p)
    (questions p) (startTime p) (timeLimitSeconds p) (status p) (isLoading p)
    (error p) v (isPartnerConnected p).

(** What [useParams], [useAuth] and [useSocket] hand to a render. *)
Record Env := mkEnv {
  attemptId : option Z;               (* [parseInt(params.attemptId)] *)
  user : option ApiUser;
  isAuthLoading : bool;
  socket : bool;
  isConnected : bool
}.

(** The arguments of the [useState] calls. *)
Definition initialPageState (aid : option Z) : PageState :=
  mkPageState aid None None "" [] None 0 "loading" true None false false.

(** What a render reads, and so what the callbacks it creates see.
    [c_answersRef] stands for the identity of the [answers] object: every
    [setAnswers] installs a new object. *)
Record Closure := mkClosure {
  c_env : Env;
  c_pageState : PageState;
  c_answers : gmap N AnswerEntry;
  c_answersRef : nat;
  c_index : Z
}.

(** Callbacks waiting in [setTimeout]. *)
Inductive Timer :=
| SubmitTimer (c : Closure)           (* [setTimeout(() => handleSubmit(true), 0)] *)
| RedirectTimer (aid : option Z).     (* [setTimeout(() => router.replace(...), 500)] *)

Record Deps := mkDeps {
  fetchDeps : option (bool * option ApiUser * option Z);
  listenerDeps : option (bool * bool * option Role * option Z);
  timerDeps : option (option Z * Z * string * option Role
                      * (option Z * nat * bool * option Role))
}.

(** The component instance.  The fields up to [currentQuestionIndex] are
    the latest React state, [view] is what the last committed render read. *)
Record World := mkWorld {
  env : Env;
  pageState : PageState;
  answers : gmap N AnswerEntry;
  answersRef : nat;
  timeLeft : option Z;
  currentQuestionIndex : Z;
  view : Closure;
  deps : Deps;
  examCompletedListener : option Closure;
  interval : option Closure;          (* the running [setInterval] *)
  timers : list Timer;
  pendingFetches : list (Z * ApiUser);
  pendingSubmits : list (option Z);
  requests : list Request;
  nav : list Nav;
  toasts : list Toast.t
}.

Definition setPageState (f : PageState -> PageState) (w : World) : World :=
  mkWorld (env w) (f (pageState w)) (answers w) (answersRef w) (timeLeft w)
    (currentQuestionIndex w) (view w) (deps w) (examCompletedListener w)
    (interval w) (timers w) (pendingFetches w) (pendingSubmits w)
    (requests w) (nav w) (toasts w).
Definition setAnswers (f : gmap N AnswerEntry -> gmap N AnswerEntry)
    (w : World) : World :=
  mkWorld (env w) (pageState w) (f (answers w)) (S (answersRef w)) (timeLeft w)
    (currentQuestionIndex w) (view w) (deps w) (examCompletedListener w)
    (interval w) (timers w) (pendingFetches w) (pendingSubmits w)
    (requests w) (nav w) (toasts w).
Definition setTimeLeft (f : option Z -> option Z) (w : World) : World :=
  mkWorld (env w) (pageState w) (answers w) (answersRef w) (f (timeLeft w))
    (currentQuestionIndex w) (view w) (deps w) (examCompletedListener w)
    (interval w) (timers w) (pendingFetches w) (pendingSubmits w)
    (requests w) (nav w) (toasts w).
Definition setCurrentQuestionIndex (f : Z -> Z) (w : World) : World :=
  mkWorld (env w) (pageState w) (answers w) (answersRef w) (timeLeft w)
    (f (currentQuestionIndex w)) (view w) (deps w) (examCompletedListener w)
    (interval w) (timers w) (pendingFetches w) (pendingSubmits w)
    (requests w) (nav w) (toasts w).
Definition set_env e (w : World) : World :=
  mkWorld e (pageState w) (answers w) (answersRef w) (timeLeft w)
    (currentQuestionIndex w) (view w) (deps w) (examCompletedListener w)
    (interval w) (timers w) (pendingFetches w) (pendingSubmits w)
    (requests w) (nav w) (toasts w).
Definition set_view v (w : World) : World :=
  mkWorld (env w) (pageState w) (answers w) (answersRef w) (timeLeft w)
    (currentQuestionIndex w) v (deps w) (examCompletedListener w)
    (interval w) (timers w) (pendingFetches w) (pendingSubmits w)
    (requests w) (nav w) (toasts w).
Definition set_deps d (w : World) : World :=
  mkWorld (env w) (pageState w) (answers w) (answersRef w) (timeLeft w)
    (currentQuestionIndex w) (view w) d (examCompletedListener w)
    (interval w) (timers w) (pendingFetches w) (pendingSubmits w)
    (requests w) (nav w) (toasts w).
Definition set_examCompletedListener l (w : World) : World :=
  mkWorld (env w) (pageState w) (answers w) (answersRef w) (timeLeft w)
    (currentQuestionIndex w) (view w) (deps w) l
    (interval w) (timers w) (pendingFetches w) (pendingSubmits w)
    (requests w) (nav w) (toasts w).
Definition set_interval i (w : World) : World :=
  mkWorld (env w) (pageState w) (answers w) (answersRef w) (timeLeft w)
    (currentQuestionIndex w) (view w) (deps w) (examCompletedListener w)
    i (timers w) (pendingFetches w) (pendingSubmits w)
    (requests w) (nav w) (toasts w).
Definition set_timers l (w : World) : World :=
  mkWorld (env w) (pageState w) (answers w) (answersRef w) (timeLeft w)
    (currentQuestionIndex w) (view w) (deps w) (examCompletedListener w)
    (interval w) l (pendingFetches w) (pendingSubmits w)
    (requests w) (nav w) (toasts w).
Definition set_pendingFetches l (w : World) : World :=
  mkWorld (env w) (pageState w) (answers w) (answersRef w) (timeLeft w)
    (currentQuestionIndex w) (view w) (deps w) (examCompletedListener w)
    (interval w) (timers w) l (pendingSubmits w)
    (requests w) (nav w) (toasts w).
Definition set_pendingSubmits l (w : World) : World :=
  mkWorld (env w) (pageState w) (answers w) (answersRef w) (timeLeft w)
    (currentQuestionIndex w) (view w) (deps w) (examCompletedListener w)
    (interval w) (timers w) (pendingFetches w) l
    (requests w) (nav w) (toasts w).
Definition send (r : Request) (w : World) : World :=
  mkWorld (env w) (pageState w) (answers w) (answersRef w) (timeLeft w)
    (currentQuestionIndex w) (view w) (deps w) (examCompletedListener w)
    (interval w) (timers w) (pendingFetches w) (pendingSubmits w)
    (requests w ++ [r]) (nav w) (toasts w).
Definition navigate (n : Nav) (w : World) : World :=
  mkWorld (env w) (pageState w) (answers w) (answersRef w) (timeLeft w)
    (currentQuestionIndex w) (view w) (deps w) (examCompletedListener w)
    (interval w) (timers w) (pendingFetches w) (pendingSubmits w)
    (requests w) (nav w ++ [n]) (toasts w).
Definition toast (k : Toast.Kind) (text : string) (d : option string)
    (w : World) : World :=
  mkWorld (env w) (pageState w) (answers w) (answersRef w) (timeLeft w)
    (currentQuestionIndex w) (view w) (deps w) (examCompletedListener w)
    (interval w) (timers w) (pendingFetches w) (pendingSubmits w)
    (requests w) (nav w) (toasts w ++ [Toast.mk k text d]).
Definition setTimeout (t : Timer) (w : World) : World :=
  set_timers (timers w ++ [t]) w.

(** The closure of a render of the latest state. *)
Definition closureOf (w : World) : Closure :=
  mkClosure (env w) (pageState w) (answers w) (answersRef w)
    (currentQuestionIndex w).

(** The component as mounted, before its first commit. *)
Definition mount (e : Env) : World :=
  let p := initialPageState (attemptId e) in
  mkWorld e p ∅ 0%nat None 0 (mkClosure e p ∅ 0%nat 0)
    (mkDeps None None None) None None [] [] [] [] [] [].

Definition is_sender (r : option Role) : bool := bool_decide (r = Some sender).
Definition isSome {A} (o : option A) : bool :=
  match o with Some _ => true | None => false end.
Definition is_finished (s : option string) : bool :=
  bool_decide (s = Some "completed") || bool_decide (s = Some "timed_out").

(** *** [fetchAttemptDetails], up to its [await] *)
Definition fetchAttemptDetails (c : Closure) (w : World) : World :=
  match attemptId (c_env c), user (c_env c) with
  | Some aid, Some usr =>
      send (getActiveAttemptDetails_request aid)
        (set_pendingFetches (pendingFetches w ++ [(aid, usr)])
           (setPageState (fun prev => set_error None (set_isLoading true prev)) w))
  | _, _ => w
  end.

(** The answers installed for the questions of a fetched attempt. *)
Definition initialAnswers (qs : list AttemptQuestion) : gmap N AnswerEntry :=
  foldl (fun acc q => <[slot_order q := mkEntry (Some "") (Some "") (Some "")]> acc)
    ∅ qs.

(** ... and after it; [aid] and [usr] are what the closure captured. *)
Definition fetchAttemptDetails_settled (aid : Z) (usr : ApiUser)
    (o : Outcome (option ActiveAttempt)) (w : World) : World :=
  let catch (err : Error) :=
    if is_finished (errStatus err)
    then navigate (Replace (QuizResult (Some aid))) w
    else setPageState
           (fun prev => set_isLoading false
              (set_error (Some (orStr (Some (message err))
                                  "加载答题数据时出错，请返回重试。")) prev)) w in
  match getActiveAttemptDetails o with
  | Returned None => catch (mkError "无法加载此答题尝试，或权限不足。" None)
  | Returned (Some attemptData) =>
      if truthyNum (a_userId attemptData)
         && negb (bool_decide (a_userId attemptData = Some (id usr)))
      then catch (mkError "无法加载此答题尝试，或权限不足。" None)
      else if is_finished (a_status attemptData)
      then navigate (Replace (QuizResult (Some aid))) w
      else
        setPageState
          (fun prev =>
             mkPageState (ps_attemptId prev)
               (a_role attemptData)
               (orNull (a_pairingCode attemptData))
               (orStr (a_templateName attemptData)
                  ("试卷 " ++ numberToString (Some aid)))
               (default [] (a_questions attemptData))
               (a_startTime attemptData)
               (default 0 (a_timeLimit attemptData))
               (orStr (a_status attemptData) "unknown")
               false (error prev) (isSubmitting prev) (isPartnerConnected prev))
          (setAnswers
             (fun _ => initialAnswers (default [] (a_questions attemptData))) w)
  | Thrown err => catch err
  end.

(** The effect that loads the attempt once the session is known. *)
Definition fetchEffect (c : Closure) (w : World) : World :=
  let e := c_env c in
  if negb (isAuthLoading e) && isSome (user e) then fetchAttemptDetails c w
  else if negb (isAuthLoading e) && negb (isSome (user e))
       then navigate (Push Login) w
       else w.

(** *** The [exam_completed] listener of the sender *)
Definition listenerEffect (c : Closure) (w : World) : World :=
  let e := c_env c in
  if negb (socket e) || negb (isConnected e)
     || negb (isSome (role (c_pageState c)))
  then set_examCompletedListener None w
  else if is_sender (role (c_pageState c))
       then set_examCompletedListener (Some c) w
       else set_examCompletedListener None w.

Definition onExamCompleted (c : Closure) (score : Z) (w : World) : World :=
  setTimeout (RedirectTimer (attemptId (c_env c)))
    (toast Toast.success ("考试已完成！得分: " ++ numberToString (Some score))
       None w).

(** *** Interaction handlers *)
Definition handleAnswerChange (slotOrder : N) (field : Field) (value : string)
    (w : World) : World :=
  setAnswers (fun prev => <[slotOrder := setField (prev !! slotOrder) field value]> prev) w.

Definition handleNextQuestion (c : Closure) (w : World) : World :=
  if c_index c <? Z.of_nat (List.length (questions (c_pageState c))) - 1
  then setCurrentQuestionIndex (fun prev => prev + 1) w
  else w.

Definition handlePrevQuestion (c : Closure) (w : World) : World :=
  if 0 <? c_index c
  then setCurrentQuestionIndex (fun prev => prev - 1) w
  else w.

(** [Object.entries(answers)]: integer keys, in ascending order. *)
Definition key_le (x y : N * AnswerEntry) : Prop := (x.1 <= y.1)%N.

#[global] Instance key_le_dec x y : Decision (key_le x y).
Proof. unfold key_le. apply _. Defined.

Definition entries (a : gmap N AnswerEntry) : list (N * AnswerEntry) :=
  merge_sort key_le (map_to_list a).

Definition formattedAnswers (a : gmap N AnswerEntry) : list FormattedAnswer :=
  map (fun '(slotOrder, answerData) =>
         mkFormatted slotOrder (answerText answerData)
           (answerCoordX answerData) (answerCoordY answerData))
      (entries a).

(** [handleSubmit], up to its [await].  The guard reads the [isSubmitting]
    and [role] of the render that created the callback [c]. *)
Definition handleSubmit (c : Closure) (timedOut : bool) (w : World) : World :=
  if isSubmitting (c_pageState c) || is_sender (role (c_pageState c)) then w
  else
    send (submitAttempt_request (attemptId (c_env c))
            (formattedAnswers (c_answers c)))
      (set_pendingSubmits (pendingSubmits w ++ [attemptId (c_env c)])
         (setPageState (fun prev => set_error None (set_isSubmitting true prev)) w)).

(** ... and after it. *)
Definition handleSubmit_settled (aid : option Z) (o : Outcome unit)
    (w : World) : World :=
  match submitAttempt o with
  | Returned _ =>
      navigate (Push (QuizResult aid))
        (toast Toast.success "答案提交成功！" None w)
  | Thrown err =>
      let errorMsg := orStr (Some (message err))
                        "提交答案时发生错误，请稍后重试。" in
      toast Toast.error "提交失败" (Some errorMsg)
        (setPageState (fun prev => set_isSubmitting false
                         (set_error (Some errorMsg) prev)) w)
  end.

(** *** The countdown

    The body of the timer effect, run at client time [now]
    ([new Date().getTime()]). *)
Definition timerRuns (p : PageState) : bool :=
  isSome (startTime p) && negb (timeLimitSeconds p <=? 0)
  && (bool_decide (status p = "inprogress") || bool_decide (status p = "started")).

Definition remainingSeconds (timeLimit startTimestamp nowTimestamp : Z) : Z :=
  let elapsedMs := nowTimestamp - startTimestamp in
  Z.max 0 (timeLimit - elapsedMs / 1000).

Definition timerEffect (now : Z) (c : Closure) (w : World) : World :=
  let p := c_pageState c in
  match startTime p with
  | None => setTimeLeft (fun _ => None) w
  | Some startTimestamp =>
      if (timeLimitSeconds p <=? 0)
         || (negb (bool_decide (status p = "inprogress"))
             && negb (bool_decide (status p = "started")))
      then setTimeLeft (fun _ => None) w
      else
        let remaining := remainingSeconds (timeLimitSeconds p) startTimestamp now in
        let w1 := setTimeLeft (fun _ => Some remaining) w in
        if (remaining <=? 0) && negb (is_sender (role p))
        then setTimeout (SubmitTimer c)
               (toast Toast.info "时间到！正在自动提交答案..." None w1)
        else set_interval (Some c) w1
  end.

(** The callback of [setInterval]; [c] is the closure of the effect run
    that started the interval. *)
Definition tick (c : Closure) (w : World) : World :=
  match timeLeft w with
  | None => set_interval None w
  | Some prev =>
      if prev <=? 1 then
        let w1 := setTimeLeft (fun _ => Some 0) (set_interval None w) in
        if negb (is_sender (role (c_pageState c)))
        then setTimeout (SubmitTimer c)
               (toast Toast.info "时间到！正在自动提交答案..." None w1)
        else w1
      else setTimeLeft (fun _ => Some (prev - 1)) w
  end.

Definition fire (t : Timer) (w : World) : World :=
  match t with
  | SubmitTimer c => handleSubmit c true w
  | RedirectTimer aid => navigate (Replace (QuizResult aid)) w
  end.

(** *** What the render returns *)
Inductive Screen :=
| LoadingScreen
| ErrorScreen (msg : string)
| SenderScreen
| NoQuestionScreen
| AnswerForm (currentQuestion : AttemptQuestion).

(** [questions[i]] *)
Definition at_index {A} (l : list A) (i : Z) : option A :=
  if i <? 0 then None else l !! Z.to_nat i.

Definition render (c : Closure) : Screen :=
  let p := c_pageState c in
  if isLoading p || isAuthLoading (c_env c) then LoadingScreen
  else if truthyStr (error p) && negb (isSubmitting p)
  then ErrorScreen (default "" (error p))
  else if is_sender (role p) then SenderScreen
  else match at_index (questions p) (c_index c) with
       | Some q => AnswerForm q
       | None => NoQuestionScreen
       end.

Definition isLastQuestion (c : Closure) : bool :=
  c_index c =? Z.of_nat (List.length (questions (c_pageState c))) - 1.

(** The submit button is on the form of the last question. *)
Definition submitButtonEnabled (c : Closure) : bool :=
  match render c with
  | AnswerForm _ => isLastQuestion c && negb (isSubmitting (c_pageState c))
  | _ => false
  end.

(** The alert "提交失败" inside the answer form. *)
Definition submitErrorAlert (c : Closure) : bool :=
  match render c with
  | AnswerForm _ =>
      truthyStr (error (c_pageState c)) && isSubmitting (c_pageState c)
  | _ => false
  end.

(** *** Render and commit *)
Definition rerun {D : Type} `{EqDecision D} (last : option D) (cur : D)
    (effect : World -> World) (w : World) : World :=
  if decide (last = Some cur) then w else effect w.

(** The dependency arrays, read off a render.  [fetchAttemptDetails] and
    [handleSubmit] stand for their own dependencies. *)
Definition fetchDepsOf (c : Closure) :=
  (isAuthLoading (c_env c), user (c_env c), attemptId (c_env c)).
Definition listenerDepsOf (c : Closure) :=
  (socket (c_env c), isConnected (c_env c), role (c_pageState c),
   attemptId (c_env c)).
Definition handleSubmitDepsOf (c : Closure) :=
  (attemptId (c_env c), c_answersRef c, isSubmitting (c_pageState c),
   role (c_pageState c)).
Definition timerDepsOf (c : Closure) :=
  (startTime (c_pageState c), timeLimitSeconds (c_pageState c),
   status (c_pageState c), role (c_pageState c), handleSubmitDepsOf c).

Definition depsOf (c : Closure) : Deps :=
  mkDeps (Some (fetchDepsOf c)) (Some (listenerDepsOf c)) (Some (timerDepsOf c)).

(** One render at client time [now] followed by its effects.  The cleanup
    of the timer effect clears the interval before the effect runs again. *)
Definition pass (now : Z) (w0 : World) : World :=
  let c := closureOf w0 in
  let w := set_view c w0 in
  let d := deps w0 in
  let w := rerun (fetchDeps d) (fetchDepsOf c) (fetchEffect c) w in
  let w := rerun (listenerDeps d) (listenerDepsOf c) (listenerEffect c) w in
  let w := rerun (timerDeps d) (timerDepsOf c)
             (fun w' => timerEffect now c (set_interval None w')) w in
  set_deps (depsOf c) w.

(** The effects change [isLoading], [error] and [timeLeft] only, none of
    which is a dependency: the second render runs no effect. *)
Definition commit (now : Z) (w : World) : World := pass now (pass now w).

(** What can happen to the mounted page.  Clicks and input reach the
    handlers only through the controls the last render has put on screen;
    promises settle in the order in which the requests were made. *)
Inductive Event :=
| Hooks (e : Env)
| FetchSettled (o : Outcome (option ActiveAttempt))
| SubmitSettled (o : Outcome unit)
| ClickRetry
| AnswerInput (field : Field) (value : string)
| ClickNext
| ClickPrev
| ClickSubmit
| IntervalFires
| TimerFires (i : nat)
| ExamCompleted (score : Z).

Definition fieldShown (q : AttemptQuestion) (field : Field) : bool :=
  match q_type q, field with
  | coordinate, f_answerCoordX => true
  | coordinate, f_answerCoordY => true
  | elevation, f_answerText => true
  | communication_q, f_answerText => true
  | _, _ => false
  end.

Definition handle (ev : Event) (w : World) : World :=
  let c := view w in
  match ev with
  | Hooks e => set_env e w
  | FetchSettled o =>
      match pendingFetches w with
      | (aid, usr) :: rest =>
          fetchAttemptDetails_settled aid usr o (set_pendingFetches rest w)
      | [] => w
      end
  | SubmitSettled o =>
      match pendingSubmits w with
      | aid :: rest => handleSubmit_settled aid o (set_pendingSubmits rest w)
      | [] => w
      end
  | ClickRetry =>
      match render c with
      | ErrorScreen _ => fetchAttemptDetails c w
      | _ => w
      end
  | AnswerInput field value =>
      match render c with
      | AnswerForm q =>
          if fieldShown q field
          then handleAnswerChange (slot_order q) field value w else w
      | _ => w
      end
  | ClickNext =>
      match render c with
      | AnswerForm _ =>
          if negb (isLastQuestion c) && negb (isSubmitting (c_pageState c))
          then handleNextQuestion c w else w
      | _ => w
      end
  | ClickPrev =>
      match render c with
      | AnswerForm _ =>
          if negb (c_index c =? 0) && negb (isSubmitting (c_pageState c))
          then handlePrevQuestion c w else w
      | _ => w
      end
  | ClickSubmit =>
      if submitButtonEnabled c then handleSubmit c false w else w
  | IntervalFires =>
      match interval w with
      | Some ci => tick ci w
      | None => w
      end
  | TimerFires i =>
      match timers w !! i with
      | Some t => fire t (set_timers (delete i (timers w)) w)
      | None => w
      end
  | ExamCompleted score =>
      match examCompletedListener w with
      | Some cl => onExamCompleted cl score w
      | None => w
      end
  end.

(** An event happens at a client time; the render that follows reads the
    clock. *)
Definition step (w : World) (ev : Z * Event) : World :=
  commit ev.1 (handle ev.2 w).

Definition run (evs : list (Z * Event)) (w : World) : World :=
  fold_left step evs w.

(** The page after its first render at time [now]. *)
Definition start (now : Z) (e : Env) : World := commit now (mount e).

(** Nothing is left to render: the last render read the latest state and
    every effect has run against it. *)
Definition Quiescent (w : World) : Prop :=
  view w = closureOf w /\ deps w = depsOf (closureOf w).

(** What the effects leave alone: everything a render reads except
    [isLoading] and [error]. *)
Definition frame (w : World) :=
  let p := pageState w in
  (env w, answers w, answersRef w, currentQuestionIndex w,
   (ps_attemptId p, role p, pairingCode p, templateName p, questions p),
   (startTime p, timeLimitSeconds p, status p, isSubmitting p,
    isPartnerConnected p)).

(** The value the timer effect gives to [timeLeft] at client time [now]. *)
Definition timeLeftAt (now : Z) (p : PageState) : option Z :=
  match startTime p with
  | Some startTimestamp =>
      if timerRuns p
      then Some (remainingSeconds (timeLimitSeconds p) startTimestamp now)
      else None
  | None => None
  end.

(** A run of interval callbacks at the given client times. *)
Definition ticks (ts : list Z) : list (Z * Event) :=
  map (fun t => (t, IntervalFires)) ts.

(** The response passes the ownership check of [fetchAttemptDetails]. *)
Definition ownedBy (usr : ApiUser) (d : ActiveAttempt) : bool :=
  negb (truthyNum (a_userId d) && negb (bool_decide (a_userId d = Some (id usr)))).

(** The fetch reports a finished attempt: in the body of an answer that
    passes the ownership check, or in the body of a 409 answer. *)
Definition reportsFinished (usr : ApiUser) (o : Outcome (option ActiveAttempt))
    : bool :=
  match o with
  | Fulfilled (Some d) => ownedBy usr d && is_finished (a_status d)
  | Fulfilled None => false
  | Failed e =>
      match response e with
      | Some r => (httpStatus r =? 409) && is_finished (dataStatus r)
      | None => false
      end
  end.

(** The countdown is never negative, and it has stopped only at zero. *)
Definition clockOK (w : World) : Prop :=
  match timeLeft w with
  | Some r => 0 <= r /\ (interval w = None -> r = 0)
  | None => True
  end.

Definition is_submit (r : Request) : bool :=
  match r with PostSubmit _ _ => true | _ => false end.
Definition submitsIssued (w : World) : nat :=
  List.length (filter (fun r => is_submit r = true) (requests w)).
Definition submitsInFlight (w : World) : nat := List.length (pendingSubmits w).
Definition is_tick (ev : Z * Event) : bool :=
  match ev.2 with IntervalFires => true | _ => false end.

(** The [exam_completed] listener is subscribed exactly as the last run of
    its effect left it: for a connected socket and the sender role, by a
    render of the attempt id in the recorded dependencies; for no other
    dependencies. *)
Definition ListenerTracked (w : World) : Prop :=
  match listenerDeps (deps w) with
  | Some (sock, conn, r, aid) =>
      if sock && conn && is_sender r
      then exists c, examCompletedListener w = Some c
                     /\ attemptId (c_env c) = aid
      else examCompletedListener w = None
  | None => examCompletedListener w = None
  end.

End AttemptPage.


(** ** More of the attempt page: what is on screen and what is sent *)

Module AttemptView.
Import JS ApiClient Router AttemptPage.

(** The entry installed for every question of a fetched attempt. *)
Definition blankEntry : AnswerEntry := mkEntry (Some "") (Some "") (Some "").

Definition getField (entry : AnswerEntry) (field : Field) : option string :=
  match field with
  | f_answerText => answerText entry
  | f_answerCoordX => answerCoordX entry
  | f_answerCoordY => answerCoordY entry
  end.

#[global] Instance Field_eq_dec : EqDecision Field.
Proof. solve_decision. Defined.

(** [String.prototype.padStart(n, fill)] for a one-character [fill]. *)
Fixpoint repeatChar (n : nat) (fill : ascii) : string :=
  match n with
  | O => EmptyString
  | S k => String fill (repeatChar k fill)
  end.

Definition padStart (n : nat) (fill : ascii) (s : string) : string :=
  repeatChar (n - String.length s) fill ++ s.

(** [formatTimeLeft]; [%] is the remainder of the truncated division. *)
Definition formatTimeLeft (timeLeft : option Z) : string :=
  match timeLeft with
  | None => "--:--"
  | Some t =>
      let minutes := t / 60 in
      let seconds := Z.rem t 60 in
      padStart 2 "0" (numberToString (Some minutes)) ++ ":"
      ++ padStart 2 "0" (numberToString (Some seconds))
  end.

(** The decimal digit of a number below ten, as a character. *)
Definition digitChar (d : Z) : ascii := ascii_of_nat (48 + Z.to_nat d).

(** The current question exists. *)
Definition InRange (w : World) : Prop :=
  0 <= currentQuestionIndex w
  < Z.of_nat (List.length (questions (pageState w))).

(** The fetch settles in the error state: it failed without reporting a
    finished attempt, or its body is empty or names another user. *)
Definition fetchFails (usr : ApiUser) (o : Outcome (option ActiveAttempt)) : bool :=
  match o with
  | Fulfilled (Some d) => negb (ownedBy usr d)
  | Fulfilled None => true
  | Failed e => negb (reportsFinished usr o)
  end.

(** The message the error state shows for a fetch that settles there. *)
Definition fetchErrorMessage (o : Outcome (option ActiveAttempt)) : string :=
  match getActiveAttemptDetails o with
  | Thrown err => orStr (Some (message err)) "加载答题数据时出错，请返回重试。"
  | Returned _ => "无法加载此答题尝试，或权限不足。"
  end.

(** What a run of the timer effect at client time [now] queues with
    [setTimeout], and the interval it leaves running. *)
Definition expired (now : Z) (c : Closure) : bool :=
  match timeLeftAt now (c_pageState c) with
  | Some remaining => (remaining <=? 0) && negb (is_sender (role (c_pageState c)))
  | None => false
  end.

Definition timerQueued (now : Z) (c : Closure) : list Timer :=
  if expired now c then [SubmitTimer c] else [].

Definition intervalAfter (now : Z) (c : Closure) : option Closure :=
  match timeLeftAt now (c_pageState c) with
  | Some _ => if expired now c then None else Some c
  | None => None
  end.

(** The request [handleSubmit] sends from the latest state. *)
Definition submitRequest (w : World) : Request :=
  PostSubmit (attemptId (env w)) (formattedAnswers (answers w)).

End AttemptView.

(** ** More of the start page *)

Module StartView.
Import JS ApiClient Router StartPage.

(** The start effect of a render that read [v] calls [handleStartAttempt]
    and the call passes its guard. *)
Definition startEffectFires (e : Env) (v : State) : bool :=
  match templateInfo v with
  | Some info =>
      isSome (role v) && negb (truthyNum (attemptId v))
      && negb (isStartingAttempt v) && negb (isLoadingTemplate v)
      && (is_sender (role v) || is_intelligence info)
      && isSome (user e) && isSome (templateId e)
  | None => false
  end.

(** The start request goes out after the render of [w]: a dependency of
    the start effect has changed and the effect fires. *)
Definition startsNow (w : World) : bool :=
  startEffectFires (env w) (state w)
  && negb (bool_decide (startDeps (deps w) = Some (startDepsOf (env w) (state w)))).

Definition startedState (s : State) : State :=
  set_startError None (set_isStartingAttempt true s).

(** The template [fetchTemplateDetails] picks from the fetched list. *)
Definition foundTemplate (tid : option Z) (templates : list ApiTemplateSummary)
    : option ApiTemplateSummary :=
  List.find (fun t => bool_decide (Some (tpl_id t) = tid)) templates.

(** The answer to a join or start request carries no usable attempt id. *)
Definition noAttemptId (o : Outcome AttemptResponse) : bool :=
  match o with
  | Fulfilled response => negb (truthyNum (r_attemptId response))
  | Failed _ => true
  end.

(** The role effect's reading of the [role] query parameter. *)
Definition parseRole (r : option string) : option Role :=
  if bool_decide (r = Some "sender") then Some sender
  else if bool_decide (r = Some "receiver") then Some receiver
  else None.

(** Events other than a change of what the hooks return. *)
Definition notHooks (ev : Event) : bool :=
  match ev with Hooks _ => false | _ => true end.

(** What the start page shows of its loading: role, requests made, start
    error, loading flag, template, and the starts awaiting an answer. *)
Definition shown (w : World) :=
  (role (state w), requests w, startError (state w), isLoadingTemplate (state w),
   templateInfo (state w), pendingStarts w).

(** Operations that raise no toast. *)
Definition Silent (f : World -> World) : Prop := forall w, toasts (f w) = toasts w.

End StartView.

(** ** [src/lib/utils.ts] *)

Module Utils.
Import JS.

(** [getQuestionTypeName] *)
Definition getQuestionTypeName (type : option string) : string :=
  match type with
  | Some t =>
      if isEmpty t then "未知类型"
      else if String.eqb t "coordinate" then "坐标读取"
      else if String.eqb t "elevation" then "高程读取"
      else if String.eqb t "communication" then "通信题"
      else t
  | None => "未知类型"
  end.

(** [getCommunicationMethodName] *)
Definition getCommunicationMethodName (method : option string) : string :=
  match method with
  | Some m =>
      if isEmpty m then ""
      else if String.eqb m "sign_language" then "手语"
      else if String.eqb m "semaphore" then "旗语"
      else if String.eqb m "sound" then "音响"
      else if String.eqb m "light" then "光亮"
      else m
  | None => ""
  end.

(** [getCommunicationSubtypeName] *)
Definition getCommunicationSubtypeName (method subtype : option string) : string :=
  match method, subtype with
  | Some m, Some s =>
      if isEmpty m || isEmpty s then ""
      else if String.eqb m "sign_language" then
        if String.eqb s "number" then "数字"
        else if String.eqb s "formation" then "队形"
        else if String.eqb s "command" then "命令"
        else if String.eqb s "inform" then "告知"
        else if String.eqb s "specific_designation" then "专指"
        else if String.eqb s "direction" then "方位"
        else if String.eqb s "sentence" then "句子 (组合)"
        else s
      else if String.eqb m "semaphore" then
        if String.eqb s "command" then "指挥"
        else if String.eqb s "number" then "数字"
        else if String.eqb s "service" then "勤务"
        else s
      else s
  | _, _ => ""
  end.

(** [getCommunicationTypeDisplay] *)
Definition getCommunicationTypeDisplay (method subtype : option string)
    (isLongSentence : option bool) : string :=
  let methodName := getCommunicationMethodName method in
  let subtypeName := getCommunicationSubtypeName method subtype in
  if negb (isEmpty subtypeName) then methodName ++ " - " ++ subtypeName
  else methodName.

(** [String.prototype.includes] and [endsWith] for a one-character
    argument. *)
Fixpoint includesChar (c : ascii) (s : string) : bool :=
  match s with
  | EmptyString => false
  | String x r => Ascii.eqb x c || includesChar c r
  end.

Definition endsWithChar (c : ascii) (s : string) : bool :=
  match lastChar s with Some x => Ascii.eqb x c | None => false end.

Definition isDigit (c : ascii) : bool :=
  let n := nat_of_ascii c in (48 <=? n)%nat && (n <=? 57)%nat.

Definition isSign (c : ascii) : bool := Ascii.eqb c "+" || Ascii.eqb c "-".

(** [/[+-]\d{2}:?\d{2}$/.test(s)], read from the end of the string. *)
Definition hasOffsetSuffix (s : string) : bool :=
  match rev (list_ascii_of_string s) with
  | d4 :: d3 :: x :: rest =>
      isDigit d4 && isDigit d3
      && (if Ascii.eqb x ":"
          then match rest with
               | d2 :: d1 :: sg :: _ => isDigit d2 && isDigit d1 && isSign sg
               | _ => false
               end
          else match rest with
               | d1 :: sg :: _ => isDigit x && isDigit d1 && isSign sg
               | _ => false
               end)
  | _ => false
  end.

Definition lacksTimezone (s : string) : bool :=
  includesChar "T" s && negb (endsWithChar "Z" s) && negb (hasOffsetSuffix s).

Section FormatUtcToLocal.

(** [new Date(s).getTime()], [None] for an invalid date, and
    [date.toLocaleString('zh-CN', options)] in the user's time zone. *)
Variable parseDate : string -> option Z.
Variable toLocaleString : Z -> string.

Definition formatUtcToLocal (utcDateString : option string) (placeholder : string)
    : string :=
  match utcDateString with
  | Some s =>
      if isEmpty s then placeholder
      else
        let processedString := if lacksTimezone s then s ++ "Z" else s in
        match parseDate processedString with
        | Some date => toLocaleString date
        | None => placeholder
        end
  | None => placeholder
  end.

End FormatUtcToLocal.

End Utils.

(** ** More of [src/lib/socket-client.ts] *)

Module SocketUrl.
Import JS.

(** [getSocketUrl]; the argument is [process.env.NEXT_PUBLIC_SOCKET_URL]. *)
Definition getSocketUrl (envUrl : option string) : string :=
  let baseUrl := orStr envUrl "http://localhost:7575" in
  if negb (String.prefix "http://" baseUrl) && negb (String.prefix "https://" baseUrl)
  then "http://" ++ baseUrl
  else baseUrl.

End SocketUrl.

(** ** [authAPI] of [src/lib/api-client.ts] *)

Module AuthApi.
Import JS ApiClient.

Inductive UserRole := user_role | admin_role.

(** [ApiUser] with its role. *)
Record User := mkUser { u_id : Z; u_username : string; u_role : UserRole }.

Record ApiAuthResponse := mkAuthResponse {
  auth_message : option string;
  auth_user : option User
}.

(** [checkAuth] replaces every failure by one message. *)
Definition checkAuth (o : Outcome User) : Settled User :=
  match o with
  | Fulfilled d => Returned d
  | Failed _ => Thrown (mkError "用户未登录或登录已过期" None)
  end.

Definition login (o : Outcome ApiAuthResponse) : Settled ApiAuthResponse :=
  wrap "登录失败，请检查用户名和密码" o.

Definition register (o : Outcome ApiAuthResponse) : Settled ApiAuthResponse :=
  wrap "注册失败，用户名可能已被占用" o.

Definition logout (o : Outcome (option string)) : Settled (option string) :=
  wrap "登出操作失败" o.

(** [getHistory] and [getHistoryAttemptDetails] of [attemptsAPI]. *)
Definition getHistory {A} (o : Outcome A) : Settled A := wrap "无法加载历史记录" o.

Definition getHistoryAttemptDetails {A} (o : Outcome A) : Settled A :=
  wrap "无法加载答题详情" o.

(** The message of a rejection, and the [status] attached to it. *)
Definition thrownMessage {A} (s : Settled A) : option string :=
  match s with Thrown err => Some (message err) | Returned _ => None end.

Definition thrownStatus {A} (s : Settled A) : option string :=
  match s with Thrown err => errStatus err | Returned _ => None end.

(** The message an API function rejects with is never empty: it is the
    message of the server's answer when that has one, and the function's
    own text [dflt] otherwise. *)
Definition Explains {A} (dflt : string) (s : Settled A) (e : AxiosError) : Prop :=
  exists m, thrownMessage s = Some m /\ isEmpty m = false
            /\ (truthyStr (responseMessage e) = true -> responseMessage e = Some m)
            /\ (truthyStr (responseMessage e) = false -> m = dflt).

(** The answer has HTTP status 409. *)
Definition isConflict (e : AxiosError) : bool :=
  match response e with Some r => httpStatus r =? 409 | None => false end.

#[global] Instance UserRole_eq_dec : EqDecision UserRole.
Proof. solve_decision. Defined.

End AuthApi.

(** ** [components/providers/auth-provider.tsx] *)

Module AuthProvider.
Import JS ApiClient AuthApi.

(** The provider's React state, with the routes it has pushed. *)
Record Auth := mkAuth {
  user : option User;
  isLoading : bool;
  pushed : list string
}.

(** [checkAuthStatus], up to its [await] and after it. *)
Definition checkAuthStatus (a : Auth) : Auth := mkAuth (user a) true (pushed a).

Definition checkAuthStatus_settled (o : Outcome User) (a : Auth) : Auth :=
  match checkAuth o with
  | Returned userData => mkAuth (Some userData) false (pushed a)
  | Thrown _ => mkAuth None false (pushed a)
  end.

(** [login] after its [await]: the new state and the error it rejects
    with, if any; [pathname] is what [usePathname] returned. *)
Definition login_settled (pathname : string) (o : Outcome ApiAuthResponse)
    (a : Auth) : Auth * option Error :=
  match AuthApi.login o with
  | Returned response =>
      match auth_user response with
      | Some u =>
          let redirectPath :=
            if String.eqb pathname "/login" then "/dashboard" else pathname in
          (mkAuth (Some u) (isLoading a) (pushed a ++ [redirectPath]), None)
      | None =>
          (a, Some (mkError (orStr (auth_message response) "登录响应无效") None))
      end
  | Thrown err => (a, Some err)
  end.

End AuthProvider.

(** ** [components/protected-route.tsx] *)

Module ProtectedRoute.
Import AuthApi.

Inductive Rendered := Loader | Nothing | Children.

(** The routes the effect pushes, in order. *)
Definition effect (user : option User) (isLoading adminOnly : bool) : list string :=
  let toLogin :=
    match user with
    | None => if negb isLoading then ["/login"] else []
    | Some _ => []
    end in
  let toDashboard :=
    match user with
    | Some u =>
        if negb isLoading && adminOnly && negb (bool_decide (u_role u = admin_role))
        then ["/dashboard"] else []
    | None => []
    end in
  toLogin ++ toDashboard.

Definition render (user : option User) (isLoading adminOnly : bool) : Rendered :=
  if isLoading then Loader
  else match user with
       | None => Nothing
       | Some u =>
           if adminOnly && negb (bool_decide (u_role u = admin_role))
           then Nothing else Children
       end.

End ProtectedRoute.

(** ** The start page inside its [<ProtectedRoute>]

    The render of [app/quiz/start/[templateId]/page.tsx] returns a loader
    while the session is being checked and then its content wrapped in
    [<ProtectedRoute>], a component with an effect of its own. *)

Module StartGuard.
Import JS ApiClient StartPage.

(** The user of [useAuth], of which the page reads [id] and [username];
    [r] is the role. *)
Definition authUser (r : AuthApi.UserRole) (u : ApiUser) : AuthApi.User :=
  AuthApi.mkUser (id u) (username u) r.

Inductive Screen :=
| AuthLoader                                  (* "验证用户信息..." *)
| Guarded (r : ProtectedRoute.Rendered).

(** What the page puts on screen, for the role [r] of the user. *)
Definition screen (r : AuthApi.UserRole) (e : Env) : Screen :=
  if isAuthLoading e then AuthLoader
  else Guarded (ProtectedRoute.render (authUser r <$> user e)
                  (isAuthLoading e) false).

(** The routes the effect of the guard pushes once the page renders it. *)
Definition guardPushes (r : AuthApi.UserRole) (e : Env) : list string :=
  if isAuthLoading e then []
  else ProtectedRoute.effect (authUser r <$> user e) (isAuthLoading e) false.

End StartGuard.
(** ** Concrete sessions used in examples *)

Module Scenario.
Import JS ApiClient Router.

Module Start.
Import StartPage.

(** A receiver and a sender whose session and socket are ready, on
    template 7. *)
Definition receiverEnv : Env :=
  mkEnv (Some 7) (Some "receiver") (Some (mkApiUser 2 "bob")) false true true None.

Definition senderEnv : Env :=
  mkEnv (Some 7) (Some "sender") (Some (mkApiUser 1 "alice")) false true true None.

(** The same sender after the socket has reported a connection error. *)
Definition senderEnvConnectError : Env :=
  mkEnv (Some 7) (Some "sender") (Some (mkApiUser 1 "alice")) false true false
    (Some "连接错误: timeout").

Definition commTemplate : ApiTemplateSummary :=
  mkTemplate 7 "comm" communication None 600 5.

(** The page of the receiver once the template is loaded. *)
Definition receiverReady : World :=
  run [TemplatesSettled (Fulfilled (Some [commTemplate]))] (start receiverEnv).

(** The receiver has typed a code and pressed the join button. *)
Definition receiverJoining : World :=
  run [Input "ab12cd"; InvokeJoin] receiverReady.

(** The page of the sender once the template is loaded: the start effect
    has issued the start request, which is still pending. *)
Definition senderStarting : World :=
  run [TemplatesSettled (Fulfilled (Some [commTemplate]))] (start senderEnv).

End Start.

Module Attempt.
Import AttemptPage.

(** User 1 on attempt 5. *)
Definition attemptEnv : Env :=
  mkEnv (Some 5) (Some (mkApiUser 1 "alice")) false true true.

Definition question1 : AttemptQuestion := mkQuestion 1 10 elevation "q1".

(** An attempt in progress of the given role, started at time 0 with a
    limit of [limit] seconds. *)
Definition inProgress (r : option Role) (limit : Z) : ActiveAttempt :=
  mkActive (Some 1) (Some "inprogress") r None None (Some [question1])
    (Some 0) (Some limit).

(** A finished attempt that belongs to user 2. *)
Definition finishedOfOther : ActiveAttempt :=
  mkActive (Some 2) (Some "completed") (Some receiver) None None
    (Some [question1]) (Some 0) (Some 60).

(** A finished attempt of user 1, and the 409 answer for it. *)
Definition finishedOwn : ActiveAttempt :=
  mkActive (Some 1) (Some "timed_out") (Some receiver) None None
    (Some [question1]) (Some 0) (Some 60).

Definition conflict409 : AxiosError :=
  mkAxiosError (Some (mkAxiosResponse 409 (Some "该答题已结束。") (Some "completed"))).

Definition serverError : AxiosError :=
  mkAxiosError (Some (mkAxiosResponse 500 None None)).

(** The page right after mounting at time 900 ms: the fetch is pending. *)
Definition loading : World := start 900 attemptEnv.

(** The receiver's page with [limit] seconds on the clock, loaded at 900 ms. *)
Definition receiverLoaded (limit : Z) : World :=
  run [(900, FetchSettled (Fulfilled (Some (inProgress (Some receiver) limit))))]
    loading.

Definition senderLoaded : World :=
  run [(900, FetchSettled (Fulfilled (Some (inProgress (Some sender) 60))))]
    loading.

(** The receiver has typed an answer to the only question and clicked
    submit: the request is pending. *)
Definition receiverSubmitted : World :=
  run [(950, AnswerInput f_answerText "1234"); (1000, ClickSubmit)]
    (receiverLoaded 60).

(** A sender whose attempt is not running and whose socket is connected. *)
Definition senderPaused : World :=
  run [(900, FetchSettled (Fulfilled (Some
          (mkActive (Some 1) (Some "paused") (Some sender) None None
             (Some [question1]) (Some 0) (Some 60)))))]
    loading.

(** The last second runs out, the user clicks submit before the callback
    queued by the countdown runs, then that callback runs. *)
Definition raceEvents : list (Z * Event) :=
  [(1900, IntervalFires); (1901, ClickSubmit); (1902, TimerFires 0%nat)].

End Attempt.

End Scenario.

Module AttemptExamples.
Import JS ApiClient Router AttemptPage Scenario.Attempt.

(** An attempt in progress without a start time and a limit. *)
Definition untimed : ActiveAttempt :=
  mkActive (Some 1) (Some "inprogress") (Some receiver) None None
    (Some [question1]) None None.

(** The session of user 1 while the socket is down. *)
Definition offlineEnv : Env :=
  mkEnv (Some 5) (Some (mkApiUser 1 "alice")) false false false.

(** The receiver's page loaded 70 s after the start of a 60 s attempt,
    once the submission queued on load and the callback queued behind it
    have run: the submit request is pending. *)
Definition expiredSubmitting : World :=
  run [(70000, FetchSettled (Fulfilled (Some (inProgress (Some receiver) 60))));
       (70001, TimerFires 0%nat); (70002, TimerFires 0%nat)] loading.

(** The sender's page with one second on the clock. *)
Definition senderLastSecond : World :=
  run [(900, FetchSettled (Fulfilled (Some (inProgress (Some sender) 1))))] loading.

End AttemptExamples.

Module StartExamples.
Import JS ApiClient Router StartPage Scenario.Start.

(** The answer to the sender's start request: attempt 5 with a pairing
    code. *)
Definition startedWithCode : AttemptResponse :=
  mkAttemptResponse (Some 5) (Some "AB12CD") None.

(** The sender's page showing the pairing code, waiting for the partner. *)
Definition senderWaiting : World :=
  run [StartSettled (Fulfilled startedWithCode)] senderStarting.

(** An answer of the server without a body. *)
Definition unavailable : AxiosError :=
  mkAxiosError (Some (mkAxiosResponse 503 None None)).

End StartExamples.

(** * Properties *)

(** ** Strings *)

Section StringFacts.
Import JS.










Lemma toUpperCase_isEmpty (s : string) : isEmpty (toUpperCase s) = isEmpty s.
Proof. destruct s; reflexivity. Qed.





(** *** [trim] *)












End StringFacts.
(** ** The socket context *)

Module SocketFacts.
Import SocketClient SocketProvider.

Lemma emitSocketEvent_disconnected event args st :
  (forall l, socket st = Some l -> is_connected st l = false) ->
  emitSocketEvent event args st = st.
Proof.
  intros H. unfold emitSocketEvent, getSocket.
  destruct (socket st) as [l|] eqn:Hs; [|reflexivity].
  rewrite (H l eq_refl). reflexivity.
Qed.

(** When the provider's instance is the socket of the module, as it is
    after [connectSocket], a successful [emit] appends the event to that
    socket and to no other. *)
Lemma emit_aliased l s event args st :
  socket st = Some l -> heap st !! l = Some s -> connected s = true ->
  emit (Some l) event args st =
    (mkStore (<[l := mkSocket true (emitted s ++ [(event, args)])]> (heap st))
             (Some l), true).
Proof.
  intros Hs Hl Hc. unfold emit, emitSocketEvent, getSocket, is_connected.
  rewrite Hs, Hl, Hc. unfold socket_emit. rewrite Hs. f_equal. f_equal.
  apply map_eq. intros k. destruct (decide (k = l)) as [->|Hne].
  - rewrite lookup_alter_eq, lookup_insert_eq, Hl. simpl. rewrite Hc. reflexivity.
  - rewrite lookup_alter_ne, lookup_insert_ne by congruence. reflexivity.
Qed.

(** C10. [emit] of the socket context returns [true] exactly when the
    provider holds a socket instance and that socket is connected; when it
    returns [false] the store of sockets is left as it was, so nothing has
    been emitted, and the call does not fail. *)
Theorem emit_true_iff_connected :
  forall (socketInstance : option nat) (event : string) (args : list string)
         (st : Store),
    ((emit socketInstance event args st).2 = true <->
       exists l s, socketInstance = Some l /\ heap st !! l = Some s
                   /\ connected s = true)
    /\ ((emit socketInstance event args st).2 = false ->
          (emit socketInstance event args st).1 = st
          /\ all_emitted (emit socketInstance event args st).1 = all_emitted st).
Proof.
  intros inst event args st. unfold emit, is_connected.
  destruct inst as [l|]; simpl.
  - destruct (heap st !! l) as [s|] eqn:Hl; simpl.
    + destruct (connected s) eqn:Hc; simpl.
      * split; [|discriminate]. split; [|reflexivity].
        intros _. exists l, s. auto.
      * split; [|auto]. split; [discriminate|].
        intros (l' & s' & [= <-] & Hl' & Hc'). congruence.
    + split; [|auto]. split; [discriminate|].
      intros (l' & s' & [= <-] & Hl' & _). congruence.
  - split; [|auto]. split; [discriminate|].
    intros (l' & s' & [=] & _).
Qed.

End SocketFacts.

(** ** The start page *)

Module StartPageFacts.
Import JS ApiClient Router StartPage Scenario.Start.




(** *** Renders and effects *)

Lemma start_rerun_same {D : Type} `{EqDecision D} (d : D) f (w : World) :
  rerun (Some d) d f w = w.
Proof. unfold rerun. case_decide; [reflexivity|congruence]. Qed.

Lemma Tame_rerun {D : Type} `{EqDecision D} (last : option D) (d : D) f :
  Tame f -> Tame (rerun last d f).
Proof.
  intros Hf w. unfold rerun. case_decide; [|apply Hf].
  exact (conj eq_refl (conj eq_refl (conj eq_refl (conj eq_refl (conj eq_refl
           (conj eq_refl (fun H => H))))))).
Qed.

Lemma Tame_compose f g : Tame f -> Tame g -> Tame (fun w => g (f w)).
Proof.
  intros Hf Hg w. destruct (Hf w) as (E & V & D & N & P & I & J).
  destruct (Hg (f w)) as (E' & V' & D' & N' & P' & I' & J').
  repeat (split; [congruence|]). auto.
Qed.

Ltac tame := intros w; unfold JoinIdle; repeat case_match; simpl;
  repeat (split; [reflexivity|]); auto.

Lemma Tame_roleEffect : Tame roleEffect.
Proof. unfold roleEffect. tame. Qed.

Lemma Tame_templateEffect : Tame templateEffect.
Proof. unfold templateEffect, fetchTemplateDetails. tame. Qed.

Lemma Tame_handleStartAttempt : Tame handleStartAttempt.
Proof. unfold handleStartAttempt. tame. Qed.

Lemma Tame_startEffect : Tame startEffect.
Proof.
  intros w. unfold startEffect.
  repeat case_match; try apply Tame_handleStartAttempt;
    exact (conj eq_refl (conj eq_refl (conj eq_refl (conj eq_refl (conj eq_refl
             (conj eq_refl (fun H => H))))))).
Qed.

Lemma Tame_receiverEffect : Tame receiverEffect.
Proof. unfold receiverEffect. tame. Qed.

Lemma Tame_senderEffect : Tame senderEffect.
Proof. unfold senderEffect. tame. Qed.

Lemma Tame_connectErrorEffect : Tame connectErrorEffect.
Proof.
  intros w. unfold connectErrorEffect, JoinIdle.
  repeat case_match; simpl; repeat (split; [reflexivity|]); auto.
  all: eexists; split; reflexivity.
Qed.


Lemma pass_effects w :
  pass w = set_deps (depsOf (env w) (state w)) (effects w (set_view (state w) w)).
Proof. reflexivity. Qed.

Lemma Tame_effects w0 : Tame (effects w0).
Proof.
  intros w. unfold effects.
  set (w1 := rerun (roleDeps (deps w0)) (roleDepsOf (env w0)) roleEffect w).
  set (w2 := rerun (templateDeps (deps w0)) (templateDepsOf (env w0)) templateEffect w1).
  set (w3 := rerun (startDeps (deps w0)) (startDepsOf (env w0) (state w0)) startEffect w2).
  set (w4 := rerun (receiverDeps (deps w0)) (receiverDepsOf (env w0) (state w0))
               receiverEffect w3).
  set (w5 := rerun (senderDeps (deps w0)) (senderDepsOf (env w0) (state w0))
               senderEffect w4).
  destruct (Tame_rerun (roleDeps (deps w0)) (roleDepsOf (env w0)) _
              Tame_roleEffect w) as (E1 & V1 & D1 & N1 & P1 & I1 & J1).
  destruct (Tame_rerun (templateDeps (deps w0)) (templateDepsOf (env w0)) _
              Tame_templateEffect w1) as (E2 & V2 & D2 & N2 & P2 & I2 & J2).
  destruct (Tame_rerun (startDeps (deps w0)) (startDepsOf (env w0) (state w0)) _
              Tame_startEffect w2) as (E3 & V3 & D3 & N3 & P3 & I3 & J3).
  destruct (Tame_rerun (receiverDeps (deps w0)) (receiverDepsOf (env w0) (state w0)) _
              Tame_receiverEffect w3) as (E4 & V4 & D4 & N4 & P4 & I4 & J4).
  destruct (Tame_rerun (senderDeps (deps w0)) (senderDepsOf (env w0) (state w0)) _
              Tame_senderEffect w4) as (E5 & V5 & D5 & N5 & P5 & I5 & J5).
  destruct (Tame_rerun (errorDeps (deps w0)) (errorDepsOf (env w0)) _
              Tame_connectErrorEffect w5) as (E6 & V6 & D6 & N6 & P6 & I6 & J6).
  fold w1 in E1, V1, D1, N1, P1, I1, J1.
  fold w2 in E2, V2, D2, N2, P2, I2, J2.
  fold w3 in E3, V3, D3, N3, P3, I3, J3.
  fold w4 in E4, V4, D4, N4, P4, I4, J4.
  fold w5 in E5, V5, D5, N5, P5, I5, J5.
  repeat (split; [congruence|]).
  exact (fun H => J6 (J5 (J4 (J3 (J2 (J1 H)))))).
Qed.

(** A render reads the latest state and records the dependencies it saw;
    no effect of this page navigates. *)
Lemma pass_basic w :
  env (pass w) = env w /\ view (pass w) = state w
  /\ deps (pass w) = depsOf (env w) (state w)
  /\ nav (pass w) = nav w /\ pendingJoins (pass w) = pendingJoins w
  /\ pairingCodeInput (state (pass w)) = pairingCodeInput (state w)
  /\ (JoinIdle (state w) -> JoinIdle (state (pass w))).
Proof.
  rewrite pass_effects.
  destruct (Tame_effects w (set_view (state w) w)) as (E & V & D & N & P & I & J).
  simpl in *. exact (conj E (conj V (conj eq_refl (conj N (conj P (conj I J)))))).
Qed.

Lemma commit_basic w :
  env (commit w) = env w /\ nav (commit w) = nav w
  /\ pendingJoins (commit w) = pendingJoins w
  /\ pairingCodeInput (state (commit w)) = pairingCodeInput (state w)
  /\ pairingCodeInput (view (commit w)) = pairingCodeInput (state w)
  /\ (JoinIdle (state w) -> JoinIdle (state (commit w)) /\ JoinIdle (view (commit w))).
Proof.
  unfold commit.
  destruct (pass_basic w) as (E1 & V1 & D1 & N1 & P1 & I1 & J1).
  destruct (pass_basic (pass w)) as (E2 & V2 & D2 & N2 & P2 & I2 & J2).
  destruct (pass_basic (pass (pass w))) as (E3 & V3 & D3 & N3 & P3 & I3 & J3).
  repeat (split; [congruence|]).
  intros H. split; [auto|]. rewrite V3. auto.
Qed.


(** *** Quiescence *)

Lemma startEffect_guarded w :
  isStartingAttempt (view w) = true -> startEffect w = w.
Proof.
  intros H. unfold startEffect. rewrite H.
  destruct (templateInfo (view w)); [|reflexivity].
  rewrite !andb_false_r. simpl. reflexivity.
Qed.

Lemma handleStartAttempt_guarded w :
  isStartingAttempt (view w) = true -> handleStartAttempt w = w.
Proof.
  intros H. unfold handleStartAttempt. rewrite H, !orb_true_r. reflexivity.
Qed.

Lemma handleStartAttempt_cases w :
  handleStartAttempt w = w
  \/ (isStartingAttempt (view w) = false
      /\ isStartingAttempt (state (handleStartAttempt w)) = true
      /\ pendingStarts (handleStartAttempt w) = (pendingStarts w ++ [role (view w)])%list
      /\ requests (handleStartAttempt w) =
           (requests w ++ [PostStart (templateId (env w)) (role (view w))])%list).
Proof.
  unfold handleStartAttempt.
  destruct (isStartingAttempt (view w)) eqn:Hf.
  - left. rewrite !orb_true_r. reflexivity.
  - repeat case_match; auto; right; simpl; auto 10.
Qed.

Lemma startEffect_cases w :
  startEffect w = w
  \/ (isStartingAttempt (view w) = false
      /\ isStartingAttempt (state (startEffect w)) = true
      /\ pendingStarts (startEffect w) = (pendingStarts w ++ [role (view w)])%list
      /\ requests (startEffect w) =
           (requests w ++ [PostStart (templateId (env w)) (role (view w))])%list).
Proof.
  unfold startEffect. repeat case_match; auto; apply handleStartAttempt_cases.
Qed.

Lemma receiverEffect_state w :
  state (receiverEffect w) = state w /\ pendingStarts (receiverEffect w) = pendingStarts w
  /\ requests (receiverEffect w) = requests w.
Proof. unfold receiverEffect. repeat case_match; simpl; auto. Qed.

Lemma senderEffect_state w :
  state (senderEffect w) = state w /\ pendingStarts (senderEffect w) = pendingStarts w
  /\ requests (senderEffect w) = requests w.
Proof. unfold senderEffect. repeat case_match; simpl; auto. Qed.

Lemma rerun_receiver_state {D : Type} `{EqDecision D} (l : option D) d w :
  state (rerun l d receiverEffect w) = state w
  /\ pendingStarts (rerun l d receiverEffect w) = pendingStarts w
  /\ requests (rerun l d receiverEffect w) = requests w.
Proof. unfold rerun. case_decide; [auto|apply receiverEffect_state]. Qed.

Lemma rerun_sender_state {D : Type} `{EqDecision D} (l : option D) d w :
  state (rerun l d senderEffect w) = state w
  /\ pendingStarts (rerun l d senderEffect w) = pendingStarts w
  /\ requests (rerun l d senderEffect w) = requests w.
Proof. unfold rerun. case_decide; [auto|apply senderEffect_state]. Qed.

(** With the hook effects idle, only the start effect can change the
    state in a render. *)
Lemma pass_settled w :
  EnvSettled w ->
  let w3 := rerun (startDeps (deps w)) (startDepsOf (env w) (state w)) startEffect
              (set_view (state w) w) in
  state (pass w) = state w3 /\ pendingStarts (pass w) = pendingStarts w3
  /\ requests (pass w) = requests w3.
Proof.
  intros (Hr & Ht & He) w3. rewrite pass_effects. unfold effects.
  rewrite Hr, Ht, He. rewrite !start_rerun_same. fold w3.
  destruct (rerun_receiver_state (receiverDeps (deps w))
              (receiverDepsOf (env w) (state w)) w3) as (S4 & P4 & R4).
  destruct (rerun_sender_state (senderDeps (deps w))
              (senderDepsOf (env w) (state w))
              (rerun (receiverDeps (deps w)) (receiverDepsOf (env w) (state w))
                 receiverEffect w3)) as (S5 & P5 & R5).
  simpl. rewrite S5, S4, P5, P4, R5, R4. auto.
Qed.

Lemma pass_EnvSettled w : EnvSettled (pass w).
Proof.
  destruct (pass_basic w) as (E & V & D & _). unfold EnvSettled.
  rewrite D, E. simpl. auto.
Qed.

Lemma pass_settled_cases w :
  EnvSettled w ->
  (state (pass w) = state w /\ pendingStarts (pass w) = pendingStarts w
   /\ requests (pass w) = requests w)
  \/ (isStartingAttempt (state w) = false
      /\ startDeps (deps w) <> Some (startDepsOf (env w) (state w))
      /\ isStartingAttempt (state (pass w)) = true
      /\ pendingStarts (pass w) = (pendingStarts w ++ [role (state w)])%list
      /\ requests (pass w) =
           (requests w ++ [PostStart (templateId (env w)) (role (state w))])%list).
Proof.
  intros Hs. destruct (pass_settled w Hs) as (S & P & R). rewrite S, P, R.
  unfold rerun. case_decide as Hd; [left; auto|].
  destruct (startEffect_cases (set_view (state w) w)) as [-> | H]; [left; auto|].
  right. simpl in H. destruct H as (H1 & H2 & H3 & H4). auto.
Qed.

Lemma start_commit_Quiescent w : Quiescent (commit w).
Proof.
  unfold commit. set (w1 := pass w). set (w2 := pass w1).
  destruct (pass_basic w1) as (E2 & V2 & D2 & _). fold w2 in E2, V2, D2.
  destruct (pass_basic w2) as (E3 & V3 & D3 & _).
  assert (Hs2 : EnvSettled w2) by apply pass_EnvSettled.
  assert (Hst : state (pass w2) = state w2).
  { destruct (pass_settled_cases w1 (pass_EnvSettled w)) as [(S & _) | (_ & _ & F & _)];
      [fold w2 in S|fold w2 in F].
    - destruct (pass_settled_cases w2 Hs2) as [(S' & _) | (_ & Hne & _)]; [exact S'|].
      exfalso. apply Hne. rewrite D2, S, E2. reflexivity.
    - destruct (pass_settled_cases w2 Hs2) as [(S' & _) | (F' & _)]; [exact S'|].
      congruence. }
  split.
  - rewrite V3, Hst. reflexivity.
  - rewrite D3, E3, V3. reflexivity.
Qed.

Lemma start_commit_id w : Quiescent w -> commit w = w.
Proof.
  intros [V D].
  assert (H : pass w = w).
  { destruct w; simpl in *. subst. unfold pass. simpl.
    rewrite !start_rerun_same. reflexivity. }
  unfold commit. rewrite !H. reflexivity.
Qed.


(** *** The listeners of the receiver *)

Lemma Quiet_rerun {D : Type} `{EqDecision D} (last : option D) (d : D) f :
  Quiet f -> Quiet (rerun last d f).
Proof. intros Hf w. unfold rerun. case_decide; [reflexivity|apply Hf]. Qed.

Lemma Quiet_roleEffect : Quiet roleEffect.
Proof. intros w. unfold roleEffect. repeat case_match; reflexivity. Qed.

Lemma Quiet_templateEffect : Quiet templateEffect.
Proof.
  intros w. unfold templateEffect, fetchTemplateDetails.
  repeat case_match; reflexivity.
Qed.

Lemma Quiet_startEffect : Quiet startEffect.
Proof.
  intros w. unfold startEffect, handleStartAttempt. repeat case_match; reflexivity.
Qed.

Lemma Quiet_senderEffect : Quiet senderEffect.
Proof. intros w. unfold senderEffect. repeat case_match; reflexivity. Qed.

Lemma Quiet_connectErrorEffect : Quiet connectErrorEffect.
Proof. intros w. unfold connectErrorEffect. repeat case_match; reflexivity. Qed.

Lemma receiverEffect_listeners w :
  receiverListeners (receiverEffect w) =
    receiverSubscribed (receiverDepsOf (env w) (view w)).
Proof.
  unfold receiverEffect, receiverSubscribed, receiverDepsOf.
  destruct (socket (env w)), (isConnected (env w)), (is_receiver (role (view w)));
    reflexivity.
Qed.

Lemma pass_listeners w :
  receiverListeners (pass w) =
    if decide (receiverDeps (deps w) = Some (receiverDepsOf (env w) (state w)))
    then receiverListeners w
    else receiverSubscribed (receiverDepsOf (env w) (state w)).
Proof.
  rewrite pass_effects. unfold effects.
  set (w1 := rerun (roleDeps (deps w)) (roleDepsOf (env w)) roleEffect
               (set_view (state w) w)).
  set (w2 := rerun (templateDeps (deps w)) (templateDepsOf (env w)) templateEffect w1).
  set (w3 := rerun (startDeps (deps w)) (startDepsOf (env w) (state w)) startEffect w2).
  set (w4 := rerun (receiverDeps (deps w)) (receiverDepsOf (env w) (state w))
               receiverEffect w3).
  set (w5 := rerun (senderDeps (deps w)) (senderDepsOf (env w) (state w))
               senderEffect w4).
  destruct (Tame_rerun (roleDeps (deps w)) (roleDepsOf (env w)) _
              Tame_roleEffect (set_view (state w) w)) as (E1 & V1 & _).
  destruct (Tame_rerun (templateDeps (deps w)) (templateDepsOf (env w)) _
              Tame_templateEffect w1) as (E2 & V2 & _).
  destruct (Tame_rerun (startDeps (deps w)) (startDepsOf (env w) (state w)) _
              Tame_startEffect w2) as (E3 & V3 & _).
  fold w1 in E1, V1. fold w2 in E2, V2. fold w3 in E3, V3.
  pose proof (Quiet_rerun (roleDeps (deps w)) (roleDepsOf (env w)) _
                Quiet_roleEffect (set_view (state w) w)) as Q1.
  pose proof (Quiet_rerun (templateDeps (deps w)) (templateDepsOf (env w)) _
                Quiet_templateEffect w1) as Q2.
  pose proof (Quiet_rerun (startDeps (deps w)) (startDepsOf (env w) (state w)) _
                Quiet_startEffect w2) as Q3.
  pose proof (Quiet_rerun (senderDeps (deps w)) (senderDepsOf (env w) (state w)) _
                Quiet_senderEffect w4) as Q5.
  pose proof (Quiet_rerun (errorDeps (deps w)) (errorDepsOf (env w)) _
                Quiet_connectErrorEffect w5) as Q6.
  fold w1 in Q1. fold w2 in Q2. fold w3 in Q3. fold w5 in Q5.
  simpl. rewrite Q6, Q5. unfold w4, rerun. case_decide.
  - rewrite Q3, Q2, Q1. reflexivity.
  - rewrite receiverEffect_listeners, E3, E2, E1, V3, V2, V1. reflexivity.
Qed.

Lemma pass_ListenersTracked w : ListenersTracked w -> ListenersTracked (pass w).
Proof.
  intros H d Hd. destruct (pass_basic w) as (_ & _ & D & _).
  rewrite D in Hd. simpl in Hd. injection Hd as <-.
  rewrite pass_listeners. case_decide as Hc; [|reflexivity].
  apply H. exact Hc.
Qed.

Lemma handle_listeners ev w :
  receiverListeners (handle ev w) = receiverListeners w
  /\ deps (handle ev w) = deps w.
Proof.
  destruct ev; simpl;
    unfold fetchTemplateDetails_settled, handleStartAttempt_settled,
      handleJoinPairing_settled, fetchTemplateDetails, handleStartAttempt,
      handleJoinPairing, onChange, onSocket, receiverHandler, senderHandler;
    repeat case_match; simpl; auto.
Qed.

Lemma step_invariants w ev :
  ListenersTracked w ->
  Quiescent (step w ev) /\ ListenersTracked (step w ev).
Proof.
  intros H. split; [apply start_commit_Quiescent|].
  unfold step, commit. do 3 apply pass_ListenersTracked.
  intros d Hd. destruct (handle_listeners ev w) as [L D].
  rewrite L. apply H. rewrite <- D. exact Hd.
Qed.

Lemma run_snoc evs ev w : run (evs ++ [ev]) w = step (run evs w) ev.
Proof. unfold run. rewrite fold_left_app. reflexivity. Qed.

(** Every page reached from a mount is at rest and has its listeners
    subscribed as effect 7 says. *)
Lemma reachable_invariants e evs :
  Quiescent (run evs (start e)) /\ ListenersTracked (run evs (start e)).
Proof.
  induction evs as [|ev evs IH] using rev_ind.
  - split; [apply start_commit_Quiescent|].
    unfold start, commit. do 3 apply pass_ListenersTracked.
    intros d Hd. discriminate.
  - rewrite run_snoc. apply step_invariants. apply IH.
Qed.

Lemma reachable_listening e evs :
  let w := run evs (start e) in
  receiverListeners w =
    socket (env w) && isConnected (env w) && is_receiver (role (state w))
    && isJoiningPairing (state w).
Proof.
  intros w. destruct (reachable_invariants e evs) as [[V D] L]. fold w in V, D, L.
  rewrite (L (receiverDepsOf (env w) (view w))).
  - rewrite V. reflexivity.
  - rewrite D. reflexivity.
Qed.


(** *** The in-flight flag of the start request *)

Lemma Keeps_rerun {D : Type} `{EqDecision D} (last : option D) (d : D) f :
  Keeps f -> Keeps (rerun last d f).
Proof. intros Hf w. unfold rerun. case_decide; [auto|apply Hf]. Qed.

Lemma Keeps_roleEffect : Keeps roleEffect.
Proof. intros w. unfold roleEffect. repeat case_match; simpl; auto. Qed.

Lemma Keeps_fetchTemplateDetails : Keeps fetchTemplateDetails.
Proof. intros w. unfold fetchTemplateDetails. repeat case_match; simpl; auto. Qed.

Lemma Keeps_templateEffect : Keeps templateEffect.
Proof.
  intros w. unfold templateEffect.
  case_match; [apply Keeps_fetchTemplateDetails|auto].
Qed.

Lemma Keeps_receiverEffect : Keeps receiverEffect.
Proof. intros w. unfold receiverEffect. repeat case_match; simpl; auto. Qed.

Lemma Keeps_senderEffect : Keeps senderEffect.
Proof. intros w. unfold senderEffect. repeat case_match; simpl; auto. Qed.

Lemma connectErrorEffect_benign w :
  truthyStr (socketConnectError (env w)) = false -> connectErrorEffect w = w.
Proof.
  unfold connectErrorEffect. destruct (socketConnectError (env w)); [|reflexivity].
  intros ->. reflexivity.
Qed.

Lemma startEffect_SingleFlight w :
  isStartingAttempt (view w) = isStartingAttempt (state w) ->
  SingleFlight w -> SingleFlight (startEffect w).
Proof.
  intros Hv [Hl Hf].
  destruct (startEffect_cases w) as [-> | (F & T & P & _)]; [split; assumption|].
  assert (Hnil : pendingStarts w = []).
  { destruct (pendingStarts w) as [|x l] eqn:E; [reflexivity|].
    assert (isStartingAttempt (state w) = true) by (apply Hf; discriminate).
    congruence. }
  split; rewrite P, Hnil; simpl; auto.
Qed.

Lemma handleStartAttempt_SingleFlight w :
  isStartingAttempt (view w) = isStartingAttempt (state w) ->
  SingleFlight w -> SingleFlight (handleStartAttempt w).
Proof.
  intros Hv [Hl Hf].
  destruct (handleStartAttempt_cases w) as [-> | (F & T & P & _)]; [split; assumption|].
  assert (Hnil : pendingStarts w = []).
  { destruct (pendingStarts w) as [|x l] eqn:E; [reflexivity|].
    assert (isStartingAttempt (state w) = true) by (apply Hf; discriminate).
    congruence. }
  split; rewrite P, Hnil; simpl; auto.
Qed.

Lemma Keeps_SingleFlight f w : Keeps f -> SingleFlight w -> SingleFlight (f w).
Proof.
  intros Hk [Hl Hf]. destruct (Hk w) as [P F]. split; rewrite P; [exact Hl|].
  rewrite F. exact Hf.
Qed.

Lemma pass_SingleFlight w :
  truthyStr (socketConnectError (env w)) = false ->
  SingleFlight w -> SingleFlight (pass w).
Proof.
  intros Hb Hs. rewrite pass_effects. unfold effects.
  set (w0 := set_view (state w) w).
  set (w1 := rerun (roleDeps (deps w)) (roleDepsOf (env w)) roleEffect w0).
  set (w2 := rerun (templateDeps (deps w)) (templateDepsOf (env w)) templateEffect w1).
  set (w3 := rerun (startDeps (deps w)) (startDepsOf (env w) (state w)) startEffect w2).
  set (w4 := rerun (receiverDeps (deps w)) (receiverDepsOf (env w) (state w))
               receiverEffect w3).
  set (w5 := rerun (senderDeps (deps w)) (senderDepsOf (env w) (state w))
               senderEffect w4).
  assert (S0 : SingleFlight w0) by exact Hs.
  assert (S1 : SingleFlight w1)
    by (apply Keeps_SingleFlight; [apply Keeps_rerun, Keeps_roleEffect|exact S0]).
  assert (S2 : SingleFlight w2)
    by (apply Keeps_SingleFlight; [apply Keeps_rerun, Keeps_templateEffect|exact S1]).
  destruct (Tame_rerun (roleDeps (deps w)) (roleDepsOf (env w)) _
              Tame_roleEffect w0) as (E1 & V1 & _).
  destruct (Tame_rerun (templateDeps (deps w)) (templateDepsOf (env w)) _
              Tame_templateEffect w1) as (E2 & V2 & _).
  destruct (Tame_rerun (startDeps (deps w)) (startDepsOf (env w) (state w)) _
              Tame_startEffect w2) as (E3 & _).
  destruct (Tame_rerun (receiverDeps (deps w)) (receiverDepsOf (env w) (state w)) _
              Tame_receiverEffect w3) as (E4 & _).
  destruct (Tame_rerun (senderDeps (deps w)) (senderDepsOf (env w) (state w)) _
              Tame_senderEffect w4) as (E5 & _).
  fold w1 in E1, V1. fold w2 in E2, V2. fold w3 in E3. fold w4 in E4. fold w5 in E5.
  destruct (Keeps_rerun (roleDeps (deps w)) (roleDepsOf (env w)) _
              Keeps_roleEffect w0) as (_ & F1).
  destruct (Keeps_rerun (templateDeps (deps w)) (templateDepsOf (env w)) _
              Keeps_templateEffect w1) as (_ & F2).
  fold w1 in F1. fold w2 in F2.
  assert (S3 : SingleFlight w3).
  { unfold w3, rerun. case_decide; [exact S2|].
    apply startEffect_SingleFlight; [|exact S2].
    rewrite V2, V1, F2, F1. reflexivity. }
  assert (S4 : SingleFlight w4)
    by (apply Keeps_SingleFlight; [apply Keeps_rerun, Keeps_receiverEffect|exact S3]).
  assert (S5 : SingleFlight w5)
    by (apply Keeps_SingleFlight; [apply Keeps_rerun, Keeps_senderEffect|exact S4]).
  assert (H6 : rerun (errorDeps (deps w)) (errorDepsOf (env w)) connectErrorEffect w5
               = w5).
  { unfold rerun. case_decide; [reflexivity|].
    apply connectErrorEffect_benign.
    rewrite E5, E4, E3, E2, E1. exact Hb. }
  rewrite H6. exact S5.
Qed.

Lemma commit_SingleFlight w :
  truthyStr (socketConnectError (env w)) = false ->
  SingleFlight w -> SingleFlight (commit w).
Proof.
  intros Hb Hs. unfold commit.
  destruct (pass_basic w) as (E1 & _). destruct (pass_basic (pass w)) as (E2 & _).
  apply pass_SingleFlight; [congruence|].
  apply pass_SingleFlight; [congruence|].
  apply pass_SingleFlight; assumption.
Qed.

Lemma settled_clears_flag crole o w :
  isStartingAttempt (state (handleStartAttempt_settled crole o w)) = false
  /\ pendingStarts (handleStartAttempt_settled crole o w) = pendingStarts w
  /\ env (handleStartAttempt_settled crole o w) = env w.
Proof.
  unfold handleStartAttempt_settled. repeat case_match; simpl; auto.
Qed.

Lemma handle_Keeps ev :
  clearsStartFlag ev = false ->
  match ev with InvokeStart | StartSettled _ => False | _ => True end ->
  Keeps (handle ev).
Proof.
  intros Hc Hk w. destruct ev; try contradiction;
    try (destruct m; try discriminate); simpl;
    unfold fetchTemplateDetails_settled, handleJoinPairing_settled,
      fetchTemplateDetails, handleJoinPairing, onChange, onSocket,
      receiverHandler, senderHandler;
    repeat case_match; simpl; auto.
Qed.

Lemma handle_SingleFlight ev w :
  clearsStartFlag ev = false -> view w = state w ->
  SingleFlight w -> SingleFlight (handle ev w).
Proof.
  intros Hc Hv Hs.
  destruct ev;
    try (apply (Keeps_SingleFlight (handle _)); [apply handle_Keeps; [exact Hc|exact I]|exact Hs]).
  - simpl. destruct (pendingStarts w) as [|crole rest] eqn:Hp; [exact Hs|].
    destruct (settled_clears_flag crole o (set_pendingStarts rest w)) as (F & P & _).
    destruct Hs as [Hl _]. rewrite Hp in Hl. simpl in Hl.
    assert (rest = []) by (destruct rest; [reflexivity|simpl in Hl; lia]). subst rest.
    split; rewrite P; simpl; [lia|congruence].
  - simpl. apply handleStartAttempt_SingleFlight; [rewrite Hv; reflexivity|exact Hs].
Qed.

Lemma handle_env_benign ev w :
  clearsStartFlag ev = false ->
  truthyStr (socketConnectError (env w)) = false ->
  truthyStr (socketConnectError (env (handle ev w))) = false.
Proof.
  intros Hc Hb. destruct ev; simpl in *; try assumption;
    unfold fetchTemplateDetails_settled, handleStartAttempt_settled,
      handleJoinPairing_settled, fetchTemplateDetails, handleStartAttempt,
      handleJoinPairing, onChange, onSocket, receiverHandler, senderHandler;
    repeat case_match; simpl; assumption.
Qed.

Lemma run_SingleFlight evs : forall w,
  Quiescent w -> truthyStr (socketConnectError (env w)) = false ->
  SingleFlight w -> Forall (fun ev => clearsStartFlag ev = false) evs ->
  SingleFlight (run evs w).
Proof.
  induction evs as [|ev evs IH]; intros w Hq Hb Hs Hall; [exact Hs|].
  inversion Hall as [|? ? Hev Hrest]; subst.
  change (run (ev :: evs) w) with (run evs (step w ev)).
  apply IH; [apply start_commit_Quiescent| | |exact Hrest].
  - unfold step. rewrite (proj1 (commit_basic _)).
    apply handle_env_benign; assumption.
  - unfold step. apply commit_SingleFlight.
    + apply handle_env_benign; assumption.
    + apply handle_SingleFlight; [exact Hev|apply Hq|exact Hs].
Qed.


Lemma pass_state_stable w :
  EnvSettled w -> startDeps (deps w) = Some (startDepsOf (env w) (state w)) ->
  state (pass w) = state w /\ pendingStarts (pass w) = pendingStarts w
  /\ requests (pass w) = requests w.
Proof.
  intros Hs Hd.
  destruct (pass_settled_cases w Hs) as [H | (_ & Hne & _)]; [exact H|].
  contradiction.
Qed.

(** When the hook effects are idle and nothing the start effect depends
    on has changed, rendering changes no state and sends nothing. *)
Lemma commit_state_stable w :
  EnvSettled w -> startDeps (deps w) = Some (startDepsOf (env w) (state w)) ->
  state (commit w) = state w /\ pendingStarts (commit w) = pendingStarts w
  /\ requests (commit w) = requests w.
Proof.
  intros Hs Hd. unfold commit.
  destruct (pass_state_stable w Hs Hd) as (S1 & P1 & R1).
  destruct (pass_basic w) as (E1 & V1 & D1 & _).
  assert (Hd1 : startDeps (deps (pass w)) =
                Some (startDepsOf (env (pass w)) (state (pass w))))
    by (rewrite D1, E1, S1; reflexivity).
  destruct (pass_state_stable (pass w) (pass_EnvSettled w) Hd1) as (S2 & P2 & R2).
  destruct (pass_basic (pass w)) as (E2 & V2 & D2 & _).
  assert (Hd2 : startDeps (deps (pass (pass w))) =
                Some (startDepsOf (env (pass (pass w))) (state (pass (pass w)))))
    by (rewrite D2, E2, S2; reflexivity).
  destruct (pass_state_stable (pass (pass w)) (pass_EnvSettled _) Hd2) as (S3 & P3 & R3).
  repeat split; congruence.
Qed.

Lemma Quiescent_EnvSettled w : Quiescent w -> EnvSettled w.
Proof. intros [V D]. unfold EnvSettled. rewrite D. simpl. auto. Qed.

(** *** C7 *)

Lemma pairing_failed_handled w msg :
  receiverListeners w = true ->
  handle (Socket (pairing_failed msg)) w =
    let errorMsg := orStr msg "配对失败，请检查配对码或稍后重试。" in
    toast Toast.error "配对失败" (Some errorMsg)
      (setState (fun prev => set_isJoiningPairing false
                   (set_pairingError (Some errorMsg) prev)) w).
Proof.
  intros Hl. simpl. unfold onSocket. rewrite Hl. simpl.
  destruct (senderListeners w); reflexivity.
Qed.

Lemma pairing_failed_step w msg :
  Quiescent w -> receiverListeners w = true ->
  let w' := step w (Socket (pairing_failed msg)) in
  state w' = set_isJoiningPairing false
               (set_pairingError
                  (Some (orStr msg "配对失败，请检查配对码或稍后重试。")) (state w))
  /\ env w' = env w /\ view w' = state w' /\ requests w' = requests w
  /\ nav w' = nav w.
Proof.
  intros Hq Hl w'. subst w'. unfold step.
  rewrite (pairing_failed_handled w msg Hl). cbv zeta.
  set (h := toast Toast.error "配对失败"
              (Some (orStr msg "配对失败，请检查配对码或稍后重试。"))
              (setState (fun prev => set_isJoiningPairing false
                           (set_pairingError
                              (Some (orStr msg "配对失败，请检查配对码或稍后重试。"))
                              prev)) w)).
  assert (Hs : EnvSettled h) by (apply (Quiescent_EnvSettled w Hq)).
  assert (Hd : startDeps (deps h) = Some (startDepsOf (env h) (state h))).
  { destruct Hq as [V D]. unfold h. simpl. rewrite D, V. reflexivity. }
  destruct (commit_state_stable h Hs Hd) as (S & _ & R).
  destruct (commit_basic h) as (E & N & _).
  destruct (start_commit_Quiescent h) as [V' _].
  rewrite S, E, N, R, V', S. unfold h. simpl. auto.
Qed.

(** C7. On a page reached from a mount, with the socket connected, in
    the role of the receiver and with [isJoiningPairing] set, a
    [pairing_failed] event leaves [isJoiningPairing = false] and an error
    message that is not empty (the message of the event, or a default);
    the next render enables the code input again, shows no spinner, and
    disables the join button only while the code is blank. *)
Theorem pairing_failed_returns_to_editable_join :
  forall (e : Env) (evs : list Event) (msg : option string),
    let w := run evs (start e) in
    isJoiningPairing (state w) = true -> role (state w) = Some receiver ->
    socket (env w) = true -> isConnected (env w) = true ->
    let w' := step w (Socket (pairing_failed msg)) in
    let errorMsg := orStr msg "配对失败，请检查配对码或稍后重试。" in
    isJoiningPairing (state w') = false
    /\ pairingError (state w') = Some errorMsg /\ isEmpty errorMsg = false
    /\ view w' = state w'
    /\ inputDisabled (view w') = false /\ joinSpinner (view w') = false
    /\ joinButtonDisabled (env w') (view w')
       = isEmpty (trim (pairingCodeInput (state w)))
    /\ pairingCodeInput (state w') = pairingCodeInput (state w)
    /\ nav w' = nav w /\ requests w' = requests w.
Proof.
  intros e evs msg w Hj Hr Hs Hc w' errorMsg.
  destruct (reachable_invariants e evs) as [Hq _].
  pose proof (reachable_listening e evs) as Hl. cbv zeta in Hl.
  fold w in Hq, Hl. rewrite Hj, Hr, Hs, Hc in Hl. simpl in Hl.
  destruct (pairing_failed_step w msg Hq Hl) as (S & E & V & R & N).
  fold w' in S, E, V, R, N. fold errorMsg in S.
  clearbody w' w.
  assert (Hne : isEmpty errorMsg = false).
  { unfold errorMsg, orStr. destruct msg as [m|]; [|reflexivity].
    destruct (isEmpty m) eqn:Hm; [reflexivity|exact Hm]. }
  unfold inputDisabled, joinSpinner, joinButtonDisabled.
  rewrite V, S, E, Hc, R, N. simpl. rewrite orb_false_r. auto 12.
Qed.

Lemma receiverJoining_state :
  isJoiningPairing (state receiverJoining) = true
  /\ role (state receiverJoining) = Some receiver
  /\ socket (env receiverJoining) = true
  /\ isConnected (env receiverJoining) = true.
Proof. vm_compute. auto. Qed.

Lemma pairing_failed_witness :
  isJoiningPairing
    (state (step (run [TemplatesSettled (Fulfilled (Some [commTemplate]));
                       Input "ab12cd"; InvokeJoin] (start receiverEnv))
                 (Socket (pairing_failed None)))) = false.
Proof.
  exact (proj1 (pairing_failed_returns_to_editable_join receiverEnv
                  [TemplatesSettled (Fulfilled (Some [commTemplate]));
                   Input "ab12cd"; InvokeJoin] None
                  (proj1 receiverJoining_state)
                  (proj1 (proj2 receiverJoining_state))
                  (proj1 (proj2 (proj2 receiverJoining_state)))
                  (proj2 (proj2 (proj2 receiverJoining_state))))).
Defined.


(** *** C4 *)

Lemma join_fulfilled_handled response aid w :
  r_attemptId response = Some aid -> aid <> 0 ->
  handleJoinPairing_settled (Fulfilled response) w =
    navigate (Push (QuizAttempt (Some aid)))
      (toast Toast.success "配对成功！正在进入答题..." None w).
Proof.
  intros Hr Hz. unfold handleJoinPairing_settled, joinPairing, wrap.
  rewrite Hr. unfold truthyNum.
  destruct (aid =? 0) eqn:E; [apply Z.eqb_eq in E; contradiction|reflexivity].
Qed.

Lemma start_exam_handled aid w :
  aid <> 0 ->
  nav (handle (Socket (start_exam (Some aid))) w) =
    (nav w ++ if receiverListeners w then [Push (QuizAttempt (Some aid))] else [])%list.
Proof.
  intros Hz. simpl. unfold onSocket.
  destruct (receiverListeners w); simpl.
  - unfold truthyNum. destruct (aid =? 0) eqn:E;
      [apply Z.eqb_eq in E; contradiction|].
    simpl. destruct (senderListeners w); reflexivity.
  - destruct (senderListeners w); simpl; rewrite app_nil_r; reflexivity.
Qed.

(** C4 (as amended). A fulfilled join request whose answer carries an
    attempt id pushes /quiz/attempt/{attemptId} at once, on the HTTP
    answer.  A [start_exam] event carrying an attempt id pushes the same
    route when the listeners of the receiver are subscribed, and does
    nothing otherwise. *)
Theorem join_navigates_on_http_answer :
  forall (w : World) (n : nat) (response : AttemptResponse) (aid : Z),
    pendingJoins w = S n -> r_attemptId response = Some aid -> aid <> 0 ->
    nav (step w (JoinSettled (Fulfilled response)))
      = (nav w ++ [Push (QuizAttempt (Some aid))])%list
    /\ path (QuizAttempt (Some aid)) = "/quiz/attempt/" ++ numberToString (Some aid)
    /\ nav (step w (Socket (start_exam (Some aid))))
       = (nav w ++ if receiverListeners w
                   then [Push (QuizAttempt (Some aid))] else [])%list.
Proof.
  intros w n response aid Hp Hr Hz. split; [|split; [reflexivity|]].
  - unfold step. rewrite (proj1 (proj2 (commit_basic _))).
    simpl. rewrite Hp. rewrite (join_fulfilled_handled response aid _ Hr Hz).
    reflexivity.
  - unfold step. rewrite (proj1 (proj2 (commit_basic _))).
    apply start_exam_handled. exact Hz.
Qed.

Lemma receiverJoining_pending : pendingJoins receiverJoining = 1%nat.
Proof. vm_compute. reflexivity. Qed.

Lemma join_navigates_witness :
  nav (step receiverJoining
         (JoinSettled (Fulfilled (mkAttemptResponse (Some 5) None None))))
  = (nav receiverJoining ++ [Push (QuizAttempt (Some 5))])%list.
Proof.
  exact (proj1 (join_navigates_on_http_answer receiverJoining 0
                  (mkAttemptResponse (Some 5) None None) 5
                  receiverJoining_pending eq_refl ltac:(discriminate))).
Defined.

(** Counterexample to C4 as stated: the receiver enters the attempt page
    on the answer of the join request, in a run without any [start_exam]
    event. *)
Lemma join_answer_alone_enters_attempt :
  let evs := [Input "ab12cd"; InvokeJoin;
              JoinSettled (Fulfilled (mkAttemptResponse (Some 5) None None))] in
  nav (run evs receiverReady) = [Push (QuizAttempt (Some 5))]
  /\ forall aid, ~ In (Socket (start_exam aid)) evs.
Proof.
  split; [vm_compute; reflexivity|].
  intros aid [H|[H|[H|[]]]]; discriminate.
Qed.

(** *** C6 *)

Lemma start_SingleFlight e :
  truthyStr (socketConnectError e) = false -> SingleFlight (start e).
Proof.
  intros Hb. unfold start. apply commit_SingleFlight; [exact Hb|].
  split; simpl; [lia|congruence].
Qed.

(** The guard of [handleStartAttempt].  While the in-flight flag is set in
    the render a call of [handleStartAttempt] comes from, the call changes
    nothing and sends nothing, and so does the start effect; on a page at
    rest with the flag set, invoking the start operation is a no-op.  In a
    run from a mount in which no socket connection error is reported and
    no socket [error] event arrives, at most one start request is pending
    at any time and the flag is set while one is. *)
Lemma start_guarded_by_in_flight_flag :
  forall (e : Env) (evs : list Event),
    truthyStr (socketConnectError e) = false ->
    Forall (fun ev => clearsStartFlag ev = false) evs ->
    let w := run evs (start e) in
    ((startsInFlight w <= 1)%nat
     /\ (startsInFlight w = 1%nat -> isStartingAttempt (state w) = true))
    /\ (isStartingAttempt (state w) = true ->
          step w InvokeStart = w /\ handleStartAttempt w = w /\ startEffect w = w)
    /\ (forall w' : World,
          isStartingAttempt (view w') = true ->
          handleStartAttempt w' = w' /\ startEffect w' = w').
Proof.
  intros e evs Hb Hall w.
  destruct (reachable_invariants e evs) as [Hq _]. fold w in Hq.
  assert (Hs : SingleFlight w).
  { apply run_SingleFlight; auto.
    - apply start_commit_Quiescent.
    - unfold start. rewrite (proj1 (commit_basic _)). exact Hb.
    - apply start_SingleFlight. exact Hb. }
  clearbody w. destruct Hs as [Hl Hf]. unfold startsInFlight.
  split; [split; [exact Hl|]|split].
  - intros H1. apply Hf. intros Hn. rewrite Hn in H1. discriminate.
  - intros Hflag. destruct Hq as [V D].
    assert (Hh : handleStartAttempt w = w)
      by (apply handleStartAttempt_guarded; rewrite V; exact Hflag).
    split; [|split; [exact Hh|]].
    + unfold step. simpl. rewrite Hh. apply start_commit_id. split; assumption.
    + apply startEffect_guarded. rewrite V. exact Hflag.
  - intros w' H. split; [apply handleStartAttempt_guarded|apply startEffect_guarded];
      exact H.
Qed.

Lemma start_guarded_witness :
  truthyStr (socketConnectError senderEnv) = false
  /\ (startsInFlight
        (run [TemplatesSettled (Fulfilled (Some [commTemplate])); InvokeStart;
              InvokeStart] (start senderEnv)) <= 1)%nat.
Proof.
  split; [reflexivity|].
  refine (proj1 (proj1 (start_guarded_by_in_flight_flag senderEnv
                   [TemplatesSettled (Fulfilled (Some [commTemplate])); InvokeStart;
                    InvokeStart] eq_refl _))).
  repeat constructor.
Defined.

(** C6 (the code departs from the claim). The start request of the
    sender on template 7 is pending and the in-flight flag is set: there
    the guard holds, a further invocation of the start operation changes
    nothing.  Then the socket hook reports a connection error.  Effect 8
    clears the flag although the request is still pending, the start
    effect, which depends on the flag, runs again and calls
    [handleStartAttempt], whose guard now passes: a second start request
    for the same template and role is sent while the first is pending.
    When the server answers both, with attempts 11 and 12, the page has
    been given two attempts and keeps the second. *)
Theorem connect_error_allows_second_start :
  let w := run [Hooks senderEnvConnectError] senderStarting in
  let w2 :=
    run [StartSettled (Fulfilled (mkAttemptResponse (Some 11) (Some "AAAAAA") None));
         StartSettled (Fulfilled (mkAttemptResponse (Some 12) (Some "BBBBBB") None))]
      w in
  startsInFlight senderStarting = 1%nat
  /\ isStartingAttempt (state senderStarting) = true
  /\ step senderStarting InvokeStart = senderStarting
  /\ startsInFlight w = 2%nat
  /\ requests w = [GetTemplates; PostStart (Some 7) (Some sender);
                   PostStart (Some 7) (Some sender)]
  /\ attemptId (state (run [StartSettled (Fulfilled
                              (mkAttemptResponse (Some 11) (Some "AAAAAA") None))]
                         w)) = Some 11
  /\ attemptId (state w2) = Some 12
  /\ pairingCodeDisplay (state w2) = Some "BBBBBB"
  /\ startsInFlight w2 = 0%nat.
Proof. vm_compute. repeat split; reflexivity. Qed.

End StartPageFacts.
(** ** The attempt page *)

Module AttemptPageFacts.
Import JS ApiClient Router AttemptPage Scenario.Attempt.

Lemma rerun_None {D : Type} `{EqDecision D} (d : D) f (w : World) :
  rerun None d f w = f w.
Proof. unfold rerun. case_decide; [discriminate|reflexivity]. Qed.

Lemma rerun_same {D : Type} `{EqDecision D} (d : D) f (w : World) :
  rerun (Some d) d f w = w.
Proof. unfold rerun. case_decide; [reflexivity|congruence]. Qed.

Lemma rerun_changed {D : Type} `{EqDecision D} (d' d : D) f (w : World) :
  d' <> d -> rerun (Some d') d f w = f w.
Proof. intros Hne. unfold rerun. case_decide; [congruence|reflexivity]. Qed.

(** *** What the effects leave alone *)

Lemma frame_rerun {D : Type} `{EqDecision D} (last : option D) (d : D) f w :
  (forall w', frame (f w') = frame w' /\ view (f w') = view w'
              /\ deps (f w') = deps w') ->
  frame (rerun last d f w) = frame w /\ view (rerun last d f w) = view w
  /\ deps (rerun last d f w) = deps w.
Proof. intros Hf. unfold rerun. case_decide; [auto|apply Hf]. Qed.

Lemma fetchEffect_frame c w :
  frame (fetchEffect c w) = frame w /\ view (fetchEffect c w) = view w
  /\ deps (fetchEffect c w) = deps w.
Proof.
  unfold fetchEffect, fetchAttemptDetails. repeat case_match; simpl; auto.
Qed.

Lemma listenerEffect_frame c w :
  frame (listenerEffect c w) = frame w /\ view (listenerEffect c w) = view w
  /\ deps (listenerEffect c w) = deps w.
Proof. unfold listenerEffect. repeat case_match; simpl; auto. Qed.

Lemma timerEffect_frame now c w :
  frame (timerEffect now c (set_interval None w)) = frame w
  /\ view (timerEffect now c (set_interval None w)) = view w
  /\ deps (timerEffect now c (set_interval None w)) = deps w.
Proof. unfold timerEffect. repeat case_match; simpl; auto. Qed.

Lemma depsOf_frame w w' :
  frame w = frame w' -> depsOf (closureOf w) = depsOf (closureOf w').
Proof.
  destruct w, w'. unfold frame, depsOf, closureOf, fetchDepsOf, listenerDepsOf,
    timerDepsOf, handleSubmitDepsOf. simpl.
  intros [= -> -> -> -> Ha Hb Hc Hd He Hf Hg Hh Hi Hj]. congruence.
Qed.

Lemma pass_frame now w :
  frame (pass now w) = frame w /\ view (pass now w) = closureOf w
  /\ deps (pass now w) = depsOf (closureOf w).
Proof.
  unfold pass. set (c := closureOf w).
  set (w0 := set_view c w).
  set (w1 := rerun (fetchDeps (deps w)) (fetchDepsOf c) (fetchEffect c) w0).
  set (w2 := rerun (listenerDeps (deps w)) (listenerDepsOf c) (listenerEffect c) w1).
  set (w3 := rerun (timerDeps (deps w)) (timerDepsOf c)
               (fun w' => timerEffect now c (set_interval None w')) w2).
  destruct (frame_rerun (fetchDeps (deps w)) (fetchDepsOf c) (fetchEffect c) w0
              (fetchEffect_frame c)) as (F1 & V1 & _).
  destruct (frame_rerun (listenerDeps (deps w)) (listenerDepsOf c)
              (listenerEffect c) w1 (listenerEffect_frame c)) as (F2 & V2 & _).
  destruct (frame_rerun (timerDeps (deps w)) (timerDepsOf c)
              (fun w' => timerEffect now c (set_interval None w')) w2
              (timerEffect_frame now c)) as (F3 & V3 & _).
  fold w1 in F1, V1. fold w2 in F2, V2. fold w1 in F2, V2. fold w3 in F3, V3.
  fold w2 in F3, V3.
  split; [|split].
  - change (frame w3 = frame w). rewrite F3, F2, F1. reflexivity.
  - change (view w3 = c). rewrite V3, V2, V1. reflexivity.
  - reflexivity.
Qed.

(** Once the recorded dependencies are those of the latest state, a render
    runs no effect. *)
Lemma pass_stable now w :
  deps w = depsOf (closureOf w) -> pass now w = set_view (closureOf w) w.
Proof.
  intros H. destruct w. unfold closureOf in *. simpl in *.
  unfold pass, closureOf. simpl. rewrite H. simpl.
  rewrite !rerun_same. reflexivity.
Qed.

Lemma closureOf_set_view v w : closureOf (set_view v w) = closureOf w.
Proof. reflexivity. Qed.

Lemma commit_Quiescent now w : Quiescent (commit now w).
Proof.
  unfold commit. destruct (pass_frame now w) as (F & V & D).
  assert (Hd : deps (pass now w) = depsOf (closureOf (pass now w))).
  { rewrite D. symmetry. apply depsOf_frame. exact F. }
  rewrite (pass_stable now _ Hd). split; simpl; [reflexivity|exact Hd].
Qed.

Lemma commit_id now w : Quiescent w -> commit now w = w.
Proof.
  intros [V D]. unfold commit.
  assert (H : pass now w = w).
  { rewrite (pass_stable now w D). destruct w. unfold closureOf in *.
    simpl in *. rewrite V. reflexivity. }
  rewrite H. exact H.
Qed.

(** Operations that change nothing a render reads. *)
Lemma Quiescent_silent (f : World -> World) w :
  closureOf (f w) = closureOf w -> view (f w) = view w -> deps (f w) = deps w ->
  Quiescent w -> Quiescent (f w).
Proof. intros Hc Hv Hd [V D]. split; congruence. Qed.

Lemma run_cons ev evs w : run (ev :: evs) w = run evs (step w ev).
Proof. reflexivity. Qed.

Lemma run_Quiescent evs w : Quiescent w -> Quiescent (run evs w).
Proof.
  revert w. induction evs as [|ev evs IH]; intros w Hq; [exact Hq|].
  rewrite run_cons. apply IH. apply commit_Quiescent.
Qed.

Lemma start_Quiescent now e : Quiescent (start now e).
Proof. apply commit_Quiescent. Qed.


(** A step whose handler changes nothing a render reads is the handler. *)
Lemma step_silent w now ev :
  Quiescent w ->
  closureOf (handle ev w) = closureOf w -> view (handle ev w) = view w ->
  deps (handle ev w) = deps w ->
  step w (now, ev) = handle ev w.
Proof.
  intros Hq Hc Hv Hd. unfold step. simpl. apply commit_id.
  destruct Hq as [V D]. split; congruence.
Qed.

(** The page of a signed-in user right after mounting: the fetch is
    pending and nothing of an attempt is installed. *)
Lemma start_signed_in now aid usr sock conn :
  start now (mkEnv (Some aid) (Some usr) false sock conn) =
    let e := mkEnv (Some aid) (Some usr) false sock conn in
    let p := set_error None (set_isLoading true (initialPageState (Some aid))) in
    let c := mkClosure e p ∅ 0%nat 0 in
    mkWorld e p ∅ 0%nat None 0 c (depsOf c) None None [] [(aid, usr)] []
      [GetActive aid] [] [].
Proof.
  unfold start, commit.
  assert (H1 : pass now (mount (mkEnv (Some aid) (Some usr) false sock conn)) =
    let e := mkEnv (Some aid) (Some usr) false sock conn in
    let p := set_error None (set_isLoading true (initialPageState (Some aid))) in
    let c0 := mkClosure e (initialPageState (Some aid)) ∅ 0%nat 0 in
    mkWorld e p ∅ 0%nat None 0 c0 (depsOf c0) None None [] [(aid, usr)] []
      [GetActive aid] [] []).
  { unfold pass, mount. simpl. rewrite !rerun_None.
    destruct sock, conn; reflexivity. }
  rewrite H1. simpl. rewrite pass_stable by reflexivity. reflexivity.
Qed.

Lemma settled_finished aid usr o w :
  reportsFinished usr o = true ->
  fetchAttemptDetails_settled aid usr o w =
    navigate (Replace (QuizResult (Some aid))) w.
Proof.
  unfold reportsFinished, ownedBy, fetchAttemptDetails_settled,
    getActiveAttemptDetails.
  destruct o as [[d|]|e]; [| discriminate |].
  - intros [Ho Hf]%andb_true_iff. apply negb_true_iff in Ho.
    rewrite Ho, Hf. reflexivity.
  - destruct (response e) as [r|]; [|discriminate].
    intros [H409 Hf]%andb_true_iff. rewrite H409. simpl. rewrite Hf. reflexivity.
Qed.

(** C1 (as amended). When the fetch reports the status [completed] or
    [timed_out], in the body of an answer that passes the ownership check
    or in the body of a 409 answer, the page replaces the current route by
    /quiz/result/{attemptId} and changes nothing else: it keeps showing
    the loading screen a page that is loading shows, and no answers,
    questions, start time, countdown or timer are installed.  On a freshly
    mounted page these are all still empty. *)
Theorem finished_attempt_redirects_without_form :
  forall (aid : Z) (usr : ApiUser) (o : Outcome (option ActiveAttempt)),
    reportsFinished usr o = true ->
    (forall (w : World) rest (now : Z),
        Quiescent w -> pendingFetches w = (aid, usr) :: rest ->
        let w' := step w (now, FetchSettled o) in
        w' = navigate (Replace (QuizResult (Some aid))) (set_pendingFetches rest w)
        /\ nav w' = (nav w ++ [Replace (QuizResult (Some aid))])%list
        /\ render (view w') = render (view w)
        /\ answers w' = answers w /\ pageState w' = pageState w
        /\ timeLeft w' = timeLeft w /\ interval w' = interval w
        /\ timers w' = timers w /\ requests w' = requests w)
    /\ (forall (now0 now : Z) (sock conn : bool),
          let w' := run [(now, FetchSettled o)]
                      (start now0 (mkEnv (Some aid) (Some usr) false sock conn)) in
          nav w' = [Replace (QuizResult (Some aid))]
          /\ path (QuizResult (Some aid)) = "/quiz/result/" ++ numberToString (Some aid)
          /\ render (view w') = LoadingScreen
          /\ answers w' = ∅ /\ questions (pageState w') = []
          /\ startTime (pageState w') = None
          /\ timeLeft w' = None /\ interval w' = None /\ timers w' = []
          /\ requests w' = [GetActive aid]).
Proof.
  intros aid usr o Hfin.
  assert (Hgen : forall (w : World) rest (now : Z),
             Quiescent w -> pendingFetches w = (aid, usr) :: rest ->
             step w (now, FetchSettled o) =
               navigate (Replace (QuizResult (Some aid))) (set_pendingFetches rest w)).
  { intros w rest now Hq Hp.
    assert (Hh : handle (FetchSettled o) w =
                   navigate (Replace (QuizResult (Some aid))) (set_pendingFetches rest w)).
    { simpl. rewrite Hp. apply settled_finished. exact Hfin. }
    rewrite step_silent; [exact Hh|exact Hq|rewrite Hh; reflexivity..]. }
  split.
  - intros w rest now Hq Hp w'. subst w'. rewrite (Hgen w rest now Hq Hp).
    simpl. repeat split; reflexivity.
  - intros now0 now sock conn w'. subst w'.
    rewrite run_cons. simpl run.
    rewrite (Hgen _ [] now (start_Quiescent _ _)).
    + rewrite start_signed_in. simpl. repeat split; reflexivity.
    + rewrite start_signed_in. reflexivity.
Qed.


(** Counterexample to C1 as stated: a finished attempt whose body names
    another user fails the ownership check, which comes first; the page
    shows the error screen and does not navigate. *)
Lemma finished_attempt_of_other_user_shows_error :
  let w := run [(900, FetchSettled (Fulfilled (Some finishedOfOther)))] loading in
  a_status finishedOfOther = Some "completed"
  /\ nav w = []
  /\ render (view w) = ErrorScreen "无法加载此答题尝试，或权限不足。".
Proof. vm_compute. auto. Qed.

Lemma finished_attempt_redirects_witness :
  reportsFinished (mkApiUser 1 "alice") (Failed conflict409) = true
  /\ nav (run [(950, FetchSettled (Failed conflict409))] (start 900 attemptEnv))
     = [Replace (QuizResult (Some 5))].
Proof.
  split; [reflexivity|].
  destruct (finished_attempt_redirects_without_form 5 (mkApiUser 1 "alice")
              (Failed conflict409) eq_refl) as [_ H].
  exact (proj1 (H 900 950 true true)).
Defined.

(** *** The countdown *)

Lemma timeLeft_timerEffect now c w :
  timeLeft (timerEffect now c w) = timeLeftAt now (c_pageState c).
Proof.
  unfold timerEffect, timeLeftAt, timerRuns.
  destruct (startTime (c_pageState c)) as [t0|]; [|reflexivity]. simpl.
  destruct (timeLimitSeconds (c_pageState c) <=? 0); simpl; [reflexivity|].
  destruct (bool_decide (status (c_pageState c) = "inprogress"));
    destruct (bool_decide (status (c_pageState c) = "started")); simpl;
    try reflexivity; case_match; reflexivity.
Qed.

Lemma fetchEffect_clock c w :
  timeLeft (fetchEffect c w) = timeLeft w /\ interval (fetchEffect c w) = interval w.
Proof. unfold fetchEffect, fetchAttemptDetails. repeat case_match; simpl; auto. Qed.

Lemma listenerEffect_clock c w :
  timeLeft (listenerEffect c w) = timeLeft w
  /\ interval (listenerEffect c w) = interval w.
Proof. unfold listenerEffect. repeat case_match; simpl; auto. Qed.

(** A render recomputes the remaining time exactly when a dependency of
    the timer effect has changed. *)
Lemma pass_timeLeft now w :
  timeLeft (pass now w) =
    if decide (timerDeps (deps w) = Some (timerDepsOf (closureOf w)))
    then timeLeft w else timeLeftAt now (pageState w).
Proof.
  unfold pass. set (c := closureOf w). simpl.
  set (w1 := rerun (fetchDeps (deps w)) (fetchDepsOf c) (fetchEffect c) (set_view c w)).
  set (w2 := rerun (listenerDeps (deps w)) (listenerDepsOf c) (listenerEffect c) w1).
  assert (H1 : timeLeft w1 = timeLeft w).
  { unfold w1, rerun. case_decide; [reflexivity|].
    rewrite (proj1 (fetchEffect_clock c _)). reflexivity. }
  assert (H2 : timeLeft w2 = timeLeft w).
  { unfold w2, rerun. case_decide; [exact H1|].
    rewrite (proj1 (listenerEffect_clock c w1)). exact H1. }
  unfold rerun at 1. case_decide.
  - exact H2.
  - rewrite timeLeft_timerEffect. reflexivity.
Qed.

Lemma commit_timeLeft now w :
  timeLeft (commit now w) =
    if decide (timerDeps (deps w) = Some (timerDepsOf (closureOf w)))
    then timeLeft w else timeLeftAt now (pageState w).
Proof.
  unfold commit. destruct (pass_frame now w) as (F & V & D).
  rewrite (pass_timeLeft now (pass now w)).
  rewrite decide_True.
  - apply pass_timeLeft.
  - rewrite D, <- (depsOf_frame _ _ F). reflexivity.
Qed.


Lemma timerEffect_clockOK now c w : clockOK (timerEffect now c (set_interval None w)).
Proof.
  unfold clockOK, timerEffect, remainingSeconds.
  repeat case_match; simpl in *; try exact I; simplify_eq; try (split; [lia|]);
    try discriminate; intros _.
  all: match goal with H : (_ <=? 0) && _ = true |- _ =>
         apply andb_true_iff in H; destruct H as [H _];
         apply Z.leb_le in H; lia end.
Qed.

Lemma pass_clockOK now w :
  timerDeps (deps w) <> Some (timerDepsOf (closureOf w)) -> clockOK (pass now w).
Proof.
  intros Hne. unfold pass. set (c := closureOf w).
  unfold rerun at 1. rewrite decide_False by exact Hne.
  pose proof (timerEffect_clockOK now c
    (rerun (listenerDeps (deps w)) (listenerDepsOf c) (listenerEffect c)
       (rerun (fetchDeps (deps w)) (fetchDepsOf c) (fetchEffect c) (set_view c w))))
    as H.
  exact H.
Qed.

Lemma commit_clockOK now w :
  timerDeps (deps w) <> Some (timerDepsOf (closureOf w)) -> clockOK (commit now w).
Proof.
  intros Hne. unfold commit. destruct (pass_frame now w) as (F & V & D).
  rewrite (pass_stable now (pass now w)).
  - exact (pass_clockOK now w Hne).
  - rewrite D. symmetry. apply depsOf_frame. exact F.
Qed.

Lemma pass_pageState now w :
  fetchDeps (deps w) = Some (fetchDepsOf (closureOf w)) ->
  pageState (pass now w) = pageState w /\ requests (pass now w) = requests w
  /\ nav (pass now w) = nav w /\ answers (pass now w) = answers w.
Proof.
  intros H. unfold pass. rewrite H. rewrite rerun_same.
  unfold rerun, listenerEffect, timerEffect.
  repeat case_match; simpl; auto.
Qed.

Lemma commit_pageState now w :
  fetchDeps (deps w) = Some (fetchDepsOf (closureOf w)) ->
  pageState (commit now w) = pageState w /\ requests (commit now w) = requests w
  /\ nav (commit now w) = nav w /\ answers (commit now w) = answers w.
Proof.
  intros H. unfold commit. destruct (pass_frame now w) as (F & V & D).
  rewrite (pass_stable now (pass now w)).
  - simpl. apply pass_pageState. exact H.
  - rewrite D. symmetry. apply depsOf_frame. exact F.
Qed.

(** **** Ticks *)

Lemma tick_step w now c :
  Quiescent w -> interval w = Some c -> step w (now, IntervalFires) = tick c w.
Proof.
  intros Hq Hi.
  assert (Hh : handle IntervalFires w = tick c w) by (simpl; rewrite Hi; reflexivity).
  rewrite step_silent; [exact Hh|exact Hq|rewrite Hh..];
    unfold tick; repeat case_match; reflexivity.
Qed.

Lemma idle_step w now :
  Quiescent w -> interval w = None -> step w (now, IntervalFires) = w.
Proof.
  intros Hq Hi.
  assert (Hh : handle IntervalFires w = w) by (simpl; rewrite Hi; reflexivity).
  rewrite step_silent; [exact Hh|exact Hq|rewrite Hh..]; reflexivity.
Qed.

Lemma tick_pageState c w :
  pageState (tick c w) = pageState w /\ answers (tick c w) = answers w
  /\ view (tick c w) = view w /\ requests (tick c w) = requests w.
Proof. unfold tick. repeat case_match; simpl; auto. Qed.

Lemma ticks_pageState ts : forall w,
  Quiescent w ->
  pageState (run (ticks ts) w) = pageState w /\ view (run (ticks ts) w) = view w
  /\ requests (run (ticks ts) w) = requests w.
Proof.
  induction ts as [|t ts IH]; intros w Hq; [auto|].
  simpl ticks. rewrite run_cons.
  destruct (IH (step w (t, IntervalFires)) (commit_Quiescent _ _)) as (P & V & R).
  rewrite P, V, R.
  destruct (interval w) as [c|] eqn:Hi.
  - rewrite (tick_step w t c Hq Hi).
    destruct (tick_pageState c w) as (? & ? & ? & ?). auto.
  - rewrite (idle_step w t Hq Hi). auto.
Qed.

(** Each interval callback takes one second off, down to zero, whatever
    the client clock says. *)
Lemma ticks_timeLeft ts : forall w r,
  Quiescent w -> timeLeft w = Some r -> 0 <= r -> (interval w = None -> r = 0) ->
  timeLeft (run (ticks ts) w) = Some (Z.max 0 (r - Z.of_nat (List.length ts))).
Proof.
  induction ts as [|t ts IH]; intros w r Hq Ht Hr Hi.
  - simpl. rewrite Ht. f_equal. lia.
  - simpl ticks. rewrite run_cons.
    destruct (interval w) as [c|] eqn:Hint.
    + rewrite (tick_step w t c Hq Hint).
      assert (Hq' : Quiescent (tick c w)).
      { rewrite <- (tick_step w t c Hq Hint). apply commit_Quiescent. }
      unfold tick in *. rewrite Ht in *.
      destruct (r <=? 1) eqn:Hle.
      * apply Z.leb_le in Hle.
        rewrite (IH _ 0 Hq').
        -- f_equal. simpl List.length. lia.
        -- destruct (negb (is_sender (role (c_pageState c)))); reflexivity.
        -- lia.
        -- reflexivity.
      * apply Z.leb_gt in Hle.
        rewrite (IH _ (r - 1) Hq').
        -- f_equal. simpl List.length. lia.
        -- reflexivity.
        -- lia.
        -- simpl. rewrite Hint. discriminate.
    + rewrite (idle_step w t Hq Hint).
      rewrite (IH w r Hq Ht Hr (fun _ => Hi eq_refl)). f_equal.
      rewrite (Hi eq_refl). simpl List.length. lia.
Qed.


(** **** Loading an attempt in progress *)

(** The state a fetched attempt in progress installs. *)
Lemma settled_in_progress aid usr d s w :
  ownedBy usr d = true -> a_status d = Some s ->
  s = "inprogress" \/ s = "started" ->
  fetchAttemptDetails_settled aid usr (Fulfilled (Some d)) w =
    setPageState
      (fun prev =>
         mkPageState (ps_attemptId prev) (a_role d) (orNull (a_pairingCode d))
           (orStr (a_templateName d) ("试卷 " ++ numberToString (Some aid)))
           (default [] (a_questions d)) (a_startTime d)
           (default 0 (a_timeLimit d)) s
           false (error prev) (isSubmitting prev) (isPartnerConnected prev))
      (setAnswers (fun _ => initialAnswers (default [] (a_questions d))) w).
Proof.
  intros Ho Hs Hrun. unfold fetchAttemptDetails_settled, getActiveAttemptDetails.
  unfold ownedBy in Ho. apply negb_true_iff in Ho. rewrite Ho, Hs.
  destruct Hrun as [-> | ->]; reflexivity.
Qed.

Lemma load_step w aid usr rest d s T0 L now :
  Quiescent w -> pendingFetches w = (aid, usr) :: rest ->
  ownedBy usr d = true -> a_status d = Some s ->
  s = "inprogress" \/ s = "started" ->
  a_startTime d = Some T0 -> a_timeLimit d = Some L -> 0 < L ->
  let w1 := step w (now, FetchSettled (Fulfilled (Some d))) in
  Quiescent w1 /\ clockOK w1
  /\ timeLeft w1 = Some (Z.max 0 (L - (now - T0) / 1000))
  /\ startTime (pageState w1) = Some T0 /\ timeLimitSeconds (pageState w1) = L
  /\ status (pageState w1) = s.
Proof.
  intros Hq Hp Ho Hs Hrun HT HL Hpos w1.
  assert (Hh : handle (FetchSettled (Fulfilled (Some d))) w =
               fetchAttemptDetails_settled aid usr (Fulfilled (Some d))
                 (set_pendingFetches rest w)).
  { simpl. rewrite Hp. reflexivity. }
  rewrite (settled_in_progress aid usr d s _ Ho Hs Hrun) in Hh.
  destruct Hq as [V D].
  assert (Hne : timerDeps (deps (handle (FetchSettled (Fulfilled (Some d))) w)) <>
                Some (timerDepsOf (closureOf (handle (FetchSettled (Fulfilled (Some d))) w)))).
  { rewrite Hh. simpl. rewrite D. simpl.
    unfold timerDepsOf, handleSubmitDepsOf. simpl. intros [=]. lia. }
  assert (Hf : fetchDeps (deps (handle (FetchSettled (Fulfilled (Some d))) w)) =
               Some (fetchDepsOf (closureOf (handle (FetchSettled (Fulfilled (Some d))) w)))).
  { rewrite Hh. simpl. rewrite D. reflexivity. }
  subst w1. unfold step. cbn [fst snd].
  split; [apply commit_Quiescent|]. split; [apply commit_clockOK; exact Hne|].
  rewrite commit_timeLeft, decide_False by exact Hne.
  destruct (commit_pageState now _ Hf) as (P & _). rewrite P, Hh. simpl.
  rewrite HT, HL. simpl.
  split; [|auto].
  unfold timeLeftAt, timerRuns, remainingSeconds. simpl.
  destruct (L <=? 0) eqn:HL0; [apply Z.leb_le in HL0; lia|]. simpl.
  destruct Hrun as [-> | ->]; reflexivity.
Qed.

(** Editing an answer creates a new [answers] object, hence a new
    [handleSubmit], hence a new run of the timer effect: the remaining
    time is computed again from the client clock. *)
Lemma input_rederives w now q field value :
  Quiescent w -> render (view w) = AnswerForm q -> fieldShown q field = true ->
  timeLeft (step w (now, AnswerInput field value)) = timeLeftAt now (pageState w).
Proof.
  intros [V D] Hr Hf. unfold step. cbn [fst snd]. simpl handle.
  rewrite Hr, Hf. rewrite commit_timeLeft, decide_False.
  - reflexivity.
  - simpl. rewrite D. simpl. unfold timerDepsOf, handleSubmitDepsOf. simpl.
    intros [=]. lia.
Qed.

(** C3 (as amended). When an attempt in progress is loaded, with start
    time T0 and limit L > 0, at client time [now], the remaining time is
    max(0, L - floor((now - T0)/1000)).  While only interval callbacks
    follow, each takes one second off, never below zero, whatever the
    clock says.  The value is derived again from the client clock and T0
    whenever the timer effect runs again, which an edit of an answer
    causes. *)
Theorem remaining_time_on_load_and_ticks :
  forall (w : World) (aid : Z) (usr : ApiUser) rest (d : ActiveAttempt)
         (s : string) (T0 L now : Z) (ts : list Z),
    Quiescent w -> pendingFetches w = (aid, usr) :: rest ->
    ownedBy usr d = true -> a_status d = Some s ->
    s = "inprogress" \/ s = "started" ->
    a_startTime d = Some T0 -> a_timeLimit d = Some L -> 0 < L ->
    let w1 := step w (now, FetchSettled (Fulfilled (Some d))) in
    let w2 := run (ticks ts) w1 in
    let r0 := Z.max 0 (L - (now - T0) / 1000) in
    timeLeft w1 = Some r0
    /\ timeLeft w2 = Some (Z.max 0 (r0 - Z.of_nat (List.length ts)))
    /\ (forall now' q field value,
          render (view w2) = AnswerForm q -> fieldShown q field = true ->
          timeLeft (step w2 (now', AnswerInput field value)) =
            Some (Z.max 0 (L - (now' - T0) / 1000))).
Proof.
  intros w aid usr rest d s T0 L now ts Hq Hp Ho Hs Hrun HT HL Hpos.
  cbv zeta.
  pose proof (load_step w aid usr rest d s T0 L now Hq Hp Ho Hs Hrun HT HL Hpos)
    as H1.
  cbv zeta in H1.
  set (w1 := step w (now, FetchSettled (Fulfilled (Some d)))) in *.
  clearbody w1.
  destruct H1 as (Hq1 & Hc1 & Ht1 & HT1 & HL1 & Hs1).
  split; [exact Ht1|]. split.
  - unfold clockOK in Hc1. rewrite Ht1 in Hc1. destruct Hc1 as [H0 Hi].
    exact (ticks_timeLeft ts w1 _ Hq1 Ht1 H0 Hi).
  - intros now' q field value Hr Hf.
    destruct (ticks_pageState ts w1 Hq1) as (P & _).
    pose proof (run_Quiescent (ticks ts) w1 Hq1) as Hq2.
    set (w2 := run (ticks ts) w1) in *. clearbody w2.
    rewrite (input_rederives w2 now' q field value Hq2 Hr Hf).
    rewrite P.
    unfold timeLeftAt, timerRuns, remainingSeconds. rewrite HT1, HL1, Hs1.
    cbn [isSome andb].
    destruct (L <=? 0) eqn:HL0; [apply Z.leb_le in HL0; lia|]. cbn [negb andb].
    destruct Hrun as [-> | ->]; reflexivity.
Qed.

(** Counterexample to C3 as stated: with a limit of 100 s, the page loaded
    0.9 s after the start shows 100; an answer typed 0.1 s later, before
    any interval callback, makes it 99, computed from the clock. *)
Lemma remaining_time_rederived_on_input :
  let w := receiverLoaded 100 in
  let evs := [(1000, AnswerInput f_answerText "7")] in
  timeLeft w = Some 100
  /\ filter (fun ev => is_tick ev = true) evs = []
  /\ timeLeft (run evs w) = Some 99
  /\ timeLeft (run evs w) <> Some (Z.max 0 (100 - 0)).
Proof. vm_compute. repeat split; discriminate. Qed.

Lemma remaining_time_witness :
  Quiescent loading
  /\ pendingFetches loading = [(5, mkApiUser 1 "alice")]
  /\ 0 < 60
  /\ timeLeft (step loading
                 (1900, FetchSettled (Fulfilled (Some (inProgress (Some receiver) 60)))))
     = Some (Z.max 0 (60 - (1900 - 0) / 1000)).
Proof.
  split; [apply start_Quiescent|].
  split; [vm_compute; reflexivity|].
  split; [lia|].
  exact (proj1 (remaining_time_on_load_and_ticks loading 5 (mkApiUser 1 "alice") []
                  (inProgress (Some receiver) 60) "inprogress" 0 60 1900
                  [2000; 3000] (start_Quiescent _ _) ltac:(vm_compute; reflexivity)
                  eq_refl eq_refl (or_introl eq_refl) eq_refl eq_refl
                  ltac:(reflexivity))).
Defined.

(** *** The sender *)

Lemma handleSubmit_sender c timedOut w :
  is_sender (role (c_pageState c)) = true -> handleSubmit c timedOut w = w.
Proof. intros H. unfold handleSubmit. rewrite H, orb_true_r. reflexivity. Qed.

Lemma sender_has_no_submit_button c :
  is_sender (role (c_pageState c)) = true -> submitButtonEnabled c = false.
Proof.
  intros H. unfold submitButtonEnabled, render. rewrite H.
  destruct (isLoading (c_pageState c) || isAuthLoading (c_env c)); [reflexivity|].
  destruct (truthyStr (error (c_pageState c)) && negb (isSubmitting (c_pageState c)));
    reflexivity.
Qed.

Lemma exam_completed_step w now c score :
  Quiescent w -> examCompletedListener w = Some c ->
  step w (now, ExamCompleted score) = onExamCompleted c score w.
Proof.
  intros Hq Hl.
  assert (Hh : handle (ExamCompleted score) w = onExamCompleted c score w)
    by (simpl; rewrite Hl; reflexivity).
  rewrite step_silent; [exact Hh|exact Hq|rewrite Hh; reflexivity..].
Qed.

Lemma redirect_timer_step w now aid ts :
  Quiescent w -> timers w = (ts ++ [RedirectTimer aid])%list ->
  step w (now, TimerFires (List.length ts)) =
    navigate (Replace (QuizResult aid)) (set_timers ts w).
Proof.
  intros Hq Ht.
  assert (Hh : handle (TimerFires (List.length ts)) w =
               navigate (Replace (QuizResult aid)) (set_timers ts w)).
  { unfold handle. rewrite Ht.
    rewrite (list_lookup_middle ts [] _ (List.length ts) eq_refl).
    rewrite (delete_middle ts []). rewrite app_nil_r. reflexivity. }
  rewrite step_silent; [exact Hh|exact Hq|rewrite Hh; reflexivity..].
Qed.

(** Where the [exam_completed] listener is subscribed, the event queues
    the redirect (500 ms) and the queued callback replaces the route by
    /quiz/result/{attemptId}; no request is sent on the way. *)
Lemma exam_completed_redirects :
  forall (w : World) (c : Closure) (score now now' : Z),
    Quiescent w -> examCompletedListener w = Some c ->
    let w1 := step w (now, ExamCompleted score) in
    let w2 := step w1 (now', TimerFires (List.length (timers w))) in
    (timers w1 = (timers w ++ [RedirectTimer (attemptId (c_env c))])%list
     /\ nav w1 = nav w
     /\ toasts w1 =
          (toasts w ++ [Toast.mk Toast.success
                          ("考试已完成！得分: " ++ numberToString (Some score))
                          None])%list)
    /\ nav w2 = (nav w ++ [Replace (QuizResult (attemptId (c_env c)))])%list
    /\ requests w2 = requests w /\ pendingSubmits w2 = pendingSubmits w
    /\ timers w2 = timers w.
Proof.
  intros w c score now now' Hq Hl w1 w2.
  assert (H1 : w1 = onExamCompleted c score w)
    by exact (exam_completed_step w now c score Hq Hl).
  assert (Hq1 : Quiescent w1) by apply commit_Quiescent.
  assert (H2 : w2 = navigate (Replace (QuizResult (attemptId (c_env c))))
                      (set_timers (timers w) w1)).
  { apply redirect_timer_step; [exact Hq1|]. rewrite H1. reflexivity. }
  clearbody w1 w2. subst w2 w1.
  repeat split; reflexivity.
Qed.

(** **** The subscription of the listener *)

Lemma fetchEffect_listener c w :
  examCompletedListener (fetchEffect c w) = examCompletedListener w.
Proof.
  unfold fetchEffect, fetchAttemptDetails. repeat case_match; reflexivity.
Qed.

Lemma timerEffect_listener now c w :
  examCompletedListener (timerEffect now c (set_interval None w))
  = examCompletedListener w.
Proof. unfold timerEffect. repeat case_match; reflexivity. Qed.

Lemma rerun_listener {D : Type} `{EqDecision D} (last : option D) (d : D) f w :
  (forall w', examCompletedListener (f w') = examCompletedListener w') ->
  examCompletedListener (rerun last d f w) = examCompletedListener w.
Proof. intros Hf. unfold rerun. case_decide; [reflexivity|apply Hf]. Qed.

(** The effect subscribes for a connected socket and the sender role,
    whatever the status of the attempt, and for nothing else. *)
Lemma listenerEffect_spec c w :
  examCompletedListener (listenerEffect c w) =
    if socket (c_env c) && isConnected (c_env c)
       && is_sender (role (c_pageState c))
    then Some c else None.
Proof.
  unfold listenerEffect.
  destruct (socket (c_env c)), (isConnected (c_env c)); simpl; try reflexivity.
  destruct (role (c_pageState c)) as [[]|]; reflexivity.
Qed.

Lemma pass_ListenerTracked now w :
  ListenerTracked w -> ListenerTracked (pass now w).
Proof.
  intros Hl. unfold ListenerTracked, pass. cbv zeta.
  set (c := closureOf w).
  set (w1 := rerun (fetchDeps (deps w)) (fetchDepsOf c) (fetchEffect c)
               (set_view c w)).
  set (w2 := rerun (listenerDeps (deps w)) (listenerDepsOf c)
               (listenerEffect c) w1).
  assert (H1 : examCompletedListener w1 = examCompletedListener w).
  { unfold w1. rewrite rerun_listener by apply fetchEffect_listener.
    reflexivity. }
  change (match listenerDeps (depsOf c) with
          | Some (sock, conn, r, aid) =>
              if sock && conn && is_sender r
              then exists c0,
                  examCompletedListener
                    (rerun (timerDeps (deps w)) (timerDepsOf c)
                       (fun w' => timerEffect now c (set_interval None w')) w2)
                  = Some c0 /\ attemptId (c_env c0) = aid
              else examCompletedListener
                     (rerun (timerDeps (deps w)) (timerDepsOf c)
                        (fun w' => timerEffect now c (set_interval None w')) w2)
                   = None
          | None =>
              examCompletedListener
                (rerun (timerDeps (deps w)) (timerDepsOf c)
                   (fun w' => timerEffect now c (set_interval None w')) w2)
              = None
          end).
  rewrite rerun_listener by (intros; apply timerEffect_listener).
  change (listenerDeps (depsOf c)) with (Some (listenerDepsOf c)).
  unfold w2, rerun. case_decide as Hd.
  - unfold ListenerTracked in Hl. rewrite Hd in Hl. rewrite H1.
    unfold listenerDepsOf in *. exact Hl.
  - rewrite listenerEffect_spec. unfold listenerDepsOf.
    destruct (socket (c_env c) && isConnected (c_env c)
              && is_sender (role (c_pageState c))); [|reflexivity].
    exists c. split; reflexivity.
Qed.

Lemma commit_ListenerTracked now w :
  ListenerTracked w -> ListenerTracked (commit now w).
Proof. intros H. unfold commit. apply pass_ListenerTracked, pass_ListenerTracked, H. Qed.

(** No handler touches the subscription or the recorded dependencies. *)
Lemma handle_listener ev w :
  deps (handle ev w) = deps w
  /\ examCompletedListener (handle ev w) = examCompletedListener w.
Proof.
  destruct ev; simpl;
    unfold fetchAttemptDetails_settled, handleSubmit_settled,
      fetchAttemptDetails, handleAnswerChange, handleNextQuestion,
      handlePrevQuestion, handleSubmit, tick, fire, onExamCompleted;
    repeat case_match; simpl; auto.
  unfold handleSubmit. case_match; simpl; auto.
Qed.

Lemma handle_ListenerTracked ev w :
  ListenerTracked w -> ListenerTracked (handle ev w).
Proof.
  unfold ListenerTracked. destruct (handle_listener ev w) as [-> ->]. trivial.
Qed.

Lemma run_ListenerTracked evs w :
  ListenerTracked w -> ListenerTracked (run evs w).
Proof.
  revert w. induction evs as [|ev evs IH]; intros w H; [exact H|].
  rewrite run_cons. apply IH. unfold step.
  apply commit_ListenerTracked, handle_ListenerTracked, H.
Qed.

Lemma start_ListenerTracked now e : ListenerTracked (start now e).
Proof. unfold start. apply commit_ListenerTracked. reflexivity. Qed.

(** On a page at rest the sender with a connected socket is subscribed,
    by a render of the attempt id of the page. *)
Lemma sender_subscribed w :
  Quiescent w -> ListenerTracked w ->
  role (pageState w) = Some sender ->
  socket (env w) = true -> isConnected (env w) = true ->
  exists c, examCompletedListener w = Some c
            /\ attemptId (c_env c) = attemptId (env w).
Proof.
  intros [V D] Hl Hr Hs Hc. unfold ListenerTracked in Hl.
  rewrite D in Hl. simpl in Hl. rewrite Hs, Hc, Hr in Hl. exact Hl.
Qed.

(** C8. Take the attempt page after any run of events from its mount, of
    the sender role and with a connected socket, whatever the status of
    the attempt.  The [exam_completed] listener is subscribed; the event
    with a score raises the toast with the score and queues the redirect
    (500 ms), and the queued callback replaces the route by
    /quiz/result/{attemptId}; no request is sent on the way, in particular
    no submit request.  [handleSubmit] of a render whose role is sender
    returns at once and such a render shows no submit button: a click on
    submit changes nothing on this page. *)
Theorem sender_redirected_on_exam_completed :
  forall (e : Env) (now0 : Z) (evs : list (Z * Event)) (score now now' : Z),
    role (pageState (run evs (start now0 e))) = Some sender ->
    socket (env (run evs (start now0 e))) = true ->
    isConnected (env (run evs (start now0 e))) = true ->
    let w := run evs (start now0 e) in
    let aid := attemptId (env w) in
    let w1 := step w (now, ExamCompleted score) in
    let w2 := step w1 (now', TimerFires (List.length (timers w))) in
    (exists c, examCompletedListener w = Some c /\ attemptId (c_env c) = aid)
    /\ (timers w1 = (timers w ++ [RedirectTimer aid])%list
        /\ nav w1 = nav w
        /\ toasts w1 =
             (toasts w ++ [Toast.mk Toast.success
                             ("考试已完成！得分: " ++ numberToString (Some score))
                             None])%list)
    /\ nav w2 = (nav w ++ [Replace (QuizResult aid)])%list
    /\ path (QuizResult aid) = "/quiz/result/" ++ numberToString aid
    /\ requests w2 = requests w /\ pendingSubmits w2 = pendingSubmits w
    /\ timers w2 = timers w
    /\ step w (now, ClickSubmit) = w
    /\ (forall timedOut w', handleSubmit (view w) timedOut w' = w')
    /\ (forall c' timedOut w',
          is_sender (role (c_pageState c')) = true ->
          handleSubmit c' timedOut w' = w' /\ submitButtonEnabled c' = false).
Proof.
  intros e now0 evs score now now' Hr Hs Hc w aid w1 w2.
  assert (Hq : Quiescent w) by apply run_Quiescent, start_Quiescent.
  assert (Hl : ListenerTracked w)
    by apply run_ListenerTracked, start_ListenerTracked.
  fold w in Hr, Hs, Hc.
  destruct (sender_subscribed w Hq Hl Hr Hs Hc) as (c & Hsub & Haid).
  pose proof (exam_completed_redirects w c score now now' Hq Hsub) as H.
  cbv zeta in H. fold w1 in H. fold w2 in H. rewrite Haid in H. fold aid in H.
  destruct H as (H1 & H2 & H3 & H4 & H5).
  assert (Hv : is_sender (role (c_pageState (view w))) = true).
  { destruct Hq as [V _]. rewrite V. simpl. rewrite Hr. reflexivity. }
  clearbody w1 w2. clearbody w.
  assert (Hh : handle ClickSubmit w = w).
  { unfold handle. rewrite (sender_has_no_submit_button _ Hv). reflexivity. }
  split; [exists c; split; [exact Hsub|exact Haid]|].
  split; [exact H1|]. split; [exact H2|]. split; [reflexivity|].
  split; [exact H3|]. split; [exact H4|]. split; [exact H5|].
  split; [|split].
  - rewrite step_silent; [exact Hh|exact Hq|rewrite Hh; reflexivity..].
  - intros timedOut w'. apply handleSubmit_sender. exact Hv.
  - intros c' timedOut w' Hc'. split.
    + apply handleSubmit_sender. exact Hc'.
    + apply sender_has_no_submit_button. exact Hc'.
Qed.

Lemma senderPaused_state :
  role (pageState senderPaused) = Some sender
  /\ socket (env senderPaused) = true
  /\ isConnected (env senderPaused) = true
  /\ status (pageState senderPaused) = "paused".
Proof. vm_compute. auto. Qed.

Lemma sender_redirected_witness :
  role (pageState senderPaused) = Some sender
  /\ socket (env senderPaused) = true
  /\ isConnected (env senderPaused) = true
  /\ nav (step (step senderPaused (2000, ExamCompleted 80))
               (2500, TimerFires (List.length (timers senderPaused))))
     = (nav senderPaused ++ [Replace (QuizResult (attemptId (env senderPaused)))])%list.
Proof.
  split; [exact (proj1 senderPaused_state)|].
  split; [exact (proj1 (proj2 senderPaused_state))|].
  split; [exact (proj1 (proj2 (proj2 senderPaused_state)))|].
  exact (proj1 (proj2 (proj2
           (sender_redirected_on_exam_completed attemptEnv 900
              [(900, FetchSettled (Fulfilled (Some
                  (mkActive (Some 1) (Some "paused") (Some sender) None None
                     (Some [question1]) (Some 0) (Some 60)))))]
              80 2000 2500
              (proj1 senderPaused_state)
              (proj1 (proj2 senderPaused_state))
              (proj1 (proj2 (proj2 senderPaused_state))))))).
Defined.


(** *** Submission *)

Lemma orStr_nonempty o d : isEmpty d = false -> isEmpty (orStr o d) = false.
Proof.
  intros Hd. unfold orStr. destruct o as [s|]; [|exact Hd].
  destruct (isEmpty s) eqn:Hs; [exact Hd|exact Hs].
Qed.

Lemma orStr_Some_nonempty s d : isEmpty s = false -> orStr (Some s) d = s.
Proof. intros H. unfold orStr. rewrite H. reflexivity. Qed.

Lemma pass_toasts now w : exists extra, toasts (pass now w) = (toasts w ++ extra)%list.
Proof.
  unfold pass, rerun, fetchEffect, fetchAttemptDetails, listenerEffect, timerEffect.
  repeat case_match; simpl;
    first [ by (exists []; rewrite app_nil_r) | by eexists ].
Qed.

Lemma commit_toasts now w :
  exists extra, toasts (commit now w) = (toasts w ++ extra)%list.
Proof.
  unfold commit. destruct (pass_toasts now w) as [x Hx].
  destruct (pass_toasts now (pass now w)) as [y Hy].
  exists (x ++ y)%list. rewrite Hy, Hx, app_assoc. reflexivity.
Qed.

(** The state a failed submission leaves, before the next render. *)
Lemma handleSubmit_failed aid e w :
  handleSubmit_settled aid (Failed e) w =
    let errorMsg := orStr (responseMessage e) "提交答案时发生错误" in
    toast Toast.error "提交失败" (Some errorMsg)
      (setPageState (fun prev => set_isSubmitting false
                       (set_error (Some errorMsg) prev)) w).
Proof.
  unfold handleSubmit_settled, submitAttempt, wrap. cbn [message].
  rewrite orStr_Some_nonempty; [reflexivity|].
  apply orStr_nonempty. reflexivity.
Qed.

(** With the fetch effect idle, a render touches only the countdown, the
    timers, the listener and the toasts. *)
Lemma pass_kept now w :
  fetchDeps (deps w) = Some (fetchDepsOf (closureOf w)) ->
  env (pass now w) = env w /\ answersRef (pass now w) = answersRef w
  /\ pendingSubmits (pass now w) = pendingSubmits w
  /\ pendingFetches (pass now w) = pendingFetches w.
Proof.
  intros H. unfold pass. rewrite H. rewrite rerun_same.
  unfold rerun, listenerEffect, timerEffect.
  repeat case_match; simpl; auto.
Qed.

Lemma commit_kept now w :
  fetchDeps (deps w) = Some (fetchDepsOf (closureOf w)) ->
  env (commit now w) = env w /\ answersRef (commit now w) = answersRef w
  /\ pendingSubmits (commit now w) = pendingSubmits w
  /\ pendingFetches (commit now w) = pendingFetches w.
Proof.
  intros H. unfold commit. destruct (pass_frame now w) as (F & V & D).
  rewrite (pass_stable now (pass now w)).
  - simpl. apply pass_kept. exact H.
  - rewrite D. symmetry. apply depsOf_frame. exact F.
Qed.

Lemma handleSubmit_requests c timedOut w :
  requests (handleSubmit c timedOut w) =
    (requests w ++
       if isSubmitting (c_pageState c) || is_sender (role (c_pageState c))
       then []
       else [PostSubmit (attemptId (c_env c)) (formattedAnswers (c_answers c))])%list.
Proof.
  unfold handleSubmit.
  destruct (isSubmitting (c_pageState c) || is_sender (role (c_pageState c))).
  - rewrite app_nil_r. reflexivity.
  - reflexivity.
Qed.

Lemma render_error c m :
  error (c_pageState c) = Some m -> isEmpty m = false ->
  isSubmitting (c_pageState c) = false ->
  render c = if isLoading (c_pageState c) || isAuthLoading (c_env c)
             then LoadingScreen else ErrorScreen m.
Proof.
  intros He Hm Hs. unfold render. rewrite He, Hs. unfold truthyStr.
  rewrite Hm. reflexivity.
Qed.

(** The catch block of [handleSubmit].  When the submit request fails, the
    page stores an error message that is not empty (the message of the
    server, or the default of the API client) and raises it in a toast,
    sets [isSubmitting] back to [false], and leaves the answers in the
    state as they were; nothing is sent or navigated.  The render that
    follows returns the error screen unless the page is loading. *)
Lemma submit_failure_keeps_answers :
  forall (w : World) (aid : option Z) rest (e : AxiosError) (now : Z) (timedOut : bool),
    Quiescent w -> pendingSubmits w = aid :: rest ->
    let w' := step w (now, SubmitSettled (Failed e)) in
    let errorMsg := orStr (responseMessage e) "提交答案时发生错误" in
    error (pageState w') = Some errorMsg /\ isEmpty errorMsg = false
    /\ In (Toast.mk Toast.error "提交失败" (Some errorMsg)) (toasts w')
    /\ render (view w') =
         (if isLoading (pageState w) || isAuthLoading (env w)
          then LoadingScreen else ErrorScreen errorMsg)
    /\ isSubmitting (pageState w') = false
    /\ answers w' = answers w /\ answersRef w' = answersRef w
    /\ requests w' = requests w /\ nav w' = nav w
    /\ pendingSubmits w' = rest
    /\ requests (handleSubmit (view w') timedOut w') =
         (requests w ++
            if is_sender (role (pageState w)) then []
            else [PostSubmit (attemptId (env w)) (formattedAnswers (answers w))])%list.
Proof.
  intros w aid rest e now timedOut Hq Hp w' errorMsg.
  assert (Hne : isEmpty errorMsg = false) by (apply orStr_nonempty; reflexivity).
  assert (Hh : handle (SubmitSettled (Failed e)) w =
               handleSubmit_settled aid (Failed e) (set_pendingSubmits rest w)).
  { unfold handle. rewrite Hp. reflexivity. }
  subst w'. unfold step. cbn [fst snd]. rewrite Hh. clear Hh.
  pose proof (handleSubmit_failed aid e (set_pendingSubmits rest w)) as Hf.
  cbv zeta in Hf. fold errorMsg in Hf.
  set (h := handleSubmit_settled aid (Failed e) (set_pendingSubmits rest w)) in *.
  clearbody h.
  assert (Hps : pageState h =
                set_isSubmitting false (set_error (Some errorMsg) (pageState w)))
    by (rewrite Hf; reflexivity).
  assert (Ha : answers h = answers w) by (rewrite Hf; reflexivity).
  assert (Har : answersRef h = answersRef w) by (rewrite Hf; reflexivity).
  assert (He : env h = env w) by (rewrite Hf; reflexivity).
  assert (Hr : requests h = requests w) by (rewrite Hf; reflexivity).
  assert (Hn : nav h = nav w) by (rewrite Hf; reflexivity).
  assert (Hpd : pendingSubmits h = rest) by (rewrite Hf; reflexivity).
  assert (Ht : toasts h =
               (toasts w ++ [Toast.mk Toast.error "提交失败" (Some errorMsg)])%list)
    by (rewrite Hf; reflexivity).
  assert (Hd : deps h = deps w) by (rewrite Hf; reflexivity).
  destruct Hq as [V D].
  assert (Hfd : fetchDeps (deps h) = Some (fetchDepsOf (closureOf h))).
  { rewrite Hd, D. unfold closureOf, fetchDepsOf. simpl. rewrite He. reflexivity. }
  destruct (commit_pageState now h Hfd) as (P & R & N & A).
  destruct (commit_kept now h Hfd) as (E & AR & PS & _).
  destruct (commit_toasts now h) as [extra T].
  pose proof (commit_Quiescent now h) as [V' D'].
  set (w2 := commit now h) in *. clearbody w2.
  assert (Hc : view w2 =
               mkClosure (env w)
                 (set_isSubmitting false (set_error (Some errorMsg) (pageState w)))
                 (answers w) (answersRef w) (currentQuestionIndex w2)).
  { rewrite V'. unfold closureOf. rewrite P, A, AR, E, Hps, Ha, Har, He.
    reflexivity. }
  rewrite handleSubmit_requests.
  rewrite (render_error (view w2) errorMsg);
    [|rewrite Hc; reflexivity|exact Hne|rewrite Hc; reflexivity].
  rewrite Hc. cbn [c_pageState c_env c_answers].
  rewrite P, R, N, A, AR, PS, T, Hps, Ha, Har, Hr, Hn, Hpd, Ht.
  refine (conj eq_refl (conj Hne (conj _ (conj eq_refl (conj eq_refl (conj eq_refl
            (conj eq_refl (conj eq_refl (conj eq_refl (conj eq_refl eq_refl)))))))))).
  apply in_or_app. left. apply in_or_app. right. left. reflexivity.
Qed.

Lemma clicked_pending :
  pendingSubmits (run [(1000, ClickSubmit)] (receiverLoaded 60)) = [Some 5].
Proof. vm_compute. reflexivity. Qed.

Lemma submit_failure_witness :
  Quiescent (run [(1000, ClickSubmit)] (receiverLoaded 60))
  /\ pendingSubmits (run [(1000, ClickSubmit)] (receiverLoaded 60)) = [Some 5]
  /\ answers (step (run [(1000, ClickSubmit)] (receiverLoaded 60))
                 (2000, SubmitSettled (Failed serverError)))
     = answers (run [(1000, ClickSubmit)] (receiverLoaded 60)).
Proof.
  split; [apply commit_Quiescent|].
  split; [exact clicked_pending|].
  exact (proj1 (proj2 (proj2 (proj2 (proj2 (proj2
           (submit_failure_keeps_answers _ (Some 5) [] serverError 2000 false
              (commit_Quiescent _ _) clicked_pending))))))).
Defined.

(** C9 (the code departs from the claim). The receiver has typed "1234"
    into the only question and clicked submit; the request fails, with
    any error.  As the claim says, an error message that is not empty is
    stored and raised in a toast, [isSubmitting] is [false] again and the
    answers in the state are untouched.  But submission is not enabled
    again: with [error] set and [isSubmitting] cleared, the render returns
    the full-screen load error in place of the answer form.  There is no
    submit button and no input, the alert for a failed submission inside
    the form is not shown, and clicks on submit and input change nothing.
    The one way back to the form is "retry loading", which fetches the
    attempt again and installs blank answers: what was typed is lost, and
    no second submit request has been sent. *)
Theorem submit_failure_shows_load_error :
  forall e : AxiosError,
    let w' := step receiverSubmitted (2000, SubmitSettled (Failed e)) in
    let errorMsg := orStr (responseMessage e) "提交答案时发生错误" in
    let reloaded :=
      run [(3000, ClickRetry);
           (3100, FetchSettled (Fulfilled (Some (inProgress (Some receiver) 60))))]
        w' in
    (error (pageState w') = Some errorMsg /\ isEmpty errorMsg = false
     /\ In (Toast.mk Toast.error "提交失败" (Some errorMsg)) (toasts w')
     /\ isSubmitting (pageState w') = false
     /\ answers w' = answers receiverSubmitted
     /\ answerText <$> (answers w' !! 1%N) = Some (Some "1234"))
    /\ (render (view receiverSubmitted) = AnswerForm question1
        /\ render (view w') = ErrorScreen errorMsg
        /\ submitButtonEnabled (view w') = false
        /\ submitErrorAlert (view w') = false
        /\ step w' (2500, ClickSubmit) = w'
        /\ forall field value, step w' (2500, AnswerInput field value) = w')
    /\ (requests (step w' (3000, ClickRetry)) = (requests w' ++ [GetActive 5])%list
        /\ render (view reloaded) = AnswerForm question1
        /\ answers reloaded = answers (receiverLoaded 60)
        /\ answerText <$> (answers reloaded !! 1%N) = Some (Some "")
        /\ submitsIssued reloaded = 1%nat).
Proof.
  intros [[[st [[|c s]|] ds]|]]; vm_compute;
    (split; [|split]); repeat split; auto; intros [] value; reflexivity.
Qed.


(** **** The in-flight guard *)

(** The guard of [handleSubmit] reads the render that created the
    callback: two calls of one callback both pass it. *)
Lemma handleSubmit_same_closure_twice c t1 t2 w :
  isSubmitting (c_pageState c) = false ->
  is_sender (role (c_pageState c)) = false ->
  submitsIssued (handleSubmit c t2 (handleSubmit c t1 w)) = S (S (submitsIssued w))
  /\ submitsInFlight (handleSubmit c t2 (handleSubmit c t1 w))
     = S (S (submitsInFlight w)).
Proof.
  intros Hs Hr. unfold submitsIssued, submitsInFlight.
  rewrite !handleSubmit_requests. unfold handleSubmit. rewrite Hs, Hr. simpl.
  rewrite !filter_app, !length_app. simpl. split; lia.
Qed.

(** A callback created by a render that has seen the flag does nothing. *)
Lemma handleSubmit_after_render c t1 t2 w :
  isSubmitting (c_pageState c) = false ->
  is_sender (role (c_pageState c)) = false ->
  handleSubmit (closureOf (handleSubmit c t1 w)) t2 (handleSubmit c t1 w)
  = handleSubmit c t1 w.
Proof.
  intros Hs Hr.
  assert (E : handleSubmit c t1 w =
              send (submitAttempt_request (attemptId (c_env c))
                      (formattedAnswers (c_answers c)))
                (set_pendingSubmits (pendingSubmits w ++ [attemptId (c_env c)])
                   (setPageState
                      (fun prev => set_error None (set_isSubmitting true prev)) w)))
    by (unfold handleSubmit; rewrite Hs, Hr; reflexivity).
  rewrite E. unfold handleSubmit. reflexivity.
Qed.

(** C2 (the code departs from the claim). The receiver's countdown reaches
    zero and queues [handleSubmit(true)]; the user clicks submit before the
    queued callback runs; then it runs.  Both calls were created by renders
    that read [isSubmitting = false]: two submit requests are sent, and both
    are in flight together. *)
Theorem timer_and_click_both_submit :
  let w := run raceEvents (receiverLoaded 1) in
  submitsIssued (receiverLoaded 1) = 0%nat
  /\ role (pageState w) = Some receiver
  /\ submitsIssued w = 2%nat /\ submitsInFlight w = 2%nat
  /\ isSubmitting (pageState (run [(1900, IntervalFires); (1901, ClickSubmit)]
                                (receiverLoaded 1))) = true.
Proof. vm_compute. repeat split; reflexivity. Qed.

End AttemptPageFacts.
(** ** More of the attempt page *)

Module AttemptPageMore.
Import JS ApiClient Router AttemptPage AttemptView AttemptPageFacts Scenario.Attempt AttemptExamples.

Lemma foldl_blank_lookup qs : forall (acc : gmap N AnswerEntry) (k : N),
  foldl (fun acc q => <[slot_order q := mkEntry (Some "") (Some "") (Some "")]> acc)
    acc qs !! k
  = if bool_decide (k ∈ map slot_order qs) then Some blankEntry else acc !! k.
Proof.
  induction qs as [|q qs IH]; intros acc k; cbn [foldl map].
  - case_bool_decide as H; [|reflexivity]. apply elem_of_nil in H. contradiction.
  - rewrite IH. repeat case_bool_decide; try reflexivity.
    + exfalso. match goal with H : _ ∉ _ :: _ |- _ => apply H end.
      apply elem_of_cons. right. assumption.
    + match goal with H : k ∈ _ :: _ |- _ => apply elem_of_cons in H as [->|?] end;
        [|contradiction].
      rewrite lookup_insert_eq. reflexivity.
    + rewrite lookup_insert_ne; [reflexivity|].
      intros <-. match goal with H : _ ∉ _ :: _ |- _ => apply H end.
      apply elem_of_cons. left. reflexivity.
Qed.

Lemma initialAnswers_lookup qs k :
  initialAnswers qs !! k
  = if bool_decide (k ∈ map slot_order qs) then Some blankEntry else None.
Proof. unfold initialAnswers. rewrite foldl_blank_lookup, lookup_empty. reflexivity. Qed.

(** The state a fetched attempt that is not finished installs. *)
Lemma settled_active aid usr d w :
  ownedBy usr d = true -> is_finished (a_status d) = false ->
  fetchAttemptDetails_settled aid usr (Fulfilled (Some d)) w =
    setPageState
      (fun prev =>
         mkPageState (ps_attemptId prev) (a_role d) (orNull (a_pairingCode d))
           (orStr (a_templateName d) ("试卷 " ++ numberToString (Some aid)))
           (default [] (a_questions d)) (a_startTime d)
           (default 0 (a_timeLimit d)) (orStr (a_status d) "unknown")
           false (error prev) (isSubmitting prev) (isPartnerConnected prev))
      (setAnswers (fun _ => initialAnswers (default [] (a_questions d))) w).
Proof.
  intros Ho Hf. unfold fetchAttemptDetails_settled, getActiveAttemptDetails.
  unfold ownedBy in Ho. apply negb_true_iff in Ho. rewrite Ho, Hf. reflexivity.
Qed.

(** X1. Loading an attempt that is not finished replaces the answers by
    one blank entry per fetched question slot, whatever had been entered
    before, and installs the fetched questions. *)
Theorem load_installs_blank_answers :
  forall (w : World) (aid : Z) (usr : ApiUser) rest (d : ActiveAttempt) (now : Z),
    Quiescent w -> pendingFetches w = (aid, usr) :: rest ->
    ownedBy usr d = true -> is_finished (a_status d) = false ->
    let qs := default [] (a_questions d) in
    let w1 := step w (now, FetchSettled (Fulfilled (Some d))) in
    answers w1 = initialAnswers qs
    /\ (forall k, answers w1 !! k =
                  if bool_decide (k ∈ map slot_order qs) then Some blankEntry else None)
    /\ questions (pageState w1) = qs
    /\ role (pageState w1) = a_role d
    /\ isLoading (pageState w1) = false
    /\ nav w1 = nav w /\ requests w1 = requests w.
Proof.
  intros w aid usr rest d now Hq Hp Ho Hf qs w1.
  assert (Hh : handle (FetchSettled (Fulfilled (Some d))) w =
               fetchAttemptDetails_settled aid usr (Fulfilled (Some d))
                 (set_pendingFetches rest w)).
  { simpl. rewrite Hp. reflexivity. }
  rewrite (settled_active aid usr d _ Ho Hf) in Hh.
  subst w1. unfold step. cbn [fst snd].
  set (h := handle (FetchSettled (Fulfilled (Some d))) w) in *.
  assert (Hfd : fetchDeps (deps h) = Some (fetchDepsOf (closureOf h))).
  { rewrite Hh. destruct Hq as [V D]. simpl. rewrite D. reflexivity. }
  destruct (commit_pageState now h Hfd) as (P & R & N & A).
  assert (Ha : answers h = initialAnswers qs) by (rewrite Hh; reflexivity).
  assert (Hps : questions (pageState h) = qs /\ role (pageState h) = a_role d
                /\ isLoading (pageState h) = false)
    by (rewrite Hh; simpl; auto).
  assert (Hn : nav h = nav w /\ requests h = requests w) by (rewrite Hh; auto).
  clearbody h. rewrite P, R, N, A, Ha.
  destruct Hps as (H1 & H2 & H3). destruct Hn as [H4 H5].
  repeat split; try assumption.
  intros k. apply initialAnswers_lookup.
Qed.


Lemma getField_setField entry field value f :
  getField (setField entry field value) f
  = if decide (f = field) then Some value
    else getField (default (mkEntry None None None) entry) f.
Proof. destruct field, f; reflexivity. Qed.

(** X2. Typing into a field of the current question stores the value in
    that field of that slot; the other fields of the slot (none, when the
    slot had no entry) and all other slots stay as they were, and nothing
    else of the page changes. *)
Theorem answer_edit_changes_one_field :
  forall (w : World) (now : Z) (q : AttemptQuestion) (field : Field) (value : string),
    Quiescent w -> render (view w) = AnswerForm q -> fieldShown q field = true ->
    let w1 := step w (now, AnswerInput field value) in
    let old := default (mkEntry None None None) (answers w !! slot_order q) in
    (exists e, answers w1 !! slot_order q = Some e
               /\ getField e field = Some value
               /\ forall f, f <> field -> getField e f = getField old f)
    /\ (forall k, k <> slot_order q -> answers w1 !! k = answers w !! k)
    /\ pageState w1 = pageState w /\ requests w1 = requests w /\ nav w1 = nav w.
Proof.
  intros w now q field value Hq Hr Hf w1 old.
  assert (Hh : handle (AnswerInput field value) w =
               handleAnswerChange (slot_order q) field value w).
  { simpl. rewrite Hr, Hf. reflexivity. }
  subst w1. unfold step. cbn [fst snd].
  set (h := handle (AnswerInput field value) w) in *.
  assert (Hfd : fetchDeps (deps h) = Some (fetchDepsOf (closureOf h))).
  { rewrite Hh. destruct Hq as [V D]. simpl. rewrite D. reflexivity. }
  destruct (commit_pageState now h Hfd) as (P & R & N & A).
  assert (Ha : answers h =
               <[slot_order q := setField (answers w !! slot_order q) field value]>
                 (answers w)) by (rewrite Hh; reflexivity).
  assert (Hs : pageState h = pageState w /\ requests h = requests w /\ nav h = nav w)
    by (rewrite Hh; auto).
  clearbody h. rewrite P, R, N, A, Ha. destruct Hs as (H1 & H2 & H3).
  split; [|split; [|auto]].
  - eexists. split; [apply lookup_insert_eq|]. split.
    + rewrite getField_setField. rewrite decide_True; reflexivity.
    + intros f Hne. rewrite getField_setField. rewrite decide_False by exact Hne.
      reflexivity.
  - intros k Hk. apply lookup_insert_ne. congruence.
Qed.

(** *** The submitted payload *)

#[local] Instance key_le_total : Total key_le.
Proof. intros x y. unfold key_le. lia. Qed.

#[local] Instance key_le_trans : Transitive key_le.
Proof. intros x y z. unfold key_le. lia. Qed.

Lemma entries_Permutation (a : gmap N AnswerEntry) : entries a ≡ₚ map_to_list a.
Proof. apply merge_sort_Permutation. Qed.

Lemma entries_elem (a : gmap N AnswerEntry) k e :
  (k, e) ∈ entries a <-> a !! k = Some e.
Proof. rewrite entries_Permutation. apply elem_of_map_to_list. Qed.

Lemma sorted_le_nodup_lt (l : list (N * AnswerEntry)) :
  StronglySorted key_le l -> NoDup (l.*1) -> Sorted N.lt (l.*1).
Proof.
  induction 1 as [|x l Hs IH Hall]; intros Hnd; simpl; [constructor|].
  apply NoDup_cons in Hnd as [Hx Hnd]. constructor; [auto|].
  destruct l as [|y l]; simpl; constructor.
  apply Forall_cons in Hall as [Hxy _]. unfold key_le in Hxy.
  assert (x.1 <> y.1) by (intros E; apply Hx; rewrite E; simpl; apply elem_of_cons; auto).
  lia.
Qed.

Lemma formattedAnswers_slots (a : gmap N AnswerEntry) :
  map slotOrder (formattedAnswers a) = (entries a).*1.
Proof.
  unfold formattedAnswers. induction (entries a) as [|[k e] l IH]; simpl;
    [reflexivity|]. f_equal. exact IH.
Qed.

(** X3. The [answers] array of the submit request has exactly one element
    for every slot of the answer map, carrying the three fields of its
    entry, and its elements are in strictly ascending slot order. *)
Theorem submit_payload_one_per_slot :
  forall a : gmap N AnswerEntry,
    Sorted N.lt (map slotOrder (formattedAnswers a))
    /\ List.length (formattedAnswers a) = size a
    /\ (forall k e,
          mkFormatted k (answerText e) (answerCoordX e) (answerCoordY e)
            ∈ formattedAnswers a <-> a !! k = Some e).
Proof.
  intros a. split; [|split].
  - rewrite formattedAnswers_slots. apply sorted_le_nodup_lt.
    + apply StronglySorted_merge_sort; apply _.
    + rewrite entries_Permutation. apply NoDup_fst_map_to_list.
  - unfold formattedAnswers. rewrite length_map.
    rewrite (Permutation_length (entries_Permutation a)).
    apply length_map_to_list.
  - intros k e. rewrite <- entries_elem. unfold formattedAnswers.
    rewrite list_elem_of_fmap. split.
    + intros ([k' e'] & Heq & Hin). destruct e, e'. simpl in Heq.
      injection Heq as -> -> -> ->. exact Hin.
    + intros Hin. exists (k, e). split; [reflexivity|exact Hin].
Qed.

Lemma fetchErrorMessage_nonempty o : isEmpty (fetchErrorMessage o) = false.
Proof.
  unfold fetchErrorMessage, getActiveAttemptDetails.
  destruct o as [d|e]; [reflexivity|].
  destruct (response e) as [r|]; [|reflexivity].
  destruct (httpStatus r =? 409); cbn [message];
    (rewrite orStr_Some_nonempty; apply orStr_nonempty; reflexivity).
Qed.

Lemma settled_failure aid usr o w :
  fetchFails usr o = true ->
  fetchAttemptDetails_settled aid usr o w =
    setPageState (fun prev => set_isLoading false
                    (set_error (Some (fetchErrorMessage o)) prev)) w.
Proof.
  unfold fetchFails, reportsFinished, fetchErrorMessage, fetchAttemptDetails_settled,
    getActiveAttemptDetails, ownedBy.
  destruct o as [[d|]|e]; intros H.
  - rewrite negb_involutive in H. rewrite H. reflexivity.
  - reflexivity.
  - destruct (response e) as [r|]; [|reflexivity].
    destruct (httpStatus r =? 409) eqn:E; cbn [errStatus message]; simpl in H.
    + apply negb_true_iff in H. rewrite H. reflexivity.
    + reflexivity.
Qed.

Lemma view_commit now w : view (commit now w) = closureOf (commit now w).
Proof. apply commit_Quiescent. Qed.

(** What a settled event leaves when the fetch dependencies are as the
    last effect run recorded them. *)
Lemma commit_closure now h :
  fetchDeps (deps h) = Some (fetchDepsOf (closureOf h)) ->
  c_env (view (commit now h)) = env h
  /\ c_pageState (view (commit now h)) = pageState h
  /\ c_answers (view (commit now h)) = answers h.
Proof.
  intros Hfd. rewrite view_commit.
  destruct (commit_pageState now h Hfd) as (P & R & N & A).
  destruct (commit_kept now h Hfd) as (E & _).
  unfold closureOf. cbn [c_env c_pageState c_answers]. auto.
Qed.

Lemma failure_step w aid usr rest o now :
  Quiescent w -> pendingFetches w = (aid, usr) :: rest ->
  fetchFails usr o = true ->
  let w1 := step w (now, FetchSettled o) in
  Quiescent w1
  /\ pageState w1 = set_isLoading false
                      (set_error (Some (fetchErrorMessage o)) (pageState w))
  /\ env w1 = env w /\ nav w1 = nav w /\ requests w1 = requests w
  /\ answers w1 = answers w /\ pendingFetches w1 = rest.
Proof.
  intros Hq Hp Hf w1.
  assert (Hh : handle (FetchSettled o) w =
               setPageState (fun prev => set_isLoading false
                               (set_error (Some (fetchErrorMessage o)) prev))
                 (set_pendingFetches rest w)).
  { simpl. rewrite Hp. apply settled_failure. exact Hf. }
  subst w1. unfold step. cbn [fst snd].
  set (h := handle (FetchSettled o) w) in *.
  assert (Hfd : fetchDeps (deps h) = Some (fetchDepsOf (closureOf h))).
  { rewrite Hh. destruct Hq as [V D]. simpl. rewrite D. reflexivity. }
  destruct (commit_pageState now h Hfd) as (P & R & N & A).
  destruct (commit_kept now h Hfd) as (E & _ & _ & F).
  assert (Hk : pageState h = set_isLoading false
                               (set_error (Some (fetchErrorMessage o)) (pageState w))
               /\ env h = env w /\ nav h = nav w /\ requests h = requests w
               /\ answers h = answers w /\ pendingFetches h = rest)
    by (rewrite Hh; simpl; repeat split).
  clearbody h. split; [apply commit_Quiescent|].
  rewrite P, R, N, A, E, F. exact Hk.
Qed.

Lemma retry_step w m a u now :
  Quiescent w -> render (view w) = ErrorScreen m ->
  attemptId (env w) = Some a -> user (env w) = Some u ->
  let w2 := step w (now, ClickRetry) in
  requests w2 = (requests w ++ [GetActive a])%list
  /\ pendingFetches w2 = (pendingFetches w ++ [(a, u)])%list
  /\ render (view w2) = LoadingScreen
  /\ nav w2 = nav w /\ answers w2 = answers w.
Proof.
  intros Hq Hr Ha Hu w2.
  assert (Hh : handle ClickRetry w =
               send (GetActive a)
                 (set_pendingFetches (pendingFetches w ++ [(a, u)])
                    (setPageState (fun prev => set_error None (set_isLoading true prev))
                       w))).
  { change (handle ClickRetry w) with
      (match render (view w) with
       | ErrorScreen _ => fetchAttemptDetails (view w) w
       | _ => w
       end).
    rewrite Hr. unfold fetchAttemptDetails.
    destruct Hq as [V D]. rewrite V. cbn [closureOf c_env]. rewrite Ha, Hu.
    reflexivity. }
  subst w2. unfold step. cbn [fst snd].
  set (h := handle ClickRetry w) in *.
  assert (Hfd : fetchDeps (deps h) = Some (fetchDepsOf (closureOf h))).
  { rewrite Hh. destruct Hq as [V D]. simpl. rewrite D. reflexivity. }
  destruct (commit_pageState now h Hfd) as (P & R & N & A).
  destruct (commit_kept now h Hfd) as (E & _ & _ & F).
  destruct (commit_closure now h Hfd) as (CE & CP & CA).
  assert (Hk : requests h = (requests w ++ [GetActive a])%list
               /\ pendingFetches h = (pendingFetches w ++ [(a, u)])%list
               /\ isLoading (pageState h) = true
               /\ nav h = nav w /\ answers h = answers w)
    by (rewrite Hh; simpl; auto).
  destruct Hk as (L1 & L2 & L3 & L4 & L5).
  clearbody h.
  split; [congruence|]. split; [congruence|].
  split; [|split; congruence].
  unfold render. rewrite CP, L3. reflexivity.
Qed.

(** X4. A fetch that fails without reporting a finished attempt, or whose
    body is empty or names another user, ends in the error screen with a
    message that is never empty; it does not navigate and it keeps the
    answers.  The retry button of that screen issues the fetch again and
    shows the loading screen. *)
Theorem fetch_failure_shows_retryable_error :
  forall (w : World) (aid : Z) (usr : ApiUser) rest
         (o : Outcome (option ActiveAttempt)) (now : Z),
    Quiescent w -> pendingFetches w = (aid, usr) :: rest ->
    fetchFails usr o = true ->
    isAuthLoading (env w) = false -> isSubmitting (pageState w) = false ->
    let w1 := step w (now, FetchSettled o) in
    let m := fetchErrorMessage o in
    isEmpty m = false
    /\ render (view w1) = ErrorScreen m
    /\ nav w1 = nav w /\ requests w1 = requests w /\ answers w1 = answers w
    /\ (forall a u now',
          attemptId (env w) = Some a -> user (env w) = Some u ->
          let w2 := step w1 (now', ClickRetry) in
          requests w2 = (requests w ++ [GetActive a])%list
          /\ pendingFetches w2 = (rest ++ [(a, u)])%list
          /\ render (view w2) = LoadingScreen
          /\ nav w2 = nav w /\ answers w2 = answers w).
Proof.
  intros w aid usr rest o now Hq Hp Hf Hal Hsub w1 m.
  assert (Hm : isEmpty m = false) by apply fetchErrorMessage_nonempty.
  destruct (failure_step w aid usr rest o now Hq Hp Hf)
    as (Q1 & P & E & N & R & A & F).
  fold w1 in Q1, P, E, N, R, A, F. fold m in P. clearbody w1 m.
  assert (Hr : render (view w1) = ErrorScreen m).
  { destruct Q1 as [V D]. rewrite V.
    rewrite (render_error (closureOf w1) m).
    - cbn [closureOf c_pageState c_env]. rewrite P, E, Hal. reflexivity.
    - cbn [closureOf c_pageState]. rewrite P. reflexivity.
    - exact Hm.
    - cbn [closureOf c_pageState]. rewrite P. exact Hsub. }
  split; [exact Hm|]. split; [exact Hr|].
  split; [exact N|]. split; [exact R|]. split; [exact A|].
  intros a u now' Ha Hu w2.
  rewrite <- E in Ha, Hu.
  destruct (retry_step w1 m a u now' Q1 Hr Ha Hu) as (R2 & F2 & V2 & N2 & A2).
  fold w2 in R2, F2, V2, N2, A2. clearbody w2.
  rewrite R2, F2, V2, N2, A2, R, F, N, A. repeat split.
Qed.

(** X5. While the session, the user and the attempt id stay the same, a
    change of what the socket context reports (instance, connection) does
    not fetch the attempt again and leaves the page state, the answers and
    the route alone. *)
Theorem socket_change_does_not_refetch :
  forall (w : World) (e' : Env) (now : Z),
    Quiescent w ->
    isAuthLoading e' = isAuthLoading (env w) -> user e' = user (env w) ->
    attemptId e' = attemptId (env w) ->
    let w1 := step w (now, Hooks e') in
    requests w1 = requests w /\ pageState w1 = pageState w
    /\ answers w1 = answers w /\ nav w1 = nav w
    /\ pendingFetches w1 = pendingFetches w.
Proof.
  intros w e' now Hq H1 H2 H3 w1. subst w1. unfold step. cbn [fst snd].
  assert (Hh : handle (Hooks e') w = set_env e' w) by reflexivity.
  set (h := handle (Hooks e') w) in *.
  assert (Hfd : fetchDeps (deps h) = Some (fetchDepsOf (closureOf h))).
  { rewrite Hh. destruct Hq as [V D]. simpl. rewrite D. simpl.
    unfold fetchDepsOf. simpl. rewrite H1, H2, H3. reflexivity. }
  destruct (commit_pageState now h Hfd) as (P & R & N & A).
  destruct (commit_kept now h Hfd) as (_ & _ & _ & F).
  rewrite P, R, N, A, F, Hh. repeat split.
Qed.

Lemma timerEffect_queue now c w :
  timers (timerEffect now c (set_interval None w)) = (timers w ++ timerQueued now c)%list
  /\ interval (timerEffect now c (set_interval None w)) = intervalAfter now c.
Proof.
  unfold timerQueued, intervalAfter, expired, timerEffect, timeLeftAt, timerRuns.
  destruct (startTime (c_pageState c)) as [t0|]; simpl;
    [|rewrite app_nil_r; auto].
  destruct (timeLimitSeconds (c_pageState c) <=? 0); simpl;
    [rewrite app_nil_r; auto|].
  destruct (bool_decide (status (c_pageState c) = "inprogress"));
    destruct (bool_decide (status (c_pageState c) = "started")); simpl;
    try (rewrite app_nil_r; auto; fail);
    case_match; simpl; try rewrite app_nil_r; auto.
Qed.

Lemma fetchEffect_timers c w : timers (fetchEffect c w) = timers w.
Proof. unfold fetchEffect, fetchAttemptDetails. repeat case_match; reflexivity. Qed.

Lemma listenerEffect_timers c w : timers (listenerEffect c w) = timers w.
Proof. unfold listenerEffect. repeat case_match; reflexivity. Qed.

Lemma pass_queue now w :
  (timerDeps (deps w) = Some (timerDepsOf (closureOf w)) ->
   timers (pass now w) = timers w /\ interval (pass now w) = interval w)
  /\ (timerDeps (deps w) <> Some (timerDepsOf (closureOf w)) ->
      timers (pass now w) = (timers w ++ timerQueued now (closureOf w))%list
      /\ interval (pass now w) = intervalAfter now (closureOf w)).
Proof.
  unfold pass. set (c := closureOf w). simpl.
  set (w1 := rerun (fetchDeps (deps w)) (fetchDepsOf c) (fetchEffect c) (set_view c w)).
  set (w2 := rerun (listenerDeps (deps w)) (listenerDepsOf c) (listenerEffect c) w1).
  assert (H1 : timers w1 = timers w /\ interval w1 = interval w).
  { unfold w1, rerun. case_decide; [auto|].
    rewrite fetchEffect_timers, (proj2 (fetchEffect_clock c _)). auto. }
  assert (H2 : timers w2 = timers w /\ interval w2 = interval w).
  { unfold w2, rerun. case_decide; [exact H1|].
    rewrite listenerEffect_timers, (proj2 (listenerEffect_clock c w1)). exact H1. }
  clearbody w2. destruct H2 as [T I].
  split; intros Hd.
  - rewrite Hd, rerun_same. auto.
  - unfold rerun. rewrite decide_False by exact Hd.
    destruct (timerEffect_queue now c w2) as [Q1 Q2]. rewrite Q1, Q2, T. auto.
Qed.

Lemma commit_queue now w :
  (timerDeps (deps w) = Some (timerDepsOf (closureOf w)) ->
   timers (commit now w) = timers w /\ interval (commit now w) = interval w)
  /\ (timerDeps (deps w) <> Some (timerDepsOf (closureOf w)) ->
      timers (commit now w) = (timers w ++ timerQueued now (closureOf w))%list
      /\ interval (commit now w) = intervalAfter now (closureOf w)).
Proof.
  unfold commit. destruct (pass_frame now w) as (F & V & D).
  rewrite (pass_stable now (pass now w)).
  - simpl. apply pass_queue.
  - rewrite D. symmetry. apply depsOf_frame. exact F.
Qed.


(** Everything a commit leaves as the handler left it, when the
    dependencies of the fetch effect are the recorded ones. *)
Lemma commit_settled now h :
  fetchDeps (deps h) = Some (fetchDepsOf (closureOf h)) ->
  Quiescent (commit now h)
  /\ view (commit now h) = closureOf h
  /\ env (commit now h) = env h /\ pageState (commit now h) = pageState h
  /\ answers (commit now h) = answers h
  /\ requests (commit now h) = requests h /\ nav (commit now h) = nav h
  /\ pendingSubmits (commit now h) = pendingSubmits h
  /\ pendingFetches (commit now h) = pendingFetches h
  /\ currentQuestionIndex (commit now h) = currentQuestionIndex h.
Proof.
  intros Hfd.
  destruct (commit_pageState now h Hfd) as (P & R & N & A).
  destruct (commit_kept now h Hfd) as (E & AR & PS & PF).
  pose proof (commit_Quiescent now h) as Q.
  assert (I : currentQuestionIndex (commit now h) = currentQuestionIndex h).
  { unfold commit. destruct (pass_frame now h) as (F1 & _).
    destruct (pass_frame now (pass now h)) as (F2 & _).
    rewrite F1 in F2. unfold frame in F2. congruence. }
  split; [exact Q|]. split.
  - destruct Q as [V _]. rewrite V. unfold closureOf. congruence.
  - auto 10.
Qed.

Lemma Quiescent_fetchDeps w :
  Quiescent w -> fetchDeps (deps w) = Some (fetchDepsOf (closureOf w)).
Proof. intros [_ D]. rewrite D. reflexivity. Qed.

Lemma Quiescent_timerDeps w :
  Quiescent w -> timerDeps (deps w) = Some (timerDepsOf (closureOf w)).
Proof. intros [_ D]. rewrite D. reflexivity. Qed.

(** Firing a queued auto-submit whose render was neither submitting nor
    the sender's. *)
Lemma submit_timer_step w c now :
  Quiescent w -> timers w = [SubmitTimer c] ->
  isSubmitting (c_pageState c) = false ->
  is_sender (role (c_pageState c)) = false ->
  let w' := step w (now, TimerFires 0) in
  Quiescent w'
  /\ requests w' = (requests w ++
       [PostSubmit (attemptId (c_env c)) (formattedAnswers (c_answers c))])%list
  /\ pendingSubmits w' = (pendingSubmits w ++ [attemptId (c_env c)])%list
  /\ pageState w' = set_error None (set_isSubmitting true (pageState w))
  /\ env w' = env w /\ answers w' = answers w /\ nav w' = nav w
  /\ (forall t, t ∈ timers w' ->
        exists c', t = SubmitTimer c' /\ isSubmitting (c_pageState c') = true).
Proof.
  intros Hq Ht Hs Hr w'.
  assert (Hh : handle (TimerFires 0) w =
    send (PostSubmit (attemptId (c_env c)) (formattedAnswers (c_answers c)))
      (set_pendingSubmits (pendingSubmits w ++ [attemptId (c_env c)])
         (setPageState (fun prev => set_error None (set_isSubmitting true prev))
            (set_timers [] w)))).
  { unfold handle. rewrite Ht. cbn [lookup list_lookup delete list_delete fire].
    unfold handleSubmit. rewrite Hs, Hr. reflexivity. }
  subst w'. unfold step. cbn [fst snd].
  set (h := handle (TimerFires 0) w) in *.
  assert (Hfd : fetchDeps (deps h) = Some (fetchDepsOf (closureOf h))).
  { rewrite Hh. simpl. apply (Quiescent_fetchDeps w Hq). }
  assert (Hk : requests h = (requests w ++
       [PostSubmit (attemptId (c_env c)) (formattedAnswers (c_answers c))])%list
     /\ pendingSubmits h = (pendingSubmits w ++ [attemptId (c_env c)])%list
     /\ pageState h = set_error None (set_isSubmitting true (pageState w))
     /\ env h = env w /\ answers h = answers w /\ nav h = nav w /\ timers h = [])
    by (rewrite Hh; simpl; repeat split).
  destruct Hk as (K1 & K2 & K3 & K4 & K5 & K6 & K7).
  destruct (commit_settled now h Hfd) as (Q & V & E & P & A & R & N & PS & PF & IX).
  destruct (commit_queue now h) as [Same Changed].
  clearbody h.
  split; [exact Q|]. rewrite R, PS, P, E, A, N.
  split; [exact K1|]. split; [exact K2|]. split; [exact K3|].
  split; [exact K4|]. split; [exact K5|]. split; [exact K6|].
  intros t Hin.
  destruct (decide (timerDeps (deps h) = Some (timerDepsOf (closureOf h)))) as [D|D].
  - destruct (Same D) as [T _]. rewrite T, K7 in Hin. apply elem_of_nil in Hin.
    contradiction.
  - destruct (Changed D) as [T _]. rewrite T, K7 in Hin. simpl in Hin.
    unfold timerQueued in Hin. destruct (expired now (closureOf h)).
    + apply list_elem_of_singleton in Hin. exists (closureOf h).
      split; [exact Hin|]. simpl. rewrite K3. reflexivity.
    + apply elem_of_nil in Hin. contradiction.
Qed.

(** Queued auto-submits of renders that were submitting do nothing. *)
Lemma inert_timers w i now :
  Quiescent w ->
  (forall t, t ∈ timers w ->
     exists c, t = SubmitTimer c /\ isSubmitting (c_pageState c) = true) ->
  requests (step w (now, TimerFires i)) = requests w.
Proof.
  intros Hq Hall.
  assert (Hh : handle (TimerFires i) w = w
               \/ handle (TimerFires i) w = set_timers (delete i (timers w)) w).
  { unfold handle. destruct (timers w !! i) as [t|] eqn:Hl; [|left; reflexivity].
    right. destruct (Hall t) as (c & -> & Hs).
    - eapply list_elem_of_lookup_2. exact Hl.
    - cbn [fire]. unfold handleSubmit. rewrite Hs. reflexivity. }
  unfold step. cbn [fst snd].
  set (h := handle (TimerFires i) w) in *.
  assert (Hfd : fetchDeps (deps h) = Some (fetchDepsOf (closureOf h))).
  { destruct Hh as [-> | ->]; [|simpl]; apply (Quiescent_fetchDeps w Hq). }
  assert (Hr : requests h = requests w) by (destruct Hh as [-> | ->]; reflexivity).
  destruct (commit_settled now h Hfd) as (_ & _ & _ & _ & _ & R & _).
  clearbody h. congruence.
Qed.


(** The page a fetched attempt that is not finished leaves. *)
Lemma load_clock w aid usr rest d now :
  Quiescent w -> pendingFetches w = (aid, usr) :: rest ->
  ownedBy usr d = true -> is_finished (a_status d) = false ->
  let w1 := step w (now, FetchSettled (Fulfilled (Some d))) in
  Quiescent w1
  /\ pageState w1 =
       mkPageState (ps_attemptId (pageState w)) (a_role d) (orNull (a_pairingCode d))
         (orStr (a_templateName d) ("试卷 " ++ numberToString (Some aid)))
         (default [] (a_questions d)) (a_startTime d)
         (default 0 (a_timeLimit d)) (orStr (a_status d) "unknown")
         false (error (pageState w)) (isSubmitting (pageState w))
         (isPartnerConnected (pageState w))
  /\ answers w1 = initialAnswers (default [] (a_questions d))
  /\ env w1 = env w /\ requests w1 = requests w /\ nav w1 = nav w
  /\ timeLeft w1 = timeLeftAt now (pageState w1)
  /\ timers w1 = (timers w ++ timerQueued now (view w1))%list
  /\ interval w1 = intervalAfter now (view w1).
Proof.
  intros Hq Hp Ho Hf w1.
  assert (Hh : handle (FetchSettled (Fulfilled (Some d))) w =
               fetchAttemptDetails_settled aid usr (Fulfilled (Some d))
                 (set_pendingFetches rest w)).
  { simpl. rewrite Hp. reflexivity. }
  rewrite (settled_active aid usr d _ Ho Hf) in Hh.
  subst w1. unfold step. cbn [fst snd].
  set (h := handle (FetchSettled (Fulfilled (Some d))) w) in *.
  assert (Hfd : fetchDeps (deps h) = Some (fetchDepsOf (closureOf h))).
  { rewrite Hh. simpl. apply (Quiescent_fetchDeps w Hq). }
  assert (Htd : timerDeps (deps h) <> Some (timerDepsOf (closureOf h))).
  { rewrite Hh. simpl. rewrite (Quiescent_timerDeps w Hq).
    unfold timerDepsOf, handleSubmitDepsOf. simpl. intros E.
    injection E as _ _ _ _ E _. lia. }
  destruct (commit_settled now h Hfd) as (Q & V & E & P & A & R & N & PS & PF & IX).
  destruct (commit_queue now h) as [_ Changed]. destruct (Changed Htd) as [T I].
  pose proof (commit_timeLeft now h) as TL. rewrite decide_False in TL by exact Htd.
  assert (Hk : pageState h =
       mkPageState (ps_attemptId (pageState w)) (a_role d) (orNull (a_pairingCode d))
         (orStr (a_templateName d) ("试卷 " ++ numberToString (Some aid)))
         (default [] (a_questions d)) (a_startTime d)
         (default 0 (a_timeLimit d)) (orStr (a_status d) "unknown")
         false (error (pageState w)) (isSubmitting (pageState w))
         (isPartnerConnected (pageState w))
     /\ answers h = initialAnswers (default [] (a_questions d))
     /\ env h = env w /\ requests h = requests w /\ nav h = nav w
     /\ timers h = timers w)
    by (rewrite Hh; simpl; repeat split).
  destruct Hk as (K1 & K2 & K3 & K4 & K5 & K6).
  clearbody h.
  rewrite P, A, E, R, N, TL, T, I, V, K6.
  repeat (split; [assumption || reflexivity|]). reflexivity.
Qed.

Lemma ticks_idle ts : forall w,
  Quiescent w -> interval w = None -> run (ticks ts) w = w.
Proof.
  induction ts as [|t ts IH]; intros w Hq Hi; [reflexivity|].
  simpl ticks. rewrite run_cons, (idle_step w t Hq Hi). apply IH; assumption.
Qed.

(** X6. An attempt loaded without a start time, without a positive time
    limit, or with a status other than 'inprogress' and 'started' has no
    countdown: the clock shows --:--, no interval runs, nothing is queued,
    and interval callbacks still pending change nothing, so the page never
    submits on its own. *)
Theorem untimed_attempt_has_no_countdown :
  forall (w : World) (aid : Z) (usr : ApiUser) rest (d : ActiveAttempt)
         (now : Z) (ts : list Z),
    Quiescent w -> pendingFetches w = (aid, usr) :: rest ->
    ownedBy usr d = true -> is_finished (a_status d) = false ->
    a_startTime d = None \/ default 0 (a_timeLimit d) <= 0
    \/ (orStr (a_status d) "unknown" <> "inprogress"
        /\ orStr (a_status d) "unknown" <> "started") ->
    let w1 := step w (now, FetchSettled (Fulfilled (Some d))) in
    timeLeft w1 = None /\ formatTimeLeft (timeLeft w1) = "--:--"
    /\ interval w1 = None /\ timers w1 = timers w
    /\ run (ticks ts) w1 = w1.
Proof.
  intros w aid usr rest d now ts Hq Hp Ho Hf Hu w1.
  destruct (load_clock w aid usr rest d now Hq Hp Ho Hf)
    as (Q & P & A & E & R & N & TL & T & I).
  fold w1 in Q, P, A, E, R, N, TL, T, I. clearbody w1.
  assert (Hn : timeLeftAt now (pageState w1) = None).
  { rewrite P. unfold timeLeftAt, timerRuns. cbn [startTime timeLimitSeconds status].
    destruct (a_startTime d) as [t0|]; [|reflexivity].
    destruct Hu as [Hu | [Hu | [Hu1 Hu2]]]; [discriminate| |].
    - apply Z.leb_le in Hu. rewrite Hu. reflexivity.
    - rewrite !bool_decide_eq_false_2 by assumption.
      rewrite andb_false_r. reflexivity. }
  assert (Hi : interval w1 = None).
  { rewrite I. unfold intervalAfter. destruct Q as [V _]. rewrite V.
    cbn [closureOf c_pageState]. rewrite Hn. reflexivity. }
  assert (Ht : timers w1 = timers w).
  { rewrite T. unfold timerQueued, expired. destruct Q as [V _]. rewrite V.
    cbn [closureOf c_pageState]. rewrite Hn. apply app_nil_r. }
  rewrite TL, Hn. repeat split; try assumption.
  apply ticks_idle; assumption.
Qed.

(** X7. An attempt in progress whose time is already over when it is
    loaded is submitted by the page itself: the clock is set to zero, no
    interval is started, and the queued callback posts the blank answers
    just installed, once; callbacks queued afterwards send nothing. *)
Theorem expired_attempt_is_submitted_on_load :
  forall (w : World) (aid : Z) (usr : ApiUser) rest (d : ActiveAttempt)
         (s : string) (T0 L now now' : Z),
    Quiescent w -> pendingFetches w = (aid, usr) :: rest ->
    ownedBy usr d = true -> a_status d = Some s ->
    s = "inprogress" \/ s = "started" ->
    a_startTime d = Some T0 -> a_timeLimit d = Some L -> 0 < L ->
    L <= (now - T0) / 1000 ->
    a_role d <> Some sender -> isSubmitting (pageState w) = false ->
    timers w = [] ->
    let w1 := step w (now, FetchSettled (Fulfilled (Some d))) in
    let w2 := step w1 (now', TimerFires 0) in
    timeLeft w1 = Some 0 /\ interval w1 = None /\ requests w1 = requests w
    /\ requests w2 =
         (requests w ++
            [PostSubmit (attemptId (env w))
               (formattedAnswers (initialAnswers (default [] (a_questions d))))])%list
    /\ isSubmitting (pageState w2) = true
    /\ (forall i now'', requests (step w2 (now'', TimerFires i)) = requests w2).
Proof.
  intros w aid usr rest d s T0 L now now' Hq Hp Ho Hs Hs' HT HL HL0 Hexp Hrole
    Hsub Htim w1 w2.
  assert (Hf : is_finished (a_status d) = false).
  { rewrite Hs. destruct Hs' as [-> | ->]; reflexivity. }
  destruct (load_clock w aid usr rest d now Hq Hp Ho Hf)
    as (Q & P & A & E & R & N & TL & T & I).
  fold w1 in Q, P, A, E, R, N, TL, T, I.
  rewrite Hs, HT, HL in P. change (default 0 (Some L)) with L in P.
  assert (Hst : orStr (Some s) "unknown" = s)
    by (destruct Hs' as [-> | ->]; reflexivity).
  rewrite Hst in P.
  assert (Hn : timeLeftAt now (pageState w1) = Some 0).
  { assert (Hruns : timerRuns (pageState w1) = true).
    { rewrite P. unfold timerRuns. cbn [startTime timeLimitSeconds status isSome].
      replace (L <=? 0) with false by (symmetry; apply Z.leb_gt; lia).
      destruct Hs' as [-> | ->]; reflexivity. }
    unfold timeLeftAt. rewrite Hruns. rewrite P.
    cbn [startTime timeLimitSeconds]. unfold remainingSeconds. f_equal. lia. }
  assert (Hv : c_pageState (view w1) = pageState w1
               /\ c_env (view w1) = env w1 /\ c_answers (view w1) = answers w1).
  { destruct Q as [V _]. rewrite V. repeat split. }
  destruct Hv as (V1 & V2 & V3).
  assert (Hnot : is_sender (role (pageState w1)) = false).
  { rewrite P. cbn [role]. unfold is_sender. apply bool_decide_eq_false_2. exact Hrole. }
  assert (Hx : expired now (view w1) = true).
  { unfold expired. rewrite V1, Hn, Hnot. reflexivity. }
  assert (Ht : timers w1 = [SubmitTimer (view w1)]).
  { rewrite T, Htim. unfold timerQueued. rewrite Hx. reflexivity. }
  assert (Hi : interval w1 = None).
  { rewrite I. unfold intervalAfter. rewrite V1, Hn, Hx. reflexivity. }
  assert (Hs1 : isSubmitting (c_pageState (view w1)) = false).
  { rewrite V1, P. exact Hsub. }
  assert (Hr1 : is_sender (role (c_pageState (view w1))) = false).
  { rewrite V1. exact Hnot. }
  clearbody w1.
  destruct (submit_timer_step w1 (view w1) now' Q Ht Hs1 Hr1)
    as (Q2 & R2 & PS2 & P2 & E2 & A2 & N2 & Inert).
  fold w2 in Q2, R2, PS2, P2, E2, A2, N2, Inert. clearbody w2.
  split; [congruence|]. split; [exact Hi|]. split; [exact R|].
  split; [rewrite R2, V2, V3, R, E, A; reflexivity|].
  split; [rewrite P2; reflexivity|].
  intros i now''. apply inert_timers; assumption.
Qed.

Lemma timeLeftAt_running p T0 now :
  startTime p = Some T0 -> timerRuns p = true ->
  timeLeftAt now p = Some (remainingSeconds (timeLimitSeconds p) T0 now).
Proof. intros H1 H2. unfold timeLeftAt. rewrite H1, H2. reflexivity. Qed.

(** X8. Once the time of an attempt is over, a submission that fails is
    sent again without any action of the user: the failure re-runs the
    timer effect, which queues the automatic submission once more. *)
Theorem expired_submit_failure_is_resubmitted :
  forall (w : World) (aid : option Z) rest (e : AxiosError) (T0 now now' : Z),
    Quiescent w -> pendingSubmits w = aid :: rest ->
    isSubmitting (pageState w) = true -> timers w = [] ->
    startTime (pageState w) = Some T0 -> timerRuns (pageState w) = true ->
    timeLimitSeconds (pageState w) <= (now - T0) / 1000 ->
    is_sender (role (pageState w)) = false ->
    let w1 := step w (now, SubmitSettled (Failed e)) in
    let w2 := step w1 (now', TimerFires 0) in
    isSubmitting (pageState w1) = false /\ requests w1 = requests w
    /\ timers w1 = [SubmitTimer (view w1)]
    /\ requests w2 = (requests w ++ [submitRequest w])%list
    /\ pendingSubmits w2 = (rest ++ [attemptId (env w)])%list
    /\ isSubmitting (pageState w2) = true.
Proof.
  intros w aid rest e T0 now now' Hq Hp Hsub Htim HT Hruns Hexp Hrole w1 w2.
  set (errorMsg := orStr (responseMessage e) "提交答案时发生错误").
  assert (Hh : handle (SubmitSettled (Failed e)) w =
    toast Toast.error "提交失败" (Some errorMsg)
      (setPageState (fun prev => set_isSubmitting false
                       (set_error (Some errorMsg) prev))
         (set_pendingSubmits rest w))).
  { unfold handle. rewrite Hp. apply handleSubmit_failed. }
  assert (Hw1 : Quiescent w1
    /\ pageState w1 = set_isSubmitting false (set_error (Some errorMsg) (pageState w))
    /\ env w1 = env w /\ answers w1 = answers w /\ requests w1 = requests w
    /\ pendingSubmits w1 = rest
    /\ timers w1 = timerQueued now (view w1)).
  { subst w1. unfold step. cbn [fst snd].
    set (h := handle (SubmitSettled (Failed e)) w) in *.
    assert (Hfd : fetchDeps (deps h) = Some (fetchDepsOf (closureOf h))).
    { rewrite Hh. simpl. apply (Quiescent_fetchDeps w Hq). }
    assert (Htd : timerDeps (deps h) <> Some (timerDepsOf (closureOf h))).
    { rewrite Hh. simpl. rewrite (Quiescent_timerDeps w Hq).
      unfold timerDepsOf, handleSubmitDepsOf. simpl. rewrite Hsub. intros E.
      injection E as E. discriminate. }
    destruct (commit_settled now h Hfd) as (Q & V & E & P & A & R & N & PS & PF & IX).
    destruct (commit_queue now h) as [_ Changed]. destruct (Changed Htd) as [T I].
    assert (Hk : pageState h =
                   set_isSubmitting false (set_error (Some errorMsg) (pageState w))
                 /\ env h = env w /\ answers h = answers w /\ requests h = requests w
                 /\ pendingSubmits h = rest /\ timers h = timers w)
      by (rewrite Hh; simpl; repeat split).
    destruct Hk as (K1 & K2 & K3 & K4 & K5 & K6).
    clearbody h. rewrite P, E, A, R, PS, T, V, K6, Htim.
    repeat (split; [assumption || reflexivity|]). reflexivity. }
  clearbody w1. destruct Hw1 as (Q & P & E & A & R & PS & T).
  assert (Hv : c_pageState (view w1) = pageState w1
               /\ c_env (view w1) = env w1 /\ c_answers (view w1) = answers w1).
  { destruct Q as [V _]. rewrite V. repeat split. }
  destruct Hv as (V1 & V2 & V3).
  assert (Hx : expired now (view w1) = true).
  { unfold expired. rewrite V1, P.
    rewrite (timeLeftAt_running _ T0 now) by assumption.
    cbn [role set_isSubmitting set_error timeLimitSeconds]. rewrite Hrole.
    unfold remainingSeconds. rewrite andb_true_r. apply Z.leb_le. lia. }
  assert (Ht : timers w1 = [SubmitTimer (view w1)]).
  { rewrite T at 1. unfold timerQueued. rewrite Hx. reflexivity. }
  assert (Hs1 : isSubmitting (c_pageState (view w1)) = false)
    by (rewrite V1, P; reflexivity).
  assert (Hr1 : is_sender (role (c_pageState (view w1))) = false)
    by (rewrite V1, P; exact Hrole).
  destruct (submit_timer_step w1 (view w1) now' Q Ht Hs1 Hr1)
    as (Q2 & R2 & PS2 & P2 & E2 & A2 & N2 & Inert).
  fold w2 in Q2, R2, PS2, P2, E2, A2, N2, Inert. clearbody w2.
  split; [rewrite P; reflexivity|]. split; [exact R|]. split; [exact Ht|].
  split; [rewrite R2, V2, V3, R, E, A; reflexivity|].
  split; [rewrite PS2, PS, V2, E; reflexivity|].
  rewrite P2. reflexivity.
Qed.

Lemma render_form_not_sender c q :
  render c = AnswerForm q -> is_sender (role (c_pageState c)) = false.
Proof. unfold render. repeat case_match; congruence. Qed.

Lemma setTimeLeft_same r w : timeLeft w = Some r -> setTimeLeft (fun _ => Some r) w = w.
Proof. destruct w. simpl. intros ->. reflexivity. Qed.

Lemma setTimeLeft_Quiescent f w : Quiescent w -> Quiescent (setTimeLeft f w).
Proof. intros [V D]. split; assumption. Qed.

(** While more than one second is left the interval only counts down. *)
Lemma ticks_running ts : forall w r c,
  Quiescent w -> timeLeft w = Some r -> interval w = Some c ->
  Z.of_nat (List.length ts) < r ->
  run (ticks ts) w = setTimeLeft (fun _ => Some (r - Z.of_nat (List.length ts))) w.
Proof.
  induction ts as [|t ts IH]; intros w r c Hq Ht Hi Hlen.
  - simpl. rewrite Z.sub_0_r. symmetry. apply setTimeLeft_same. exact Ht.
  - simpl ticks. rewrite run_cons, (tick_step w t c Hq Hi).
    assert (Htick : tick c w = setTimeLeft (fun _ => Some (r - 1)) w).
    { unfold tick. rewrite Ht.
      replace (r <=? 1) with false; [reflexivity|].
      symmetry. apply Z.leb_gt. simpl List.length in Hlen. lia. }
    rewrite Htick.
    rewrite (IH _ (r - 1) c).
    + unfold setTimeLeft. simpl. f_equal. f_equal. simpl List.length. lia.
    + apply setTimeLeft_Quiescent. exact Hq.
    + reflexivity.
    + exact Hi.
    + simpl List.length in Hlen. lia.
Qed.

(** The page after an answer was typed. *)
Lemma input_clock w now q field value :
  Quiescent w -> render (view w) = AnswerForm q -> fieldShown q field = true ->
  let w1 := step w (now, AnswerInput field value) in
  Quiescent w1 /\ pageState w1 = pageState w /\ env w1 = env w
  /\ answers w1 = <[slot_order q := setField (answers w !! slot_order q) field value]>
                    (answers w)
  /\ requests w1 = requests w
  /\ timeLeft w1 = timeLeftAt now (pageState w)
  /\ timers w1 = (timers w ++ timerQueued now (view w1))%list
  /\ interval w1 = intervalAfter now (view w1).
Proof.
  intros Hq Hr Hf w1.
  assert (Hh : handle (AnswerInput field value) w =
               handleAnswerChange (slot_order q) field value w).
  { simpl. rewrite Hr, Hf. reflexivity. }
  subst w1. unfold step. cbn [fst snd].
  set (h := handle (AnswerInput field value) w) in *.
  assert (Hfd : fetchDeps (deps h) = Some (fetchDepsOf (closureOf h))).
  { rewrite Hh. simpl. apply (Quiescent_fetchDeps w Hq). }
  assert (Htd : timerDeps (deps h) <> Some (timerDepsOf (closureOf h))).
  { rewrite Hh. simpl. rewrite (Quiescent_timerDeps w Hq).
    unfold timerDepsOf, handleSubmitDepsOf. simpl. intros E.
    injection E as E. lia. }
  destruct (commit_settled now h Hfd) as (Q & V & E & P & A & R & N & PS & PF & IX).
  destruct (commit_queue now h) as [_ Changed]. destruct (Changed Htd) as [T I].
  pose proof (commit_timeLeft now h) as TL. rewrite decide_False in TL by exact Htd.
  assert (Hk : pageState h = pageState w /\ env h = env w
     /\ answers h = <[slot_order q := setField (answers w !! slot_order q) field value]>
                      (answers w)
     /\ requests h = requests w /\ timers h = timers w)
    by (rewrite Hh; simpl; repeat split).
  destruct Hk as (K1 & K2 & K3 & K4 & K5).
  clearbody h. rewrite P, E, A, R, TL, T, I, V, K5, K1.
  repeat (split; [assumption || reflexivity|]). reflexivity.
Qed.

(** The last callback of the interval and the submission it queues. *)
Lemma last_tick_submits w c now1 now2 :
  Quiescent w -> interval w = Some c -> timeLeft w = Some 1 -> timers w = [] ->
  isSubmitting (c_pageState c) = false ->
  is_sender (role (c_pageState c)) = false ->
  timeLeft (step w (now1, IntervalFires)) = Some 0
  /\ interval (step w (now1, IntervalFires)) = None
  /\ requests (step w (now1, IntervalFires)) = requests w
  /\ requests (step (step w (now1, IntervalFires)) (now2, TimerFires 0)) =
       (requests w ++
          [PostSubmit (attemptId (c_env c)) (formattedAnswers (c_answers c))])%list.
Proof.
  intros Hq Hi Ht Htim Hs Hr.
  assert (Q3 : Quiescent (step w (now1, IntervalFires))) by apply commit_Quiescent.
  rewrite (tick_step w now1 c Hq Hi) in *.
  assert (Htick : tick c w =
    setTimeout (SubmitTimer c)
      (toast Toast.info "时间到！正在自动提交答案..." None
         (setTimeLeft (fun _ => Some 0) (set_interval None w)))).
  { unfold tick. rewrite Ht, Hr. reflexivity. }
  rewrite Htick in *.
  set (w3 := setTimeout _ _) in *.
  assert (Hk3 : timers w3 = [SubmitTimer c] /\ requests w3 = requests w
                /\ timeLeft w3 = Some 0 /\ interval w3 = None).
  { unfold w3. simpl. rewrite Htim. repeat split. }
  destruct Hk3 as (K1 & K2 & K3 & K4).
  clearbody w3.
  destruct (submit_timer_step w3 c now2 Q3 K1 Hs Hr) as (_ & R4 & _).
  split; [exact K3|]. split; [exact K4|]. split; [exact K2|].
  rewrite R4, K2. reflexivity.
Qed.

Lemma countdown_core w c r ts now1 now2 :
  Quiescent w -> timeLeft w = Some r -> interval w = Some c -> timers w = [] ->
  Z.of_nat (List.length ts) = r - 1 ->
  isSubmitting (c_pageState c) = false ->
  is_sender (role (c_pageState c)) = false ->
  timeLeft (run (ticks ts) w) = Some 1
  /\ requests (run (ticks ts) w) = requests w
  /\ timeLeft (step (run (ticks ts) w) (now1, IntervalFires)) = Some 0
  /\ interval (step (run (ticks ts) w) (now1, IntervalFires)) = None
  /\ requests (step (run (ticks ts) w) (now1, IntervalFires)) = requests w
  /\ requests (step (step (run (ticks ts) w) (now1, IntervalFires))
                 (now2, TimerFires 0)) =
       (requests w ++
          [PostSubmit (attemptId (c_env c)) (formattedAnswers (c_answers c))])%list.
Proof.
  intros Hq Ht Hi Htim Hlen Hs Hr.
  rewrite (ticks_running ts w r c Hq Ht Hi) by lia.
  replace (r - Z.of_nat (List.length ts)) with 1 by lia.
  set (w2 := setTimeLeft (fun _ => Some 1) w).
  assert (Q2 : Quiescent w2) by (apply setTimeLeft_Quiescent; exact Hq).
  assert (K : timeLeft w2 = Some 1 /\ interval w2 = Some c
              /\ timers w2 = [] /\ requests w2 = requests w).
  { unfold w2. simpl. auto. }
  destruct K as (K1 & K2 & K3 & K4). clearbody w2.
  destruct (last_tick_submits w2 c now1 now2 Q2 K2 K1 K3 Hs Hr)
    as (L1 & L2 & L3 & L4).
  rewrite L1, L2, L3, L4, K4. auto 10.
Qed.

(** X9. What is typed while the countdown runs is what the page submits
    when the countdown ends: with [r] seconds left at the time of the last
    edit, the interval counts down without sending anything, its [r]-th
    callback sets the clock to zero, stops the interval and queues the
    submission, and that submission carries the edited answers. *)
Theorem countdown_end_submits_typed_answers :
  forall (w : World) (q : AttemptQuestion) (field : Field) (value : string)
         (T0 now : Z) (ts : list Z) (now1 now2 : Z),
    Quiescent w -> render (view w) = AnswerForm q -> fieldShown q field = true ->
    isSubmitting (pageState w) = false -> timers w = [] ->
    startTime (pageState w) = Some T0 -> timerRuns (pageState w) = true ->
    let r := remainingSeconds (timeLimitSeconds (pageState w)) T0 now in
    Z.of_nat (List.length ts) = r - 1 ->
    let w1 := step w (now, AnswerInput field value) in
    let w2 := run (ticks ts) w1 in
    let w3 := step w2 (now1, IntervalFires) in
    let w4 := step w3 (now2, TimerFires 0) in
    timeLeft w1 = Some r /\ timeLeft w2 = Some 1 /\ requests w2 = requests w
    /\ timeLeft w3 = Some 0 /\ interval w3 = None /\ requests w3 = requests w
    /\ requests w4 =
         (requests w ++
            [PostSubmit (attemptId (env w))
               (formattedAnswers
                  (<[slot_order q := setField (answers w !! slot_order q) field value]>
                     (answers w)))])%list.
Proof.
  intros w q field value T0 now ts now1 now2 Hq Hr Hf Hsub Htim HT Hruns r Hlen
    w1 w2 w3 w4.
  destruct (input_clock w now q field value Hq Hr Hf)
    as (Q & P & E & A & R & TL & T & I).
  fold w1 in Q, P, E, A, R, TL, T, I.
  assert (Hnot : is_sender (role (pageState w)) = false).
  { destruct Hq as [V _]. rewrite V in Hr.
    exact (render_form_not_sender _ _ Hr). }
  assert (Hv : c_pageState (view w1) = pageState w
               /\ c_env (view w1) = env w /\ c_answers (view w1) = answers w1).
  { destruct Q as [V _]. rewrite V. cbn [closureOf c_pageState c_env c_answers].
    rewrite P, E. repeat split. }
  destruct Hv as (V1 & V2 & V3).
  rewrite (timeLeftAt_running _ T0 now HT Hruns) in TL. fold r in TL.
  assert (Hx : expired now (view w1) = false).
  { unfold expired. rewrite V1, (timeLeftAt_running _ T0 now HT Hruns). fold r.
    replace (r <=? 0) with false; [reflexivity|]. symmetry. apply Z.leb_gt. lia. }
  assert (Ht : timers w1 = []).
  { rewrite T, Htim. unfold timerQueued. rewrite Hx. reflexivity. }
  assert (Hi : interval w1 = Some (view w1)).
  { rewrite I. unfold intervalAfter.
    rewrite V1, (timeLeftAt_running _ T0 now HT Hruns), Hx. reflexivity. }
  clearbody w1.
  assert (Hs1 : isSubmitting (c_pageState (view w1)) = false) by (rewrite V1; exact Hsub).
  assert (Hr1 : is_sender (role (c_pageState (view w1))) = false)
    by (rewrite V1; exact Hnot).
  subst w2 w3 w4.
  destruct (countdown_core w1 (view w1) r ts now1 now2 Q TL Hi Ht Hlen Hs1 Hr1)
    as (L1 & L2 & L3 & L4 & L5 & L6).
  split; [exact TL|]. split; [exact L1|]. split; [congruence|].
  split; [exact L3|]. split; [exact L4|]. split; [congruence|].
  rewrite L6, R, V2, V3, A. reflexivity.
Qed.

(** An event whose handler only moves to question [j]. *)
Lemma index_step w now ev j :
  Quiescent w -> handle ev w = setCurrentQuestionIndex (fun _ => j) w ->
  currentQuestionIndex (step w (now, ev)) = j
  /\ answers (step w (now, ev)) = answers w
  /\ pageState (step w (now, ev)) = pageState w
  /\ requests (step w (now, ev)) = requests w
  /\ timeLeft (step w (now, ev)) = timeLeft w.
Proof.
  intros Hq Hh. unfold step. cbn [fst snd].
  set (h := handle ev w) in *.
  assert (Hfd : fetchDeps (deps h) = Some (fetchDepsOf (closureOf h))).
  { rewrite Hh. simpl. apply (Quiescent_fetchDeps w Hq). }
  assert (Htd : timerDeps (deps h) = Some (timerDepsOf (closureOf h))).
  { rewrite Hh. simpl. apply (Quiescent_timerDeps w Hq). }
  destruct (commit_settled now h Hfd) as (Q & V & E & P & A & R & N & PS & PF & IX).
  pose proof (commit_timeLeft now h) as TL. rewrite decide_True in TL by exact Htd.
  assert (Hk : currentQuestionIndex h = j /\ answers h = answers w
               /\ pageState h = pageState w /\ requests h = requests w
               /\ timeLeft h = timeLeft w)
    by (rewrite Hh; simpl; auto).
  clearbody h. rewrite IX, A, P, R, TL. exact Hk.
Qed.

Lemma setIndex_same w :
  setCurrentQuestionIndex (fun _ => currentQuestionIndex w) w = w.
Proof. destruct w. reflexivity. Qed.

(** X10. The next and previous buttons move by one question and stop at
    the last and the first one; they work only while the answer form is
    shown and no submission is running, and they leave the answers, the
    page state, the requests and the clock untouched.  The current
    question always exists afterwards. *)
Theorem question_navigation_stays_in_range :
  forall (w : World) (now : Z),
    Quiescent w -> InRange w ->
    let n := Z.of_nat (List.length (questions (pageState w))) in
    let i := currentQuestionIndex w in
    let active := match render (view w) with
                  | AnswerForm _ => negb (isSubmitting (pageState w))
                  | _ => false
                  end in
    let next := step w (now, ClickNext) in
    let prev := step w (now, ClickPrev) in
    currentQuestionIndex next = (if active then Z.min (i + 1) (n - 1) else i)
    /\ currentQuestionIndex prev = (if active then Z.max (i - 1) 0 else i)
    /\ InRange next /\ InRange prev
    /\ (answers next = answers w /\ pageState next = pageState w
        /\ requests next = requests w /\ timeLeft next = timeLeft w)
    /\ (answers prev = answers w /\ pageState prev = pageState w
        /\ requests prev = requests w /\ timeLeft prev = timeLeft w).
Proof.
  intros w now Hq Hin n i active next prev.
  assert (Hv : view w = closureOf w) by apply Hq.
  assert (Hn : handle ClickNext w =
               setCurrentQuestionIndex
                 (fun _ => if active then Z.min (i + 1) (n - 1) else i) w).
  { unfold handle, active, isLastQuestion, handleNextQuestion. rewrite Hv.
    cbn [closureOf c_index c_pageState]. fold n i.
    destruct (render (closureOf w)); try (symmetry; apply setIndex_same).
    destruct (isSubmitting (pageState w)); cbn [negb andb];
      [rewrite andb_false_r; symmetry; apply setIndex_same|].
    rewrite andb_true_r.
    destruct (i =? n - 1) eqn:E1; cbn [negb].
    - apply Z.eqb_eq in E1. replace (Z.min (i + 1) (n - 1)) with i by lia.
      symmetry. apply setIndex_same.
    - apply Z.eqb_neq in E1. unfold InRange in Hin. fold n i in Hin.
      replace (i <? n - 1) with true by (symmetry; apply Z.ltb_lt; lia).
      rewrite Z.min_l by lia. reflexivity. }
  assert (Hp : handle ClickPrev w =
               setCurrentQuestionIndex
                 (fun _ => if active then Z.max (i - 1) 0 else i) w).
  { unfold handle, active, handlePrevQuestion. rewrite Hv.
    cbn [closureOf c_index c_pageState]. fold i.
    destruct (render (closureOf w)); try (symmetry; apply setIndex_same).
    destruct (isSubmitting (pageState w)); cbn [negb andb];
      [rewrite andb_false_r; symmetry; apply setIndex_same|].
    rewrite andb_true_r.
    destruct (i =? 0) eqn:E1; cbn [negb].
    - apply Z.eqb_eq in E1. replace (Z.max (i - 1) 0) with i by lia.
      symmetry. apply setIndex_same.
    - apply Z.eqb_neq in E1. unfold InRange in Hin. fold n i in Hin.
      replace (0 <? i) with true by (symmetry; apply Z.ltb_lt; lia).
      rewrite Z.max_l by lia. reflexivity. }
  destruct (index_step w now ClickNext _ Hq Hn) as (N1 & N2 & N3 & N4 & N5).
  destruct (index_step w now ClickPrev _ Hq Hp) as (P1 & P2 & P3 & P4 & P5).
  fold next in N1, N2, N3, N4, N5. fold prev in P1, P2, P3, P4, P5.
  clearbody next prev.
  unfold InRange in *. rewrite N1, P1, N3, P3. fold n i in Hin |- *.
  repeat split; try assumption; destruct active; lia.
Qed.

(** *** The first render *)

Lemma start_eq now e :
  start now e = set_view (closureOf (pass now (mount e))) (pass now (mount e)).
Proof.
  unfold start, commit. destruct (pass_frame now (mount e)) as (F & V & D).
  apply pass_stable. rewrite D. symmetry. apply depsOf_frame. exact F.
Qed.

(** X11. The first render of the page shows the loading screen in every
    case.  It issues the fetch of the attempt, once, only when the session
    is known, a user is signed in and the attempt id in the route is a
    number; it sends the browser to /login exactly when the session is
    known and nobody is signed in; and it starts no countdown. *)
Theorem first_render_fetches_only_when_signed_in :
  forall (now : Z) (e : Env),
    let w := start now e in
    requests w =
      (if isAuthLoading e then []
       else match user e, attemptId e with
            | Some _, Some aid => [GetActive aid]
            | _, _ => []
            end)
    /\ nav w = (if negb (isAuthLoading e) && negb (isSome (user e))
                then [Push Login] else [])
    /\ render (view w) = LoadingScreen
    /\ answers w = ∅ /\ timeLeft w = None /\ interval w = None /\ timers w = [].
Proof.
  intros now e w. subst w. rewrite start_eq.
  set (p := pass now (mount e)).
  assert (H : requests p =
      (if isAuthLoading e then []
       else match user e, attemptId e with
            | Some _, Some aid => [GetActive aid]
            | _, _ => []
            end)
    /\ nav p = (if negb (isAuthLoading e) && negb (isSome (user e))
                then [Push Login] else [])
    /\ isLoading (pageState p) = true
    /\ answers p = ∅ /\ timeLeft p = None /\ interval p = None /\ timers p = []).
  { unfold p, pass, mount. cbn [deps fetchDeps listenerDeps timerDeps].
    rewrite !rerun_None.
    destruct e as [[aid|] [usr|] [|] sock conn]; cbn;
      unfold listenerEffect; cbn; repeat case_match; cbn; auto 10. }
  clearbody p. destruct H as (H1 & H2 & H3 & H4 & H5 & H6 & H7).
  cbn [set_view requests nav view answers timeLeft interval timers].
  repeat (split; [assumption|]). split; [|auto].
  unfold render. cbn [closureOf c_pageState]. rewrite H3. reflexivity.
Qed.

(** *** The clock on screen *)

Lemma two_digits m :
  0 <= m < 100 ->
  padStart 2 "0" (numberToString (Some m))
  = String (digitChar (m / 10)) (String (digitChar (m mod 10)) EmptyString).
Proof.
  intros Hm.
  assert (H : forallb
                (fun k => String.eqb
                   (padStart 2 "0" (numberToString (Some (Z.of_nat k))))
                   (String (digitChar (Z.of_nat k / 10))
                      (String (digitChar (Z.of_nat k mod 10)) EmptyString)))
                (seq 0 100) = true) by (vm_compute; reflexivity).
  rewrite forallb_forall in H.
  specialize (H (Z.to_nat m)). rewrite Z2Nat.id in H by lia.
  apply String.eqb_eq. apply H. apply in_seq. lia.
Qed.

(** X12. Below a hundred minutes the clock reads MM:SS: two decimal digits
    of the whole minutes, a colon, two decimal digits of the remaining
    seconds.  Without a countdown it reads --:--. *)
Theorem formatTimeLeft_minutes_seconds :
  forall t : Z,
    0 <= t < 6000 ->
    let m := t / 60 in
    let s := t mod 60 in
    formatTimeLeft (Some t)
    = String (digitChar (m / 10)) (String (digitChar (m mod 10))
        (String ":" (String (digitChar (s / 10))
           (String (digitChar (s mod 10)) EmptyString))))
    /\ formatTimeLeft None = "--:--".
Proof.
  intros t Ht m s. split; [|reflexivity].
  unfold formatTimeLeft. cbv zeta.
  rewrite Z.rem_mod_nonneg by lia. fold m s.
  assert (Hm : 0 <= m < 100).
  { unfold m. split; [apply Z.div_pos; lia|apply Z.div_lt_upper_bound; lia]. }
  assert (Hs : 0 <= s < 100).
  { unfold s. pose proof (Z.mod_pos_bound t 60). lia. }
  rewrite (two_digits m Hm), (two_digits s Hs). reflexivity.
Qed.

(** *** The theorems above at concrete sessions *)

Lemma loading_pending : pendingFetches loading = [(5, mkApiUser 1 "alice")].
Proof. vm_compute. reflexivity. Qed.

Lemma loading_state :
  isAuthLoading (env loading) = false /\ isSubmitting (pageState loading) = false
  /\ timers loading = [] /\ attemptId (env loading) = Some 5
  /\ user (env loading) = Some (mkApiUser 1 "alice").
Proof. vm_compute. auto. Qed.

Lemma receiverLoaded_Quiescent limit : Quiescent (receiverLoaded limit).
Proof. apply commit_Quiescent. Qed.

Lemma receiverLoaded_form :
  render (view (receiverLoaded 60)) = AnswerForm question1
  /\ render (view (receiverLoaded 3)) = AnswerForm question1.
Proof. vm_compute. auto. Qed.

Lemma receiverLoaded_state :
  isSubmitting (pageState (receiverLoaded 3)) = false
  /\ timers (receiverLoaded 3) = []
  /\ startTime (pageState (receiverLoaded 3)) = Some 0
  /\ timerRuns (pageState (receiverLoaded 3)) = true
  /\ timeLimitSeconds (pageState (receiverLoaded 3)) = 3.
Proof. vm_compute. auto 10. Qed.

Lemma receiverLoaded_InRange : InRange (receiverLoaded 60).
Proof. vm_compute. split; [discriminate|reflexivity]. Qed.

Lemma expiredSubmitting_Quiescent : Quiescent expiredSubmitting.
Proof. apply run_Quiescent. apply start_Quiescent. Qed.

Lemma expiredSubmitting_state :
  pendingSubmits expiredSubmitting = [Some 5]
  /\ isSubmitting (pageState expiredSubmitting) = true
  /\ timers expiredSubmitting = []
  /\ startTime (pageState expiredSubmitting) = Some 0
  /\ timerRuns (pageState expiredSubmitting) = true
  /\ timeLimitSeconds (pageState expiredSubmitting) = 60
  /\ is_sender (role (pageState expiredSubmitting)) = false.
Proof. vm_compute. auto 10. Qed.

Lemma load_installs_blank_answers_witness :
  Quiescent loading
  /\ pendingFetches loading = [(5, mkApiUser 1 "alice")]
  /\ answers (step loading
                (1900, FetchSettled (Fulfilled (Some (inProgress (Some receiver) 60)))))
     = initialAnswers (default [] (a_questions (inProgress (Some receiver) 60))).
Proof.
  split; [apply start_Quiescent|]. split; [exact loading_pending|].
  exact (proj1 (load_installs_blank_answers loading 5 (mkApiUser 1 "alice") []
                  (inProgress (Some receiver) 60) 1900 (start_Quiescent _ _)
                  loading_pending eq_refl eq_refl)).
Defined.

Lemma answer_edit_witness :
  Quiescent (receiverLoaded 60)
  /\ render (view (receiverLoaded 60)) = AnswerForm question1
  /\ fieldShown question1 f_answerText = true
  /\ pageState (step (receiverLoaded 60) (1000, AnswerInput f_answerText "120"))
     = pageState (receiverLoaded 60).
Proof.
  split; [apply receiverLoaded_Quiescent|].
  split; [exact (proj1 receiverLoaded_form)|]. split; [reflexivity|].
  exact (proj1 (proj2 (proj2
           (answer_edit_changes_one_field (receiverLoaded 60) 1000 question1
              f_answerText "120" (receiverLoaded_Quiescent 60)
              (proj1 receiverLoaded_form) eq_refl)))).
Defined.

Lemma fetch_failure_witness :
  Quiescent loading
  /\ pendingFetches loading = [(5, mkApiUser 1 "alice")]
  /\ fetchFails (mkApiUser 1 "alice") (Failed serverError) = true
  /\ render (view (step loading (1900, FetchSettled (Failed serverError))))
     = ErrorScreen (fetchErrorMessage (Failed serverError)).
Proof.
  split; [apply start_Quiescent|]. split; [exact loading_pending|].
  split; [reflexivity|].
  exact (proj1 (proj2
           (fetch_failure_shows_retryable_error loading 5 (mkApiUser 1 "alice") []
              (Failed serverError) 1900 (start_Quiescent _ _) loading_pending
              eq_refl (proj1 loading_state) (proj1 (proj2 loading_state))))).
Defined.

Lemma socket_change_witness :
  Quiescent (receiverLoaded 60)
  /\ user offlineEnv = user (env (receiverLoaded 60))
  /\ requests (step (receiverLoaded 60) (2000, Hooks offlineEnv))
     = requests (receiverLoaded 60).
Proof.
  split; [apply receiverLoaded_Quiescent|]. split; [vm_compute; reflexivity|].
  exact (proj1 (socket_change_does_not_refetch (receiverLoaded 60) offlineEnv 2000
                  (receiverLoaded_Quiescent 60) ltac:(vm_compute; reflexivity)
                  ltac:(vm_compute; reflexivity) ltac:(vm_compute; reflexivity))).
Defined.

Lemma untimed_attempt_witness :
  Quiescent loading
  /\ a_startTime untimed = None
  /\ timeLeft (step loading (1900, FetchSettled (Fulfilled (Some untimed)))) = None.
Proof.
  split; [apply start_Quiescent|]. split; [reflexivity|].
  exact (proj1 (untimed_attempt_has_no_countdown loading 5 (mkApiUser 1 "alice") []
                  untimed 1900 [2900; 3900] (start_Quiescent _ _) loading_pending
                  eq_refl eq_refl (or_introl eq_refl))).
Defined.

Lemma expired_attempt_witness :
  Quiescent loading
  /\ 60 <= (70000 - 0) / 1000
  /\ timeLeft (step loading
                 (70000, FetchSettled (Fulfilled (Some (inProgress (Some receiver) 60)))))
     = Some 0.
Proof.
  split; [apply start_Quiescent|]. split; [vm_compute; discriminate|].
  exact (proj1 (expired_attempt_is_submitted_on_load loading 5 (mkApiUser 1 "alice") []
                  (inProgress (Some receiver) 60) "inprogress" 0 60 70000 70001
                  (start_Quiescent _ _) loading_pending eq_refl eq_refl
                  (or_introl eq_refl) eq_refl eq_refl ltac:(lia)
                  ltac:(vm_compute; discriminate) ltac:(discriminate)
                  (proj1 (proj2 loading_state))
                  (proj1 (proj2 (proj2 loading_state))))).
Defined.

Lemma expired_resubmit_witness :
  Quiescent expiredSubmitting
  /\ pendingSubmits expiredSubmitting = [Some 5]
  /\ isSubmitting (pageState expiredSubmitting) = true
  /\ isSubmitting
       (pageState (step expiredSubmitting (71000, SubmitSettled (Failed serverError))))
     = false.
Proof.
  destruct expiredSubmitting_state as (S1 & S2 & S3 & S4 & S5 & S6 & S7).
  split; [exact expiredSubmitting_Quiescent|]. split; [exact S1|].
  split; [exact S2|].
  refine (proj1 (expired_submit_failure_is_resubmitted expiredSubmitting (Some 5) []
                   serverError 0 71000 71001 expiredSubmitting_Quiescent S1 S2 S3 S4
                   S5 _ S7)).
  rewrite S6. vm_compute. discriminate.
Defined.

Lemma countdown_end_witness :
  Quiescent (receiverLoaded 3)
  /\ render (view (receiverLoaded 3)) = AnswerForm question1
  /\ Z.of_nat (List.length [2000]) =
       remainingSeconds (timeLimitSeconds (pageState (receiverLoaded 3))) 0 1000 - 1
  /\ timeLeft (step (receiverLoaded 3) (1000, AnswerInput f_answerText "120"))
     = Some (remainingSeconds (timeLimitSeconds (pageState (receiverLoaded 3))) 0 1000).
Proof.
  destruct receiverLoaded_state as (S1 & S2 & S3 & S4 & S5).
  assert (L : Z.of_nat (List.length [2000]) =
       remainingSeconds (timeLimitSeconds (pageState (receiverLoaded 3))) 0 1000 - 1)
    by (rewrite S5; reflexivity).
  split; [apply receiverLoaded_Quiescent|].
  split; [exact (proj2 receiverLoaded_form)|]. split; [exact L|].
  exact (proj1 (countdown_end_submits_typed_answers (receiverLoaded 3) question1
                  f_answerText "120" 0 1000 [2000] 3000 3001
                  (receiverLoaded_Quiescent 3) (proj2 receiverLoaded_form) eq_refl
                  S1 S2 S3 S4 L)).
Defined.

Lemma question_navigation_witness :
  Quiescent (receiverLoaded 60) /\ InRange (receiverLoaded 60)
  /\ InRange (step (receiverLoaded 60) (1000, ClickNext)).
Proof.
  split; [apply receiverLoaded_Quiescent|]. split; [exact receiverLoaded_InRange|].
  exact (proj1 (proj2 (proj2
           (question_navigation_stays_in_range (receiverLoaded 60) 1000
              (receiverLoaded_Quiescent 60) receiverLoaded_InRange)))).
Defined.

Lemma formatTimeLeft_witness :
  0 <= 125 < 6000 /\ formatTimeLeft (Some 125) = "02:05".
Proof.
  split; [lia|].
  exact (proj1 (formatTimeLeft_minutes_seconds 125 ltac:(lia))).
Defined.

End AttemptPageMore.

(** ** More of the start page *)

Module StartPageMore.
Import JS ApiClient Router StartPage StartView StartPageFacts Scenario.Start StartExamples StartGuard.

Lemma intelligence_not_communication info :
  is_intelligence info = negb (is_communication info).
Proof.
  unfold is_intelligence, is_communication. destruct (base_type info); reflexivity.
Qed.

Lemma startEffect_spec w :
  startEffect w =
    if startEffectFires (env w) (view w)
    then send (PostStart (templateId (env w)) (role (view w)))
           (set_pendingStarts (pendingStarts w ++ [role (view w)])
              (setState (fun prev => set_startError None
                           (set_isStartingAttempt true prev)) w))
    else w.
Proof.
  unfold startEffect, startEffectFires, handleStartAttempt.
  destruct (templateInfo (view w)) as [info|] eqn:Hi; [|reflexivity].
  rewrite intelligence_not_communication.
  destruct (isSome (role (view w))); cbn [andb]; [|reflexivity].
  destruct (truthyNum (attemptId (view w))); cbn [andb negb]; [reflexivity|].
  destruct (isStartingAttempt (view w)); cbn [andb negb orb];
    [reflexivity|].
  destruct (isLoadingTemplate (view w)); cbn [andb negb]; [reflexivity|].
  destruct (is_sender (role (view w))) eqn:Hs;
    destruct (is_communication info) eqn:Hc; cbn [andb negb orb]; try reflexivity;
    destruct (isSome (user (env w))); cbn [andb negb orb]; try reflexivity;
    destruct (isSome (templateId (env w))); cbn [andb negb orb]; reflexivity.
Qed.

(** One render with the hook effects idle. *)
Lemma pass_start w :
  EnvSettled w ->
  state (pass w) = (if startsNow w then startedState (state w) else state w)
  /\ requests (pass w) =
       (requests w ++ if startsNow w
                      then [PostStart (templateId (env w)) (role (state w))]
                      else [])%list
  /\ pendingStarts (pass w) =
       (pendingStarts w ++ if startsNow w then [role (state w)] else [])%list.
Proof.
  intros Hs. destruct (pass_settled w Hs) as (S & P & R). rewrite S, P, R.
  unfold startsNow, rerun. case_decide as Hd.
  - rewrite bool_decide_eq_true_2 by exact Hd. rewrite andb_false_r.
    rewrite !app_nil_r. auto.
  - rewrite bool_decide_eq_false_2 by exact Hd. rewrite andb_true_r.
    rewrite startEffect_spec. cbn [set_view env view].
    destruct (startEffectFires (env w) (state w)); [|rewrite !app_nil_r; auto].
    repeat split.
Qed.

Lemma startedState_idle e s : startEffectFires e (startedState s) = false.
Proof.
  unfold startEffectFires, startedState. cbn.
  destruct (templateInfo s); [|reflexivity].
  rewrite !andb_false_r. reflexivity.
Qed.

Lemma pass_idle w :
  EnvSettled w -> startsNow w = false ->
  state (pass w) = state w /\ requests (pass w) = requests w
  /\ pendingStarts (pass w) = pendingStarts w.
Proof.
  intros Hs Hn. destruct (pass_start w Hs) as (S & R & P).
  rewrite Hn in *. rewrite app_nil_r in *. auto.
Qed.

Lemma startsNow_recorded w :
  deps w = depsOf (env w) (state w) -> startsNow w = false.
Proof.
  intros D. unfold startsNow. rewrite D. cbn [startDeps depsOf].
  rewrite bool_decide_eq_true_2 by reflexivity. apply andb_false_r.
Qed.

(** Three renders with the hook effects idle: the start effect fires in the
    first one or not at all. *)
Lemma commit_start h :
  EnvSettled h ->
  state (commit h) = (if startsNow h then startedState (state h) else state h)
  /\ requests (commit h) =
       (requests h ++ if startsNow h
                      then [PostStart (templateId (env h)) (role (state h))]
                      else [])%list
  /\ pendingStarts (commit h) =
       (pendingStarts h ++ if startsNow h then [role (state h)] else [])%list
  /\ nav (commit h) = nav h /\ env (commit h) = env h
  /\ pendingJoins (commit h) = pendingJoins h.
Proof.
  intros Hs. unfold commit.
  destruct (pass_start h Hs) as (S1 & R1 & P1).
  destruct (pass_basic h) as (E1 & V1 & D1 & N1 & J1 & _).
  set (p1 := pass h) in *.
  assert (Hs1 : EnvSettled p1) by apply pass_EnvSettled.
  assert (Hn1 : startsNow p1 = false).
  { unfold startsNow. rewrite D1, E1, S1. cbn [startDeps depsOf].
    destruct (startsNow h).
    - rewrite startedState_idle. reflexivity.
    - rewrite bool_decide_eq_true_2 by reflexivity. apply andb_false_r. }
  destruct (pass_idle p1 Hs1 Hn1) as (S2 & R2 & P2).
  destruct (pass_basic p1) as (E2 & V2 & D2 & N2 & J2 & _).
  set (p2 := pass p1) in *.
  assert (Hs2 : EnvSettled p2) by apply pass_EnvSettled.
  assert (Hn2 : startsNow p2 = false).
  { apply startsNow_recorded. rewrite D2, E2, S2. reflexivity. }
  destruct (pass_idle p2 Hs2 Hn2) as (S3 & R3 & P3).
  destruct (pass_basic p2) as (E3 & V3 & D3 & N3 & J3 & _).
  clearbody p1 p2.
  rewrite S3, S2, S1, R3, R2, R1, P3, P2, P1, N3, N2, N1, E3, E2, E1, J3, J2, J1.
  repeat split.
Qed.

Lemma handle_frame ev w :
  notHooks ev = true ->
  env (handle ev w) = env w /\ deps (handle ev w) = deps w
  /\ view (handle ev w) = view w.
Proof.
  intros Hn. destruct ev; try discriminate; unfold handle, onSocket,
    fetchTemplateDetails_settled, handleStartAttempt_settled,
    handleJoinPairing_settled, fetchTemplateDetails, handleStartAttempt,
    handleJoinPairing, onChange, receiverHandler, senderHandler;
    repeat case_match; auto.
Qed.

Lemma handled_EnvSettled ev w :
  Quiescent w -> notHooks ev = true -> EnvSettled (handle ev w).
Proof.
  intros Hq Hn. destruct (handle_frame ev w Hn) as (E & D & V).
  unfold EnvSettled. rewrite D, E. apply Quiescent_EnvSettled. exact Hq.
Qed.

(** The start effect fires after the handler of an event exactly when it
    finds the state ready and one of its dependencies has changed. *)
Lemma startsNow_handled ev w :
  Quiescent w -> notHooks ev = true ->
  startsNow (handle ev w) =
    startEffectFires (env w) (state (handle ev w))
    && negb (bool_decide (startDepsOf (env w) (state (handle ev w))
                          = startDepsOf (env w) (state w))).
Proof.
  intros [V D] Hn. destruct (handle_frame ev w Hn) as (E & D' & V').
  unfold startsNow. rewrite D', E, D, V. cbn [startDeps depsOf].
  f_equal. f_equal. apply bool_decide_ext. split; congruence.
Qed.

(** What the renders after an event add to what its handler did. *)
Lemma handled_start :
  forall (w : World) (ev : Event),
    Quiescent w -> notHooks ev = true ->
    let h := handle ev w in
    let w' := step w ev in
    let fires :=
      startEffectFires (env w) (state h)
      && negb (bool_decide (startDepsOf (env w) (state h)
                            = startDepsOf (env w) (state w))) in
    state w' = (if fires then startedState (state h) else state h)
    /\ requests w' =
         (requests h ++ if fires
                        then [PostStart (templateId (env w)) (role (state h))]
                        else [])%list
    /\ pendingStarts w' =
         (pendingStarts h ++ if fires then [role (state h)] else [])%list
    /\ nav w' = nav h.
Proof.
  intros w ev Hq Hn h w' fires.
  destruct (commit_start h (handled_EnvSettled ev w Hq Hn))
    as (S & R & P & N & E & J).
  pose proof (startsNow_handled ev w Hq Hn) as F. fold h fires in F.
  destruct (handle_frame ev w Hn) as (E' & _). fold h in E'.
  subst w'. unfold step. fold h. clearbody h fires.
  rewrite S, R, P, N, F, E'. repeat split.
Qed.


Lemma start_failed_handled crole o w :
  noAttemptId o = true ->
  exists m, isEmpty m = false
    /\ handleStartAttempt_settled crole o w =
         setState (fun prev => set_isStartingAttempt false
                     (set_startError (Some m) prev)) w.
Proof.
  unfold noAttemptId, handleStartAttempt_settled, startAttempt, wrap.
  destruct o as [response|e]; intros H.
  - exists (orStr (Some (orStr (r_message response) "开始答题失败，未返回尝试 ID。"))
              "开始答题时发生未知错误，请重试。").
    split; [apply AttemptPageFacts.orStr_nonempty; reflexivity|].
    destruct (r_attemptId response) as [aid|]; [|reflexivity].
    apply negb_true_iff in H. rewrite H. reflexivity.
  - exists (orStr (Some (orStr (responseMessage e) "无法开始答题，请稍后重试"))
              "开始答题时发生未知错误，请重试。").
    split; [apply AttemptPageFacts.orStr_nonempty; reflexivity|reflexivity].
Qed.

(** X14. A start request that fails, or whose answer carries no attempt
    id, is sent again at once when the start effect still finds the page
    ready (template loaded, role sender or intelligence test): the failure
    clears the in-flight flag, that change re-runs the start effect, and the
    effect issues the request again and clears the error it has just set.
    It never navigates. *)
Theorem failed_start_is_retried_at_once :
  forall (w : World) (crole : option Role) rest (o : Outcome AttemptResponse)
         (info : ApiTemplateSummary),
    Quiescent w -> pendingStarts w = crole :: rest -> noAttemptId o = true ->
    isStartingAttempt (state w) = true ->
    templateInfo (state w) = Some info -> isLoadingTemplate (state w) = false ->
    truthyNum (attemptId (state w)) = false ->
    isSome (role (state w)) = true ->
    is_sender (role (state w)) || is_intelligence info = true ->
    isSome (user (env w)) = true -> isSome (templateId (env w)) = true ->
    let w' := step w (StartSettled o) in
    requests w' = (requests w ++ [PostStart (templateId (env w)) (role (state w))])%list
    /\ pendingStarts w' = (rest ++ [role (state w)])%list
    /\ isStartingAttempt (state w') = true /\ startError (state w') = None
    /\ nav w' = nav w.
Proof.
  intros w crole rest o info Hq Hp Ho Hflag Hi Hl Ha Hr Hk Hu Ht w'.
  destruct (start_failed_handled crole o (set_pendingStarts rest w) Ho)
    as (m & Hm & Hh).
  destruct (handled_start w (StartSettled o) Hq eq_refl)
    as (S & R & P & N).
  fold w' in S, R, P, N. clearbody w'.
  assert (Hh' : handle (StartSettled o) w =
                setState (fun prev => set_isStartingAttempt false
                            (set_startError (Some m) prev))
                  (set_pendingStarts rest w)).
  { unfold handle. rewrite Hp. exact Hh. }
  rewrite Hh' in S, R, P, N. cbn [setState set_pendingStarts state requests
    pendingStarts nav] in S, R, P, N.
  assert (F : startEffectFires (env w)
                (set_isStartingAttempt false (set_startError (Some m) (state w))) = true).
  { unfold startEffectFires. cbn. rewrite Hi, Hr, Ha, Hl, Hk, Hu, Ht. reflexivity. }
  assert (G : bool_decide
                (startDepsOf (env w)
                   (set_isStartingAttempt false (set_startError (Some m) (state w)))
                 = startDepsOf (env w) (state w)) = false).
  { apply bool_decide_eq_false_2. unfold startDepsOf. cbn. rewrite Hflag.
    intros E. injection E as E. discriminate. }
  rewrite F, G in S, R, P. cbn [andb negb] in S, R, P.
  rewrite S, R, P, N. repeat split.
Qed.

(** X15. An answer to the start request that carries an attempt id is
    stored with the pairing code of the answer, clears the in-flight flag
    and takes the user to /quiz/attempt/{id}, except the sender who received
    a pairing code, who stays on the page; no further start request is
    issued. *)
Theorem start_answer_enters_attempt :
  forall (w : World) (crole : option Role) rest (response : AttemptResponse)
         (aid : Z),
    Quiescent w -> pendingStarts w = crole :: rest ->
    r_attemptId response = Some aid -> aid <> 0 ->
    let w' := step w (StartSettled (Fulfilled response)) in
    attemptId (state w') = Some aid
    /\ pairingCodeDisplay (state w') = orNull (r_pairingCode response)
    /\ isStartingAttempt (state w') = false
    /\ nav w' =
         (nav w ++ if is_sender crole && truthyStr (r_pairingCode response)
                   then [] else [Push (QuizAttempt (Some aid))])%list
    /\ requests w' = requests w /\ pendingStarts w' = rest.
Proof.
  intros w crole rest response aid Hq Hp Hid Hnz w'.
  destruct (handled_start w
              (StartSettled (Fulfilled response)) Hq eq_refl) as (S & R & P & N).
  fold w' in S, R, P, N. clearbody w'.
  set (s1 := set_isStartingAttempt false
               (set_pairingCodeDisplay (orNull (r_pairingCode response))
                  (set_attemptId (Some aid) (state w)))).
  assert (Hh : handle (StartSettled (Fulfilled response)) w =
    let w1 := setState (fun _ => s1) (set_pendingStarts rest w) in
    if negb (is_sender crole && truthyStr (r_pairingCode response))
    then navigate (Push (QuizAttempt (Some aid))) w1 else w1).
  { unfold handle. rewrite Hp. unfold handleStartAttempt_settled, startAttempt, wrap.
    rewrite Hid. cbn [truthyNum].
    replace (aid =? 0) with false by (symmetry; apply Z.eqb_neq; exact Hnz).
    reflexivity. }
  assert (Hk : state (handle (StartSettled (Fulfilled response)) w) = s1
    /\ requests (handle (StartSettled (Fulfilled response)) w) = requests w
    /\ pendingStarts (handle (StartSettled (Fulfilled response)) w) = rest
    /\ nav (handle (StartSettled (Fulfilled response)) w) =
         (nav w ++ if is_sender crole && truthyStr (r_pairingCode response)
                   then [] else [Push (QuizAttempt (Some aid))])%list).
  { rewrite Hh. cbv zeta.
    destruct (is_sender crole && truthyStr (r_pairingCode response));
      cbn; rewrite ?app_nil_r; repeat split. }
  destruct Hk as (K1 & K2 & K3 & K4).
  rewrite K1 in S, R, P. rewrite K2 in R. rewrite K3 in P. rewrite K4 in N.
  assert (F : startEffectFires (env w) s1 = false).
  { unfold startEffectFires, s1. cbn.
    destruct (templateInfo (state w)); [|reflexivity].
    replace (aid =? 0) with false by (symmetry; apply Z.eqb_neq; exact Hnz).
    cbn. rewrite andb_false_r. reflexivity. }
  rewrite F in S, R, P. cbn [andb] in S, R, P. rewrite app_nil_r in R, P.
  rewrite S, R, P, N. repeat split.
Qed.

Lemma Silent_rerun {D : Type} `{EqDecision D} (last : option D) (d : D) f :
  Silent f -> Silent (rerun last d f).
Proof. intros Hf w. unfold rerun. case_decide; [reflexivity|apply Hf]. Qed.

Lemma pass_toasts_same w : toasts (pass w) = toasts w.
Proof.
  rewrite pass_effects. unfold effects. cbn [set_deps toasts].
  assert (S1 : Silent roleEffect)
    by (intros x; unfold roleEffect; repeat case_match; reflexivity).
  assert (S2 : Silent templateEffect)
    by (intros x; unfold templateEffect, fetchTemplateDetails;
        repeat case_match; reflexivity).
  assert (S3 : Silent startEffect)
    by (intros x; rewrite startEffect_spec; case_match; reflexivity).
  assert (S4 : Silent receiverEffect)
    by (intros x; unfold receiverEffect; repeat case_match; reflexivity).
  assert (S5 : Silent senderEffect)
    by (intros x; unfold senderEffect; repeat case_match; reflexivity).
  assert (S6 : Silent connectErrorEffect)
    by (intros x; unfold connectErrorEffect; repeat case_match; reflexivity).
  rewrite (Silent_rerun _ _ _ S6), (Silent_rerun _ _ _ S5), (Silent_rerun _ _ _ S4),
    (Silent_rerun _ _ _ S3), (Silent_rerun _ _ _ S2), (Silent_rerun _ _ _ S1).
  reflexivity.
Qed.

Lemma commit_toasts_same w : toasts (commit w) = toasts w.
Proof. unfold commit. rewrite !pass_toasts_same. reflexivity. Qed.

Lemma join_failed_handled o w :
  noAttemptId o = true ->
  exists m, isEmpty m = false
    /\ handleJoinPairing_settled o w =
         toast Toast.error "加入失败" (Some m)
           (setState (fun prev => set_isJoiningPairing false
                        (set_pairingError (Some m) prev)) w).
Proof.
  unfold noAttemptId, handleJoinPairing_settled, joinPairing, wrap.
  destruct o as [response|e]; intros H.
  - exists (orStr (Some (orStr (r_message response) "配对失败，未能获取答题ID"))
              "加入配对失败，请重试。").
    split; [apply AttemptPageFacts.orStr_nonempty; reflexivity|].
    destruct (r_attemptId response) as [aid|]; [|reflexivity].
    apply negb_true_iff in H. rewrite H. reflexivity.
  - exists (orStr (Some (orStr (responseMessage e) "配对失败，请检查配对码或稍后重试"))
              "加入配对失败，请重试。").
    split; [apply AttemptPageFacts.orStr_nonempty; reflexivity|reflexivity].
Qed.

(** X16. When the join request fails, or its answer carries no attempt
    id, the join form is editable again: the joining flag is cleared, a
    message that is never empty is shown and raised as an error toast, the
    typed code is kept, and the page neither navigates nor sends
    anything. *)
Theorem join_failure_returns_to_editable_join :
  forall (w : World) (n : nat) (o : Outcome AttemptResponse),
    Quiescent w -> pendingJoins w = S n -> noAttemptId o = true ->
    let w' := step w (JoinSettled o) in
    (exists m, isEmpty m = false /\ pairingError (state w') = Some m
               /\ toasts w' = (toasts w ++ [Toast.mk Toast.error "加入失败" (Some m)])%list)
    /\ isJoiningPairing (state w') = false
    /\ view w' = state w' /\ inputDisabled (view w') = false
    /\ pairingCodeInput (state w') = pairingCodeInput (state w)
    /\ nav w' = nav w /\ requests w' = requests w /\ pendingJoins w' = n.
Proof.
  intros w n o Hq Hp Ho w'.
  destruct (join_failed_handled o (set_pendingJoins n w) Ho) as (m & Hm & Hh).
  destruct (handled_start w (JoinSettled o) Hq eq_refl)
    as (S & R & P & N).
  pose proof (start_commit_Quiescent (handle (JoinSettled o) w)) as [V _].
  destruct (commit_basic (handle (JoinSettled o) w)) as (_ & _ & J & _).
  pose proof (commit_toasts_same (handle (JoinSettled o) w)) as T.
  change (commit (handle (JoinSettled o) w)) with w' in V, J, T.
  fold w' in S, R, P, N. clearbody w'.
  assert (Hh' : handle (JoinSettled o) w =
                toast Toast.error "加入失败" (Some m)
                  (setState (fun prev => set_isJoiningPairing false
                               (set_pairingError (Some m) prev))
                     (set_pendingJoins n w))).
  { unfold handle. rewrite Hp. exact Hh. }
  rewrite Hh' in S, R, P, N, J, T.
  cbn [toast setState set_pendingJoins state requests pendingStarts nav toasts
       pendingJoins] in S, R, P, N, J, T.
  assert (G : bool_decide
                (startDepsOf (env w)
                   (set_isJoiningPairing false (set_pairingError (Some m) (state w)))
                 = startDepsOf (env w) (state w)) = true).
  { apply bool_decide_eq_true_2. reflexivity. }
  rewrite G, andb_false_r in S, R, P. rewrite app_nil_r in R.
  rewrite V, S, R, N, J, T.
  split.
  - exists m. repeat split. exact Hm.
  - repeat split.
Qed.

(** X17. For the sender whose listeners are subscribed, the event
    'pairing_success' marks the partner as connected and takes the sender
    to the attempt the listeners' render knew; 'opponent_disconnected'
    marks the partner as gone, shows that as the start error and stays on
    the page.  Neither sends a request. *)
Theorem sender_follows_partner_events :
  forall (w : World) (c : State) (aid : Z) (s r : option string),
    Quiescent w -> senderListeners w = Some c ->
    attemptId c = Some aid -> aid <> 0 ->
    let joined := step w (Socket (pairing_success s r)) in
    let gone := step w (Socket opponent_disconnected) in
    (isPartnerConnected (state joined) = true
     /\ nav joined = (nav w ++ [Push (QuizAttempt (Some aid))])%list
     /\ requests joined = requests w)
    /\ (isPartnerConnected (state gone) = false
        /\ startError (state gone) = Some "接收方已断开连接。"
        /\ nav gone = nav w /\ requests gone = requests w).
Proof.
  intros w c aid s r Hq Hl Ha Hnz joined gone.
  destruct (handled_start w
              (Socket (pairing_success s r)) Hq eq_refl) as (S1 & R1 & P1 & N1).
  destruct (handled_start w
              (Socket opponent_disconnected) Hq eq_refl) as (S2 & R2 & P2 & N2).
  fold joined in S1, R1, P1, N1. fold gone in S2, R2, P2, N2.
  clearbody joined gone.
  assert (K1 : state (handle (Socket (pairing_success s r)) w)
               = set_isPartnerConnected true (state w)
    /\ requests (handle (Socket (pairing_success s r)) w) = requests w
    /\ nav (handle (Socket (pairing_success s r)) w)
       = (nav w ++ [Push (QuizAttempt (Some aid))])%list).
  { unfold handle, onSocket.
    destruct (receiverListeners w); cbn [receiverHandler toast senderListeners];
      rewrite Hl; cbn [senderHandler]; rewrite Ha; cbn [truthyNum];
      replace (aid =? 0) with false by (symmetry; apply Z.eqb_neq; exact Hnz);
      cbn; repeat split. }
  assert (K2 : state (handle (Socket opponent_disconnected) w)
               = set_startError (Some "接收方已断开连接。")
                   (set_isPartnerConnected false (state w))
    /\ requests (handle (Socket opponent_disconnected) w) = requests w
    /\ nav (handle (Socket opponent_disconnected) w) = nav w).
  { unfold handle, onSocket.
    destruct (receiverListeners w); cbn [receiverHandler toast senderListeners];
      rewrite Hl; cbn; repeat split. }
  destruct K1 as (A1 & A2 & A3). destruct K2 as (B1 & B2 & B3).
  rewrite A1 in S1, R1. rewrite A2 in R1. rewrite A3 in N1.
  rewrite B1 in S2, R2. rewrite B2 in R2. rewrite B3 in N2.
  assert (G1 : bool_decide (startDepsOf (env w) (set_isPartnerConnected true (state w))
                            = startDepsOf (env w) (state w)) = true)
    by (apply bool_decide_eq_true_2; reflexivity).
  assert (G2 : bool_decide
                 (startDepsOf (env w)
                    (set_startError (Some "接收方已断开连接。")
                       (set_isPartnerConnected false (state w)))
                  = startDepsOf (env w) (state w)) = true)
    by (apply bool_decide_eq_true_2; reflexivity).
  rewrite G1, andb_false_r in S1, R1. rewrite G2, andb_false_r in S2, R2.
  rewrite app_nil_r in R1, R2.
  rewrite S1, R1, N1, S2, R2, N2. repeat split.
Qed.


Lemma startedState_fields s :
  templateInfo (startedState s) = templateInfo s
  /\ isLoadingTemplate (startedState s) = isLoadingTemplate s
  /\ role (startedState s) = role s.
Proof. repeat split. Qed.

(** X18. When the list of templates arrives, the page takes the first
    template of the list whose id is the template id of the route, and
    stops showing the loading skeleton; when the list has none (or is
    missing), it keeps what it had and, on a first load, shows the
    not-found error and sends nothing.  It never navigates. *)
Theorem template_lookup_picks_route_template :
  forall (w : World) (tid : option Z) rest
         (d : option (list ApiTemplateSummary)),
    Quiescent w -> pendingTemplates w = tid :: rest ->
    let w' := step w (TemplatesSettled (Fulfilled d)) in
    isLoadingTemplate (state w') = false /\ nav w' = nav w
    /\ match foundTemplate tid (default [] d) with
       | Some t =>
           templateInfo (state w') = Some t /\ Some (tpl_id t) = tid
           /\ In t (default [] d)
       | None =>
           templateInfo (state w') = templateInfo (state w)
           /\ (templateInfo (state w) = None ->
               startError (state w')
                 = Some "无法找到指定的试卷模板，或该模板未激活。"
               /\ requests w' = requests w)
       end.
Proof.
  intros w tid rest d Hq Hp w'.
  destruct (handled_start w
              (TemplatesSettled (Fulfilled d)) Hq eq_refl) as (S & R & P & N).
  fold w' in S, R, P, N. clearbody w'.
  assert (Hh : handle (TemplatesSettled (Fulfilled d)) w =
    match foundTemplate tid (default [] d) with
    | Some t => setState (fun prev => set_isLoadingTemplate false
                            (set_templateInfo (Some t) prev))
                  (set_pendingTemplates rest w)
    | None => setState (fun prev => set_isLoadingTemplate false
                          (set_startError
                             (Some "无法找到指定的试卷模板，或该模板未激活。") prev))
                (set_pendingTemplates rest w)
    end).
  { unfold handle. rewrite Hp. unfold fetchTemplateDetails_settled, foundTemplate.
    cbn [getActiveTemplates]. destruct (List.find _ _); reflexivity. }
  set (h := handle (TemplatesSettled (Fulfilled d)) w) in *.
  set (fires := startEffectFires (env w) (state h) && _) in *.
  assert (Hf : templateInfo (state w') = templateInfo (state h)
               /\ isLoadingTemplate (state w') = isLoadingTemplate (state h)).
  { rewrite S. destruct fires; repeat split. }
  destruct Hf as [F1 F2].
  destruct (foundTemplate tid (default [] d)) as [t|] eqn:Hfound.
  - assert (Hk : templateInfo (state h) = Some t /\ isLoadingTemplate (state h) = false
                 /\ nav h = nav w) by (rewrite Hh; repeat split).
    destruct Hk as (K1 & K2 & K3). clearbody h fires.
    split; [congruence|]. split; [congruence|].
    split; [congruence|].
    unfold foundTemplate in Hfound. apply find_some in Hfound as [Hin Hb].
    apply bool_decide_eq_true_1 in Hb. split; assumption.
  - assert (Hk : templateInfo (state h) = templateInfo (state w)
                 /\ isLoadingTemplate (state h) = false /\ nav h = nav w
                 /\ startError (state h)
                    = Some "无法找到指定的试卷模板，或该模板未激活。"
                 /\ requests h = requests w) by (rewrite Hh; repeat split).
    destruct Hk as (K1 & K2 & K3 & K4 & K5).
    assert (Hn : templateInfo (state w) = None -> fires = false).
    { intros Hnone. unfold fires, startEffectFires. rewrite K1, Hnone. reflexivity. }
    clearbody h fires.
    split; [congruence|]. split; [congruence|]. split; [congruence|].
    intros Hnone. rewrite (Hn Hnone) in S, R. rewrite app_nil_r in R.
    split; congruence.
Qed.

(** *** The first render of the start page *)

Lemma start_rerun_None {D : Type} `{EqDecision D} (d : D) f (w : World) :
  rerun None d f w = f w.
Proof. unfold rerun. rewrite decide_False by discriminate. reflexivity. Qed.

Lemma commit_first h :
  templateInfo (state (pass h)) = None ->
  state (commit h) = state (pass h) /\ requests (commit h) = requests (pass h)
  /\ pendingStarts (commit h) = pendingStarts (pass h)
  /\ nav (commit h) = nav h.
Proof.
  intros Hnone. unfold commit.
  destruct (pass_basic h) as (E1 & V1 & D1 & N1 & _).
  set (p1 := pass h) in *.
  assert (Hs1 : EnvSettled p1) by apply pass_EnvSettled.
  assert (Hn1 : startsNow p1 = false).
  { unfold startsNow, startEffectFires. rewrite Hnone. reflexivity. }
  destruct (pass_idle p1 Hs1 Hn1) as (S2 & R2 & P2).
  destruct (pass_basic p1) as (E2 & V2 & D2 & N2 & _).
  set (p2 := pass p1) in *.
  assert (Hs2 : EnvSettled p2) by apply pass_EnvSettled.
  assert (Hn2 : startsNow p2 = false).
  { apply startsNow_recorded. rewrite D2, E2, S2. reflexivity. }
  destruct (pass_idle p2 Hs2 Hn2) as (S3 & R3 & P3).
  destruct (pass_basic p2) as (E3 & V3 & D3 & N3 & _).
  clearbody p1 p2. rewrite S3, S2, R3, R2, P3, P2, N3, N2, N1. repeat split.
Qed.

(** X19. The first render of the start page reads the role from the query
    string ('sender', 'receiver', anything else is no role), and fetches
    the templates, once, only when the session is known, a user is signed
    in and the template id of the route is a number; with the session known
    it stores the error of an invalid template id before that of a missing
    login.  It starts no attempt, and the page's own code does not
    navigate.  What is on screen is a loader while the session is being
    checked and the [<ProtectedRoute>] afterwards: with nobody signed in
    the guard pushes /login and renders nothing, so the stored error is
    not shown; with a user it pushes nothing and renders the page. *)
Theorem start_page_first_render :
  forall (e : Env) (r : AuthApi.UserRole),
    let w := start e in
    role (state w) = parseRole (roleParam e)
    /\ requests w =
         (if negb (isAuthLoading e) && isSome (templateId e) && isSome (user e)
          then [GetTemplates] else [])
    /\ startError (state w) =
         (if isAuthLoading e then None
          else if negb (isSome (templateId e)) then Some "无效的试卷 ID。"
          else if negb (isSome (user e)) then Some "请先登录。"
          else None)
    /\ isLoadingTemplate (state w) =
         (isAuthLoading e || (isSome (templateId e) && isSome (user e)))
    /\ templateInfo (state w) = None /\ pendingStarts w = [] /\ nav w = []
    /\ env w = e
    /\ guardPushes r (env w) =
         (if negb (isAuthLoading e) && negb (isSome (user e))
          then ["/login"] else [])
    /\ screen r (env w) =
         (if isAuthLoading e then AuthLoader
          else if isSome (user e) then Guarded ProtectedRoute.Children
               else Guarded ProtectedRoute.Nothing).
Proof.
  intros e r w.
  assert (H1 : role (state (pass (mount e))) = parseRole (roleParam e)
    /\ requests (pass (mount e)) =
         (if negb (isAuthLoading e) && isSome (templateId e) && isSome (user e)
          then [GetTemplates] else [])
    /\ startError (state (pass (mount e))) =
         (if isAuthLoading e then None
          else if negb (isSome (templateId e)) then Some "无效的试卷 ID。"
          else if negb (isSome (user e)) then Some "请先登录。"
          else None)
    /\ isLoadingTemplate (state (pass (mount e))) =
         (isAuthLoading e || (isSome (templateId e) && isSome (user e)))
    /\ templateInfo (state (pass (mount e))) = None
    /\ pendingStarts (pass (mount e)) = []).
  { rewrite pass_effects. unfold effects.
    change (deps (mount e)) with noDeps. unfold noDeps.
    cbn [roleDeps templateDeps startDeps receiverDeps senderDeps errorDeps].
    rewrite !start_rerun_None.
    change (set_view (state (mount e)) (mount e)) with (mount e).
    change (env (mount e)) with e.
    set (w1 := roleEffect (mount e)).
    assert (K1 : shown w1 = (parseRole (roleParam e), [], None, true, None, [])
                 /\ env w1 = e /\ view w1 = initialState).
    { unfold w1, roleEffect, parseRole. cbn [mount env].
      repeat case_match; repeat split. }
    clearbody w1. destruct K1 as (K1 & E1 & V1).
    set (w2 := templateEffect w1).
    assert (K2 : shown w2 =
      (parseRole (roleParam e),
       (if negb (isAuthLoading e) && isSome (templateId e) && isSome (user e)
        then [GetTemplates] else []),
       (if isAuthLoading e then None
        else if negb (isSome (templateId e)) then Some "无效的试卷 ID。"
        else if negb (isSome (user e)) then Some "请先登录。"
        else None),
       (isAuthLoading e || (isSome (templateId e) && isSome (user e))),
       None, [])
      /\ env w2 = e /\ view w2 = initialState).
    { unfold w2, templateEffect, fetchTemplateDetails. rewrite E1.
      unfold shown in K1 |- *. injection K1 as A1 A2 A3 A4 A5 A6.
      destruct (isAuthLoading e); cbn [negb andb orb];
        [rewrite A1, A2, A3, A4, A5, A6; auto|].
      destruct (isSome (templateId e)); cbn [negb andb orb];
        [|cbn; rewrite A1, A2, A5, A6; auto].
      destruct (isSome (user e)); cbn [negb andb orb];
        cbn; rewrite A1, A2, A5, A6; auto. }
    clearbody w2. destruct K2 as (K2 & E2 & V2).
    assert (H3 : startEffect w2 = w2).
    { rewrite startEffect_spec. unfold startEffectFires. rewrite V2. reflexivity. }
    rewrite H3.
    set (w4 := receiverEffect w2).
    assert (K4 : state w4 = state w2 /\ pendingStarts w4 = pendingStarts w2
                 /\ requests w4 = requests w2) by apply receiverEffect_state.
    clearbody w4. destruct K4 as (S4 & P4 & R4).
    set (w5 := senderEffect w4).
    assert (K5 : state w5 = state w4 /\ pendingStarts w5 = pendingStarts w4
                 /\ requests w5 = requests w4) by apply senderEffect_state.
    clearbody w5. destruct K5 as (S5 & P5 & R5).
    cbn [set_deps state requests pendingStarts].
    assert (K6 : shown (connectErrorEffect w5) = shown w5).
    { unfold connectErrorEffect, shown. repeat case_match; reflexivity. }
    unfold shown in K6. injection K6 as B1 B2 B3 B4 B5 B6.
    rewrite B1, B2, B3, B4, B5, B6, S5, S4, P5, P4, R5, R4.
    unfold shown in K2. injection K2 as C1 C2 C3 C4 C5 C6.
    rewrite C1, C2, C3, C4, C5, C6. auto 10. }
  destruct H1 as (A1 & A2 & A3 & A4 & A5 & A6).
  destruct (commit_first (mount e) A5) as (S & R & P & N).
  assert (E : env w = e).
  { unfold w, start. rewrite (proj1 (commit_basic _)). reflexivity. }
  rewrite E.
  assert (G : guardPushes r e =
                (if negb (isAuthLoading e) && negb (isSome (user e))
                 then ["/login"] else [])
              /\ screen r e =
                   (if isAuthLoading e then AuthLoader
                    else if isSome (user e) then Guarded ProtectedRoute.Children
                         else Guarded ProtectedRoute.Nothing)).
  { unfold guardPushes, screen, ProtectedRoute.effect, ProtectedRoute.render.
    destruct (isAuthLoading e); [split; reflexivity|].
    destruct (user e); split; reflexivity. }
  destruct G as [G1 G2].
  subst w. unfold start. set (p := pass (mount e)) in *. clearbody p.
  rewrite S, R, P, N. auto 12.
Qed.

(** *** The theorems above at concrete sessions *)


Lemma senderStarting_Quiescent : Quiescent senderStarting.
Proof.
  exact (start_commit_Quiescent
           (handle (TemplatesSettled (Fulfilled (Some [commTemplate])))
              (start senderEnv))).
Qed.

Lemma run_last_Quiescent evs ev w : Quiescent (run (evs ++ [ev]) w).
Proof. rewrite run_snoc. apply start_commit_Quiescent. Qed.

Lemma receiverJoining_Quiescent : Quiescent receiverJoining.
Proof. exact (run_last_Quiescent [Input "ab12cd"] InvokeJoin receiverReady). Qed.

Lemma senderWaiting_Quiescent : Quiescent senderWaiting.
Proof.
  exact (start_commit_Quiescent
           (handle (StartSettled (Fulfilled startedWithCode)) senderStarting)).
Qed.

Lemma senderStarting_state :
  pendingStarts senderStarting = [Some sender]
  /\ isStartingAttempt (state senderStarting) = true
  /\ templateInfo (state senderStarting) = Some commTemplate
  /\ isLoadingTemplate (state senderStarting) = false
  /\ truthyNum (attemptId (state senderStarting)) = false
  /\ isSome (role (state senderStarting)) = true
  /\ is_sender (role (state senderStarting)) || is_intelligence commTemplate = true
  /\ isSome (user (env senderStarting)) = true
  /\ isSome (templateId (env senderStarting)) = true.
Proof. vm_compute. auto 10. Qed.

Lemma senderWaiting_state :
  exists c, senderListeners senderWaiting = Some c /\ attemptId c = Some 5.
Proof. vm_compute. eexists. split; reflexivity. Qed.

Lemma start_pending : pendingTemplates (start receiverEnv) = [Some 7].
Proof. vm_compute. reflexivity. Qed.


Lemma failed_start_witness :
  Quiescent senderStarting /\ pendingStarts senderStarting = [Some sender]
  /\ noAttemptId (Failed unavailable) = true
  /\ requests (step senderStarting (StartSettled (Failed unavailable)))
     = (requests senderStarting
          ++ [PostStart (templateId (env senderStarting))
                (role (state senderStarting))])%list.
Proof.
  destruct senderStarting_state as (S1 & S2 & S3 & S4 & S5 & S6 & S7 & S8 & S9).
  split; [exact senderStarting_Quiescent|]. split; [exact S1|].
  split; [reflexivity|].
  exact (proj1 (failed_start_is_retried_at_once senderStarting (Some sender) []
                  (Failed unavailable) commTemplate senderStarting_Quiescent
                  S1 eq_refl S2 S3 S4 S5 S6 S7 S8 S9)).
Defined.

Lemma start_answer_witness :
  Quiescent senderStarting /\ pendingStarts senderStarting = [Some sender]
  /\ r_attemptId startedWithCode = Some 5 /\ 5 <> 0
  /\ attemptId (state (step senderStarting (StartSettled (Fulfilled startedWithCode))))
     = Some 5.
Proof.
  split; [exact senderStarting_Quiescent|].
  split; [exact (proj1 senderStarting_state)|]. split; [reflexivity|].
  split; [discriminate|].
  exact (proj1 (start_answer_enters_attempt senderStarting (Some sender) []
                  startedWithCode 5 senderStarting_Quiescent
                  (proj1 senderStarting_state) eq_refl ltac:(discriminate))).
Defined.

Lemma join_failure_witness :
  Quiescent receiverJoining /\ pendingJoins receiverJoining = 1%nat
  /\ noAttemptId (Failed unavailable) = true
  /\ isJoiningPairing (state (step receiverJoining (JoinSettled (Failed unavailable))))
     = false.
Proof.
  split; [exact receiverJoining_Quiescent|].
  split; [exact receiverJoining_pending|]. split; [reflexivity|].
  exact (proj1 (proj2
           (join_failure_returns_to_editable_join receiverJoining 0
              (Failed unavailable) receiverJoining_Quiescent receiverJoining_pending
              eq_refl))).
Defined.

Lemma sender_partner_witness :
  Quiescent senderWaiting
  /\ (exists c, senderListeners senderWaiting = Some c /\ attemptId c = Some 5)
  /\ nav (step senderWaiting (Socket (pairing_success None (Some "bob"))))
     = (nav senderWaiting ++ [Push (QuizAttempt (Some 5))])%list.
Proof.
  split; [exact senderWaiting_Quiescent|]. split; [exact senderWaiting_state|].
  destruct senderWaiting_state as (c & Hl & Ha).
  exact (proj1 (proj2 (proj1
           (sender_follows_partner_events senderWaiting c 5 None (Some "bob")
              senderWaiting_Quiescent Hl Ha ltac:(discriminate))))).
Defined.

Lemma template_lookup_witness :
  Quiescent (start receiverEnv) /\ pendingTemplates (start receiverEnv) = [Some 7]
  /\ isLoadingTemplate
       (state (step (start receiverEnv)
                 (TemplatesSettled (Fulfilled (Some [commTemplate]))))) = false.
Proof.
  split; [apply start_commit_Quiescent|]. split; [exact start_pending|].
  exact (proj1 (template_lookup_picks_route_template (start receiverEnv) (Some 7) []
                  (Some [commTemplate]) (start_commit_Quiescent _) start_pending)).
Defined.

End StartPageMore.

(** ** The socket module, the API client and the helpers of [utils.ts] *)

Module LibFacts.
Import JS SocketClient SocketProvider SocketUrl ApiClient AuthApi Utils.

(** *** The socket module *)

(** X20. [initSocket] creates the socket once: the first call adds one
    socket that is not connected and leaves every other object alone, a
    second call returns the same socket and changes nothing.  Until the
    connection is established an event passed to [emitSocketEvent] is
    dropped. *)
Theorem initSocket_creates_one_unconnected_socket :
  forall (st : Store) (event : string) (args : list string),
    let st1 := (initSocket st).1 in
    let l1 := (initSocket st).2 in
    initSocket st1 = (st1, l1)
    /\ getSocket st1 = Some l1
    /\ (forall l s, heap st !! l = Some s -> heap st1 !! l = Some s)
    /\ (getSocket st = None ->
        heap st1 !! l1 = Some (mkSocket false [])
        /\ emitSocketEvent event args st1 = st1).
Proof.
  intros st event args. unfold initSocket, getSocket.
  destruct (socket st) as [l|] eqn:Hs; cbn [fst snd].
  - rewrite Hs. split; [reflexivity|]. split; [reflexivity|].
    split; [auto|discriminate].
  - set (l := fresh (dom (heap st))).
    assert (Hl : heap st !! l = None).
    { apply not_elem_of_dom. apply is_fresh. }
    cbn [socket heap]. split; [reflexivity|]. split; [reflexivity|]. split.
    + intros l' s Hl'. rewrite lookup_insert_ne; [exact Hl'|]. congruence.
    + intros _. split; [apply lookup_insert_eq|].
      unfold emitSocketEvent, getSocket, is_connected. cbn [socket heap].
      rewrite lookup_insert_eq. reflexivity.
Qed.

Lemma prefix_http s : String.prefix "http://" ("http://" ++ s) = true.
Proof. cbn. destruct s; reflexivity. Qed.

(** X21. The socket URL always carries a scheme: a configured value that
    starts with http:// or https:// is used as it is, any other gets
    http:// put in front, and without a configured value the URL is
    http://localhost:7575.  Applying the function to its own result returns
    that result. *)
Theorem getSocketUrl_has_scheme :
  forall envUrl : option string,
    let url := getSocketUrl envUrl in
    (String.prefix "http://" url = true \/ String.prefix "https://" url = true)
    /\ getSocketUrl (Some url) = url
    /\ (truthyStr envUrl = false -> url = "http://localhost:7575")
    /\ (forall s, envUrl = Some s ->
          String.prefix "http://" s = true \/ String.prefix "https://" s = true ->
          url = s)
    /\ (forall s, envUrl = Some s -> isEmpty s = false ->
          String.prefix "http://" s = false -> String.prefix "https://" s = false ->
          url = "http://" ++ s)
    /\ getSocketUrl (Some "exam.example.org:7575") = "http://exam.example.org:7575"
    /\ getSocketUrl (Some "https://exam.example.org") = "https://exam.example.org".
Proof.
  intros envUrl url.
  assert (H1 : String.prefix "http://" url = true \/ String.prefix "https://" url = true).
  { unfold url, getSocketUrl.
    destruct (String.prefix "http://" (orStr envUrl _)) eqn:E1; cbn [negb andb];
      [left; exact E1|].
    destruct (String.prefix "https://" (orStr envUrl _)) eqn:E2; cbn [negb andb];
      [right; exact E2|].
    left. apply prefix_http. }
  assert (Hne : isEmpty url = false).
  { destruct url; [|reflexivity]. destruct H1 as [H|H]; discriminate. }
  split; [exact H1|]. split; [|split; [|split; [|split; [|split; reflexivity]]]].
  - unfold getSocketUrl at 1. cbn [orStr]. rewrite Hne.
    destruct H1 as [H|H]; rewrite H; cbn [negb andb]; [reflexivity|].
    rewrite andb_false_r. reflexivity.
  - intros Hf. unfold url, getSocketUrl.
    replace (orStr envUrl "http://localhost:7575") with "http://localhost:7575";
      [reflexivity|].
    destruct envUrl as [s|]; [|reflexivity]. cbn in Hf |- *.
    apply negb_false_iff in Hf. rewrite Hf. reflexivity.
  - intros s -> Hs. unfold url, getSocketUrl.
    assert (Hs' : isEmpty s = false).
    { destruct s; [|reflexivity]. destruct Hs as [H|H]; discriminate. }
    cbn [orStr]. rewrite Hs'.
    destruct Hs as [H|H]; rewrite H; cbn [negb andb]; [reflexivity|].
    rewrite andb_false_r. reflexivity.
  - intros s -> Hs Ha Hb. unfold url, getSocketUrl. cbn [orStr].
    rewrite Hs, Ha, Hb. reflexivity.
Qed.

(** *** The API client *)

Lemma wrap_failure {A} (dflt : string) (e : AxiosError) :
  isEmpty dflt = false ->
  exists m, wrap (A := A) dflt (Failed e) = Thrown (mkError m None)
            /\ isEmpty m = false
            /\ m = (if truthyStr (responseMessage e)
                    then default "" (responseMessage e) else dflt).
Proof.
  intros Hd. exists (orStr (responseMessage e) dflt).
  split; [reflexivity|]. split.
  - unfold orStr. destruct (responseMessage e) as [s|]; [|exact Hd].
    destruct (isEmpty s) eqn:E; [exact Hd|exact E].
  - unfold orStr, truthyStr. destruct (responseMessage e) as [s|]; [|reflexivity].
    destruct (isEmpty s); reflexivity.
Qed.

Lemma wrap_Explains {A} (dflt : string) (e : AxiosError) :
  isEmpty dflt = false -> Explains dflt (wrap (A := A) dflt (Failed e)) e.
Proof.
  intros Hd. destruct (wrap_failure (A := A) dflt e Hd) as (m & -> & Hm & Heq).
  exists m. split; [reflexivity|]. split; [exact Hm|]. split.
  - intros Ht. rewrite Ht in Heq. subst m.
    destruct (responseMessage e); [reflexivity|discriminate].
  - intros Ht. rewrite Ht in Heq. exact Heq.
Qed.

Lemma orStr_Explains {A} (dflt : string) (st : option string) (e : AxiosError) :
  isEmpty dflt = false ->
  Explains (A := A) dflt (Thrown (mkError (orStr (responseMessage e) dflt) st)) e.
Proof.
  intros Hd. exists (orStr (responseMessage e) dflt).
  split; [reflexivity|]. split; [apply AttemptPageFacts.orStr_nonempty; exact Hd|].
  unfold truthyStr, orStr. destruct (responseMessage e) as [m|].
  - destruct (isEmpty m); split; (reflexivity || discriminate).
  - split; [discriminate|reflexivity].
Qed.

(** X22. Every function of [authAPI], [templatesAPI] and [attemptsAPI] that
    fails rejects with a message that is never empty: the message of the
    server's answer when that has one, the function's own text otherwise;
    for [getActiveAttemptDetails] the own text is one for a 409 answer and
    another for any other failure.  [checkAuth] alone replaces every
    failure by one fixed message.  Only [getActiveAttemptDetails] attaches
    a status to the error, and only for a 409 answer, whose status it
    copies; no other function attaches one. *)
Theorem api_failures_explain_themselves :
  forall e : AxiosError,
    (Explains "无法开始答题，请稍后重试" (startAttempt (Failed e)) e
     /\ Explains "提交答案时发生错误" (submitAttempt (A := unit) (Failed e)) e
     /\ Explains "配对失败，请检查配对码或稍后重试" (joinPairing (Failed e)) e
     /\ Explains "无法加载试卷模板，请稍后重试" (getActiveTemplates (Failed e)) e
     /\ Explains (if isConflict e then "该答题已结束。" else "无法加载答题数据")
          (getActiveAttemptDetails (Failed e)) e
     /\ Explains "登录失败，请检查用户名和密码" (login (Failed e)) e
     /\ Explains "注册失败，用户名可能已被占用" (register (Failed e)) e
     /\ Explains "登出操作失败" (logout (Failed e)) e
     /\ Explains "无法加载历史记录" (getHistory (A := unit) (Failed e)) e
     /\ Explains "无法加载答题详情"
          (getHistoryAttemptDetails (A := unit) (Failed e)) e)
    /\ thrownMessage (checkAuth (Failed e)) = Some "用户未登录或登录已过期"
    /\ thrownStatus (getActiveAttemptDetails (Failed e)) =
         match response e with
         | Some r => if httpStatus r =? 409 then dataStatus r else None
         | None => None
         end
    /\ (thrownStatus (startAttempt (Failed e)) = None
        /\ thrownStatus (submitAttempt (A := unit) (Failed e)) = None
        /\ thrownStatus (joinPairing (Failed e)) = None
        /\ thrownStatus (getActiveTemplates (Failed e)) = None
        /\ thrownStatus (checkAuth (Failed e)) = None
        /\ thrownStatus (login (Failed e)) = None
        /\ thrownStatus (register (Failed e)) = None
        /\ thrownStatus (logout (Failed e)) = None
        /\ thrownStatus (getHistory (A := unit) (Failed e)) = None
        /\ thrownStatus (getHistoryAttemptDetails (A := unit) (Failed e)) = None).
Proof.
  intros e. split; [|split; [reflexivity|split; [|repeat split]]].
  - repeat split; try (apply wrap_Explains; reflexivity).
    unfold getActiveAttemptDetails, isConflict.
    destruct (response e) as [r|] eqn:Hr.
    + assert (Hm : responseMessage e = dataMessage r)
        by (unfold responseMessage; rewrite Hr; reflexivity).
      rewrite <- Hm.
      destruct (httpStatus r =? 409); apply orStr_Explains; reflexivity.
    + exists "无法加载答题数据". split; [reflexivity|].
      split; [reflexivity|].
      unfold responseMessage. rewrite Hr. split; [discriminate|reflexivity].
  - unfold getActiveAttemptDetails, thrownStatus.
    destruct (response e) as [r|]; [|reflexivity].
    destruct (httpStatus r =? 409); reflexivity.
Qed.

(** *** Labels *)

Lemma append_empty_r s : s ++ "" = s.
Proof.
  induction s as [|c s IH]; [reflexivity|].
  change (String c s ++ "") with (String c (s ++ "")). f_equal. exact IH.
Qed.

Lemma eqb_chain_nonempty (s : string) (l : list (string * string)) :
  isEmpty s = false -> Forall (fun p => isEmpty p.2 = false) l ->
  isEmpty (fold_right (fun p r => if String.eqb s p.1 then p.2 else r) s l) = false.
Proof.
  intros Hs Hl. induction Hl as [|p l Hp Hl IH]; cbn; [exact Hs|].
  destruct (String.eqb s p.1); assumption.
Qed.

Lemma methodName_nonempty m :
  truthyStr m = true -> isEmpty (getCommunicationMethodName m) = false.
Proof.
  destruct m as [m|]; [|discriminate]. cbn. intros H%negb_true_iff. rewrite H.
  apply (eqb_chain_nonempty m
           [("sign_language", "手语"); ("semaphore", "旗语"); ("sound", "音响");
            ("light", "光亮")] H).
  repeat constructor.
Qed.

Lemma subtypeName_nonempty m s :
  truthyStr m = true -> truthyStr s = true ->
  isEmpty (getCommunicationSubtypeName m s) = false.
Proof.
  destruct m as [m|]; [|discriminate]. destruct s as [s|]; [|discriminate].
  cbn. intros Hm%negb_true_iff Hs%negb_true_iff. rewrite Hm, Hs. cbn [orb].
  destruct (String.eqb m "sign_language").
  - apply (eqb_chain_nonempty s
             [("number", "数字"); ("formation", "队形"); ("command", "命令");
              ("inform", "告知"); ("specific_designation", "专指");
              ("direction", "方位"); ("sentence", "句子 (组合)")] Hs).
    repeat constructor.
  - destruct (String.eqb m "semaphore"); [|exact Hs].
    apply (eqb_chain_nonempty s
             [("command", "指挥"); ("number", "数字"); ("service", "勤务")] Hs).
    repeat constructor.
Qed.

Lemma subtypeName_empty m s :
  truthyStr m = false \/ truthyStr s = false -> getCommunicationSubtypeName m s = "".
Proof.
  destruct m as [m|], s as [s|]; cbn; try reflexivity.
  intros [H|H]; apply negb_false_iff in H; rewrite H; [|rewrite orb_true_r]; reflexivity.
Qed.

Lemma eqb_not_listed (s : string) (l : list string) (x : string) :
  ~ In s l -> In x l -> String.eqb s x = false.
Proof.
  intros Hn Hx. apply String.eqb_neq. intros ->. exact (Hn Hx).
Qed.

(** X23. The label of a communication question is the name of its method,
    followed by " - " and the name of the subtype when both a method and a
    subtype are given; without a method it is empty whatever the subtype,
    and the long-sentence flag has no effect.  Names are never empty: a
    method, subtype or question type without a translation is shown as it
    is, and a missing question type as '未知类型'. *)
Theorem communication_label_form :
  forall (method subtype type : option string) (isLongSentence : option bool),
    getCommunicationTypeDisplay method subtype isLongSentence =
      (if truthyStr method
       then getCommunicationMethodName method
            ++ (if truthyStr subtype
                then " - " ++ getCommunicationSubtypeName method subtype else "")
       else "")
    /\ (truthyStr method = true ->
        isEmpty (getCommunicationMethodName method) = false
        /\ (truthyStr subtype = true ->
            isEmpty (getCommunicationSubtypeName method subtype) = false))
    /\ isEmpty (getQuestionTypeName type) = false
    /\ (getQuestionTypeName None = "未知类型"
        /\ getQuestionTypeName (Some "") = "未知类型"
        /\ getQuestionTypeName (Some "coordinate") = "坐标读取"
        /\ getCommunicationMethodName (Some "semaphore") = "旗语"
        /\ getCommunicationSubtypeName (Some "semaphore") (Some "command") = "指挥")
    /\ (forall t, isEmpty t = false ->
          ~ In t ["coordinate"; "elevation"; "communication"] ->
          getQuestionTypeName (Some t) = t)
    /\ (forall m, isEmpty m = false ->
          ~ In m ["sign_language"; "semaphore"; "sound"; "light"] ->
          getCommunicationMethodName (Some m) = m)
    /\ (forall m s, isEmpty m = false -> isEmpty s = false ->
          ~ In s (if String.eqb m "sign_language"
                  then ["number"; "formation"; "command"; "inform";
                        "specific_designation"; "direction"; "sentence"]
                  else if String.eqb m "semaphore"
                       then ["command"; "number"; "service"]
                       else []) ->
          getCommunicationSubtypeName (Some m) (Some s) = s).
Proof.
  intros method subtype type isLongSentence.
  split; [|split; [|split; [|split; [|split; [|split]]]]].
  - unfold getCommunicationTypeDisplay.
    destruct (truthyStr method) eqn:Hm.
    + destruct (truthyStr subtype) eqn:Hs.
      * rewrite (subtypeName_nonempty _ _ Hm Hs). reflexivity.
      * rewrite (subtypeName_empty method subtype (or_intror Hs)).
        cbn [isEmpty negb]. symmetry. apply append_empty_r.
    + rewrite (subtypeName_empty method subtype (or_introl Hm)). cbn [isEmpty negb].
      destruct method as [m|]; [|reflexivity]. cbn in Hm |- *.
      apply negb_false_iff in Hm. rewrite Hm. reflexivity.
  - intros Hm. split; [exact (methodName_nonempty _ Hm)|].
    intros Hs. exact (subtypeName_nonempty _ _ Hm Hs).
  - destruct type as [t|]; [|reflexivity]. cbn.
    destruct (isEmpty t) eqn:Ht; [reflexivity|].
    apply (eqb_chain_nonempty t
             [("coordinate", "坐标读取"); ("elevation", "高程读取");
              ("communication", "通信题")] Ht).
    repeat constructor.
  - repeat split; reflexivity.
  - intros t Ht Hn. unfold getQuestionTypeName. rewrite Ht.
    rewrite !(eqb_not_listed t _ _ Hn) by (cbn; tauto). reflexivity.
  - intros m Hm Hn. unfold getCommunicationMethodName. rewrite Hm.
    rewrite !(eqb_not_listed m _ _ Hn) by (cbn; tauto). reflexivity.
  - intros m s Hm Hs Hn. unfold getCommunicationSubtypeName.
    rewrite Hm, Hs. cbn [orb].
    destruct (String.eqb m "sign_language").
    + rewrite !(eqb_not_listed s _ _ Hn) by (cbn; tauto). reflexivity.
    + destruct (String.eqb m "semaphore"); [|reflexivity].
      rewrite !(eqb_not_listed s _ _ Hn) by (cbn; tauto). reflexivity.
Qed.

(** *** Dates *)

Lemma lastChar_app_Z s : lastChar (s ++ "Z") = Some "Z"%char.
Proof.
  induction s as [|c s IH]; [reflexivity|].
  change (String c s ++ "Z") with (String c (s ++ "Z")).
  destruct (s ++ "Z") eqn:E; [destruct s; discriminate|].
  exact IH.
Qed.

Lemma lacksTimezone_app_Z s : lacksTimezone (s ++ "Z") = false.
Proof.
  unfold lacksTimezone, endsWithChar. rewrite lastChar_app_Z.
  rewrite Ascii.eqb_refl. cbn [negb]. rewrite andb_false_r. reflexivity.
Qed.

Lemma isEmpty_app_Z s : isEmpty (s ++ "Z") = false.
Proof. destruct s; reflexivity. Qed.

(** X24. A timestamp without a time zone is read as UTC: a string that
    contains 'T', does not end in 'Z' and does not end in an offset
    (sign, two digits, optional colon, two digits) is formatted exactly as
    the same string with 'Z' appended, whatever the date parser and the
    locale formatter do.  Any other string is parsed as it is.  A missing
    or empty string, and a string the parser rejects, give the
    placeholder. *)
Theorem zoneless_timestamp_is_read_as_utc :
  forall (parseDate : string -> option Z) (toLocaleString : Z -> string)
         (s placeholder : string),
    let format := formatUtcToLocal parseDate toLocaleString in
    (lacksTimezone s = true ->
     format (Some s) placeholder = format (Some (s ++ "Z")) placeholder)
    /\ (lacksTimezone s = false -> isEmpty s = false ->
        format (Some s) placeholder =
          match parseDate s with
          | Some date => toLocaleString date
          | None => placeholder
          end)
    /\ format None placeholder = placeholder
    /\ format (Some "") placeholder = placeholder.
Proof.
  intros parseDate toLocaleString s placeholder format.
  split; [|split; [|split; reflexivity]].
  - intros Hl. unfold format, formatUtcToLocal.
    rewrite Hl, lacksTimezone_app_Z, isEmpty_app_Z.
    destruct (isEmpty s) eqn:E; [|reflexivity].
    destruct s; [discriminate Hl|discriminate E].
  - intros Hl Hs. unfold format, formatUtcToLocal. rewrite Hs, Hl. reflexivity.
Qed.

End LibFacts.

(** ** The session and the protected pages *)

Module AuthFacts.
Import JS ApiClient AuthApi AuthProvider ProtectedRoute.

#[local] Set Warnings "-clear-no-such-hyp".

(** X25. A protected page shows its content exactly when the session is
    known, a user is signed in and, on an admin-only page, that user is an
    admin; it shows the loader exactly while the session is being checked.
    In every other case it shows nothing and redirects, once: to /login
    when nobody is signed in, to /dashboard when the user is not an admin.
    It never redirects while it shows the loader or the content. *)
Theorem protected_route_renders_or_redirects :
  forall (user : option User) (isLoading adminOnly : bool),
    let r := render user isLoading adminOnly in
    let pushes := effect user isLoading adminOnly in
    (r = Children <->
       isLoading = false
       /\ exists u, user = Some u /\ (adminOnly = true -> u_role u = admin_role))
    /\ (r = Loader <-> isLoading = true)
    /\ (r = Nothing <-> pushes <> [])
    /\ (pushes = ["/login"] <-> isLoading = false /\ user = None)
    /\ (pushes = ["/dashboard"] <->
          isLoading = false /\ adminOnly = true
          /\ exists u, user = Some u /\ u_role u <> admin_role)
    /\ (pushes = [] \/ pushes = ["/login"] \/ pushes = ["/dashboard"]).
Proof.
  intros user isLoading adminOnly r pushes. subst r pushes.
  unfold render, effect.
  destruct isLoading, adminOnly, user as [[i n [|]]|]; cbn; naive_solver.
Qed.

(** X26. While the session is being checked a protected page shows the
    loader and does not redirect.  When the check fails, for whatever
    reason, the user is signed out, the page shows nothing and redirects to
    /login; when it succeeds the user of the answer is signed in and the
    page shows its content, unless it is admin-only and the user is not an
    admin.  The check itself pushes no route. *)
Theorem session_check_gates_protected_pages :
  forall (o : Outcome User) (a : Auth) (adminOnly : bool),
    let checking := checkAuthStatus a in
    let a' := checkAuthStatus_settled o checking in
    (render (user checking) (isLoading checking) adminOnly = Loader
     /\ effect (user checking) (isLoading checking) adminOnly = [])
    /\ isLoading a' = false /\ pushed a' = pushed a
    /\ match o with
       | Failed _ =>
           user a' = None
           /\ render (user a') (isLoading a') adminOnly = Nothing
           /\ effect (user a') (isLoading a') adminOnly = ["/login"]
       | Fulfilled u =>
           user a' = Some u
           /\ render (user a') (isLoading a') adminOnly =
                (if adminOnly && negb (bool_decide (u_role u = admin_role))
                 then Nothing else Children)
           /\ effect (user a') (isLoading a') adminOnly =
                (if adminOnly && negb (bool_decide (u_role u = admin_role))
                 then ["/dashboard"] else [])
       end.
Proof.
  intros o a adminOnly checking a'. subst checking a'.
  unfold checkAuthStatus, checkAuthStatus_settled, render, effect.
  destruct o as [u|e]; cbn; destruct (user a); cbn; repeat split.
Qed.

(** X27. A login that is answered with a user signs that user in and goes
    to /dashboard from the login page, and to the current path from any
    other page.  A login that fails, or whose answer has no user, leaves
    the session and the route as they were and rejects with a message that
    is never empty. *)
Theorem login_signs_in_or_explains :
  forall (pathname : string) (o : Outcome ApiAuthResponse) (a : Auth),
    let a' := (login_settled pathname o a).1 in
    match (login_settled pathname o a).2 with
    | None =>
        exists response u,
          o = Fulfilled response /\ auth_user response = Some u
          /\ user a' = Some u
          /\ pushed a' =
               (pushed a ++ [if String.eqb pathname "/login"
                             then "/dashboard" else pathname])%list
    | Some err =>
        a' = a /\ isEmpty (message err) = false
        /\ (forall response, o = Fulfilled response -> auth_user response = None)
    end.
Proof.
  intros pathname o a a'. subst a'. unfold login_settled, AuthApi.login, wrap.
  destruct o as [response|e].
  - destruct (auth_user response) as [u|] eqn:Hu; cbn [fst snd].
    + exists response, u. repeat split. exact Hu.
    + split; [reflexivity|]. split.
      * apply AttemptPageFacts.orStr_nonempty. reflexivity.
      * intros r [= <-]. exact Hu.
  - cbn [fst snd]. split; [reflexivity|]. split.
    + apply AttemptPageFacts.orStr_nonempty. reflexivity.
    + intros r [=].
Qed.

End AuthFacts.

(** ** Submitting, and the sender's clock *)

Module SubmitFacts.
Import JS ApiClient Router AttemptPage AttemptView AttemptPageFacts Scenario.Attempt AttemptExamples AttemptPageMore.

(** X28. A submission the server accepts raises the success toast and
    pushes /quiz/result/{id} for the attempt id the submitting render knew,
    once.  It sends nothing, keeps the answers, and leaves the submitting
    flag set, so the form stays locked until the route changes. *)
Theorem accepted_submission_opens_result :
  forall (w : World) (aid : option Z) rest (now : Z),
    Quiescent w -> pendingSubmits w = aid :: rest ->
    let w' := step w (now, SubmitSettled (Fulfilled tt)) in
    nav w' = (nav w ++ [Push (QuizResult aid)])%list
    /\ toasts w' = (toasts w ++ [Toast.mk Toast.success "答案提交成功！" None])%list
    /\ path (QuizResult aid) = "/quiz/result/" ++ numberToString aid
    /\ pageState w' = pageState w /\ answers w' = answers w
    /\ requests w' = requests w /\ pendingSubmits w' = rest
    /\ (isSubmitting (pageState w) = true ->
        submitButtonEnabled (view w') = false).
Proof.
  intros w aid rest now Hq Hp w'.
  assert (Hh : handle (SubmitSettled (Fulfilled tt)) w =
               navigate (Push (QuizResult aid))
                 (toast Toast.success "答案提交成功！" None
                    (set_pendingSubmits rest w))).
  { unfold handle. rewrite Hp. reflexivity. }
  subst w'. unfold step. cbn [fst snd].
  set (h := handle (SubmitSettled (Fulfilled tt)) w) in *.
  assert (Hfd : fetchDeps (deps h) = Some (fetchDepsOf (closureOf h))).
  { rewrite Hh. simpl. apply (Quiescent_fetchDeps w Hq). }
  destruct (commit_settled now h Hfd) as (Q & V & E & P & A & R & N & PS & PF & IX).
  assert (Hk : nav h = (nav w ++ [Push (QuizResult aid)])%list
               /\ pageState h = pageState w /\ answers h = answers w
               /\ requests h = requests w /\ pendingSubmits h = rest)
    by (rewrite Hh; repeat split).
  destruct Hk as (K1 & K2 & K3 & K4 & K5).
  assert (T : toasts (commit now h) =
              (toasts w ++ [Toast.mk Toast.success "答案提交成功！" None])%list).
  { rewrite (commit_id now h); [rewrite Hh; reflexivity|].
    rewrite Hh. destruct Hq as [Vq Dq]. split; [exact Vq|exact Dq]. }
  clearbody h.
  rewrite N, P, A, R, PS, V, T.
  repeat (split; [assumption || reflexivity|]).
  intros Hs. unfold submitButtonEnabled. cbn [closureOf c_pageState].
  rewrite K2, Hs, andb_false_r. destruct (render _); reflexivity.
Qed.

Lemma submitButton_form c :
  submitButtonEnabled c = true ->
  isSubmitting (c_pageState c) = false /\ is_sender (role (c_pageState c)) = false
  /\ isLastQuestion c = true /\ exists q, render c = AnswerForm q.
Proof.
  unfold submitButtonEnabled. destruct (render c) as [| | | |q] eqn:Hr;
    try discriminate.
  intros [H1 H2%negb_true_iff]%andb_true_iff.
  split; [exact H2|]. split; [exact (render_form_not_sender c q Hr)|].
  split; [exact H1|]. exists q. reflexivity.
Qed.

(** X29. A click on the enabled submit button posts the answers on screen
    for the attempt of the route, once, and locks the form: after the
    render that follows, further clicks on submit, next and previous send
    nothing and do not move. *)
Theorem submit_click_posts_answers_and_locks_form :
  forall (w : World) (now : Z),
    Quiescent w -> submitButtonEnabled (view w) = true ->
    let w' := step w (now, ClickSubmit) in
    requests w' = (requests w ++ [submitRequest w])%list
    /\ pendingSubmits w' = (pendingSubmits w ++ [attemptId (env w)])%list
    /\ isSubmitting (pageState w') = true /\ answers w' = answers w
    /\ nav w' = nav w
    /\ (forall ev, ev = ClickSubmit \/ ev = ClickNext \/ ev = ClickPrev ->
          handle ev w' = w').
Proof.
  intros w now Hq Hb w'.
  destruct (submitButton_form _ Hb) as (Hs & Hr & Hl & q & Hq').
  assert (Hv : view w = closureOf w) by apply Hq.
  assert (Hh : handle ClickSubmit w =
    send (submitRequest w)
      (set_pendingSubmits (pendingSubmits w ++ [attemptId (env w)])
         (setPageState (fun prev => set_error None (set_isSubmitting true prev)) w))).
  { unfold handle. rewrite Hb. unfold handleSubmit. rewrite Hs, Hr.
    rewrite Hv. reflexivity. }
  subst w'. unfold step. cbn [fst snd].
  set (h := handle ClickSubmit w) in *.
  assert (Hfd : fetchDeps (deps h) = Some (fetchDepsOf (closureOf h))).
  { rewrite Hh. simpl. apply (Quiescent_fetchDeps w Hq). }
  destruct (commit_settled now h Hfd) as (Q & V & E & P & A & R & N & PS & PF & IX).
  assert (Hk : requests h = (requests w ++ [submitRequest w])%list
               /\ pendingSubmits h = (pendingSubmits w ++ [attemptId (env w)])%list
               /\ isSubmitting (pageState h) = true /\ answers h = answers w
               /\ nav h = nav w)
    by (rewrite Hh; repeat split).
  destruct Hk as (K1 & K2 & K3 & K4 & K5). clearbody h.
  set (w' := commit now h) in *. clearbody w'.
  rewrite R, PS, P, A, N.
  repeat (split; [assumption|]).
  assert (Hsub : isSubmitting (c_pageState (view w')) = true).
  { rewrite V. cbn [closureOf c_pageState]. exact K3. }
  intros ev [-> | [-> | ->]]; unfold handle, submitButtonEnabled.
  - destruct (render (view w')); try reflexivity.
    rewrite Hsub, andb_false_r. reflexivity.
  - destruct (render (view w')); try reflexivity.
    rewrite Hsub, andb_false_r. reflexivity.
  - destruct (render (view w')); try reflexivity.
    rewrite Hsub, andb_false_r. reflexivity.
Qed.

(** X30. For the sender the countdown ends silently: the callback of the
    interval that finds one second or less sets the clock to 0 and stops
    the interval, and queues no submission, raises no toast and sends
    nothing. *)
Theorem sender_countdown_ends_silently :
  forall (w : World) (c : Closure) (r now : Z),
    Quiescent w -> interval w = Some c -> timeLeft w = Some r -> r <= 1 ->
    is_sender (role (c_pageState c)) = true ->
    let w' := step w (now, IntervalFires) in
    timeLeft w' = Some 0 /\ interval w' = None
    /\ timers w' = timers w /\ toasts w' = toasts w
    /\ requests w' = requests w /\ nav w' = nav w
    /\ run (ticks [now]) w' = w'.
Proof.
  intros w c r now Hq Hi Ht Hr Hs w'.
  assert (Q : Quiescent w') by apply commit_Quiescent.
  subst w'. rewrite (tick_step w now c Hq Hi) in *.
  assert (Htick : tick c w = setTimeLeft (fun _ => Some 0) (set_interval None w)).
  { unfold tick. rewrite Ht.
    replace (r <=? 1) with true by (symmetry; apply Z.leb_le; exact Hr).
    rewrite Hs. reflexivity. }
  rewrite Htick in *.
  set (w' := setTimeLeft _ _) in *.
  assert (K : timeLeft w' = Some 0 /\ interval w' = None /\ timers w' = timers w
              /\ toasts w' = toasts w /\ requests w' = requests w /\ nav w' = nav w)
    by (unfold w'; repeat split).
  destruct K as (K1 & K2 & K3 & K4 & K5 & K6). clearbody w'.
  repeat (split; [assumption|]).
  apply ticks_idle; assumption.
Qed.

(** *** The theorems above at concrete sessions *)

Lemma receiverLoaded_button : submitButtonEnabled (view (receiverLoaded 60)) = true.
Proof. vm_compute. reflexivity. Qed.

Lemma senderLastSecond_clock :
  interval senderLastSecond = Some (view senderLastSecond)
  /\ timeLeft senderLastSecond = Some 1
  /\ is_sender (role (c_pageState (view senderLastSecond))) = true.
Proof. vm_compute. auto. Qed.

Lemma accepted_submission_witness :
  Quiescent (run [(1000, ClickSubmit)] (receiverLoaded 60))
  /\ pendingSubmits (run [(1000, ClickSubmit)] (receiverLoaded 60)) = [Some 5]
  /\ nav (step (run [(1000, ClickSubmit)] (receiverLoaded 60))
            (2000, SubmitSettled (Fulfilled tt)))
     = (nav (run [(1000, ClickSubmit)] (receiverLoaded 60))
          ++ [Push (QuizResult (Some 5))])%list.
Proof.
  split; [apply commit_Quiescent|]. split; [exact clicked_pending|].
  exact (proj1 (accepted_submission_opens_result _ (Some 5) [] 2000
                  (commit_Quiescent _ _) clicked_pending)).
Defined.

Lemma submit_click_witness :
  Quiescent (receiverLoaded 60)
  /\ submitButtonEnabled (view (receiverLoaded 60)) = true
  /\ isSubmitting (pageState (step (receiverLoaded 60) (1000, ClickSubmit))) = true.
Proof.
  split; [apply receiverLoaded_Quiescent|]. split; [exact receiverLoaded_button|].
  exact (proj1 (proj2 (proj2
           (submit_click_posts_answers_and_locks_form (receiverLoaded 60) 1000
              (receiverLoaded_Quiescent 60) receiverLoaded_button)))).
Defined.

Lemma sender_countdown_witness :
  Quiescent senderLastSecond
  /\ interval senderLastSecond = Some (view senderLastSecond)
  /\ timeLeft senderLastSecond = Some 1 /\ 1 <= 1
  /\ timeLeft (step senderLastSecond (1900, IntervalFires)) = Some 0.
Proof.
  destruct senderLastSecond_clock as (S1 & S2 & S3).
  split; [apply commit_Quiescent|]. split; [exact S1|]. split; [exact S2|].
  split; [lia|].
  exact (proj1 (sender_countdown_ends_silently senderLastSecond
                  (view senderLastSecond) 1 1900 (commit_Quiescent _ _) S1 S2
                  ltac:(lia) S3)).
Defined.

End SubmitFacts.

